(** * Edgeswitch modules: command synthesis for VLANs, interfaces and voice

  A shallow embedding of the command-mapping functions of
  [edgeswitch_vlan.py], [edgeswitch_interface.py] and
  [edgeswitch_voice.py], and the properties their specification states
  about them.

  Python values that the modules compare across types (an [int] VLAN id
  from the argument spec against the [str] ids scraped from the device)
  are kept as tagged values; dictionaries are insertion-ordered
  association lists, because the voice module emits its commands in
  dictionary iteration order. *)

From Stdlib Require Import ZArith String Ascii List.
From stdpp Require Import base list strings pretty sorting.

Local Open Scope string_scope.
Local Open Scope list_scope.

(** ** Python values and exceptions *)

Module Py.

(** The values a module parameter of type [int] or [str] can hold. *)
Inductive value :=
| VNone
| VInt (z : Z)
| VStr (s : string).

#[global] Instance value_eq_dec : EqDecision value.
Proof. solve_decision. Defined.

(** [str(v)], which is also what ['{0}'.format(v)] prints. *)
Definition str (v : value) : string :=
  match v with
  | VNone => "None"
  | VInt z => pretty z
  | VStr s => s
  end.

(** [a == b]: an [int] never equals a [str]. *)
Definition eqb (a b : value) : bool := bool_decide (a = b).

(** [v in lst] for a list of strings. *)
Definition in_strs (v : value) (lst : list string) : bool :=
  existsb (fun s => eqb v (VStr s)) lst.

(** Truth value of an optional string: [None] and [''] are false. *)
Definition truthy_str (o : option string) : bool :=
  match o with
  | Some s => negb (bool_decide (s = EmptyString))
  | None => false
  end.

(** Truth value of an optional boolean. *)
Definition truthy_bool (o : option bool) : bool :=
  match o with
  | Some b => b
  | None => false
  end.

(** What can go wrong: a failed dictionary subscript, an operation on
    [None], and [module.fail_json], which ends the run. *)
Inductive exn :=
| KeyError (k : string)
| TypeError
| FailJson (msg : string).

Inductive result (A : Type) :=
| Ok (a : A)
| Raise (e : exn).
Arguments Ok {A} a.
Arguments Raise {A} e.

Definition bind {A B} (m : result A) (k : A -> result B) : result B :=
  match m with
  | Ok a => k a
  | Raise e => Raise e
  end.

(** A [for] loop over [l] threading the state [s], stopping at the first
    exception. *)
Fixpoint for_each {A S} (body : S -> A -> result S) (s : S) (l : list A)
  : result S :=
  match l with
  | [] => Ok s
  | x :: l' => bind (body s x) (fun s' => for_each body s' l')
  end.

End Py.

#[global] Instance result_bind : MBind Py.result := fun _ _ k m => Py.bind m k.
#[global] Instance result_ret : MRet Py.result := fun _ a => Py.Ok a.

(** ** Insertion-ordered dictionaries *)

Module Dict.

Abbreviation t V := (list (string * V)) (only parsing).

Fixpoint get {V} (k : string) (d : t V) : option V :=
  match d with
  | [] => None
  | (k', v) :: d' => if decide (k = k') then Some v else get k d'
  end.

(** [d[k] = v]: an existing key keeps its place, a new one goes last. *)
Fixpoint set {V} (k : string) (v : V) (d : t V) : t V :=
  match d with
  | [] => [(k, v)]
  | (k', v') :: d' =>
      if decide (k = k') then (k, v) :: d' else (k', v') :: set k v d'
  end.

Definition keys {V} (d : t V) : list string := fst <$> d.

(** [d[k]], raising [KeyError]. *)
Definition subscript {V} (k : string) (d : t V) : Py.result V :=
  match get k d with
  | Some v => Py.Ok v
  | None => Py.Raise (Py.KeyError k)
  end.

End Dict.

(** ** The three regular expressions of the modules

    [re.search] returns the leftmost match. Every [\d+] of the patterns is
    followed by a literal that is not a digit or ends the pattern, so the
    greedy match is the longest run of digits and backtracking to a shorter
    run cannot succeed. *)

Module Re.

Definition is_digit (c : ascii) : bool :=
  (48 <=? nat_of_ascii c)%nat && (nat_of_ascii c <=? 57)%nat.

(** The longest run of digits at the head of [s], and the rest. *)
Fixpoint span_digits (s : string) : string * string :=
  match s with
  | String c s' =>
      if is_digit c
      then (String c (span_digits s').1, (span_digits s').2)
      else (EmptyString, s)
  | EmptyString => (EmptyString, EmptyString)
  end.

(** [(\d+)] at the head of [s]. *)
Definition digits (s : string) : option (string * string) :=
  match span_digits s with
  | (EmptyString, _) => None
  | (d, r) => Some (d, r)
  end.

(** A literal character at the head of [s]. *)
Definition lit (c : ascii) (s : string) : option string :=
  match s with
  | String c' r => if decide (c = c') then Some r else None
  | EmptyString => None
  end.

(** [(\d+)\/(\d+)-(\d+)\/(\d+)] at the head of [s]. *)
Definition range_here (s : string)
  : option (string * string * string * string) :=
  '(g1, r) ← digits s; r ← lit "/" r;
  '(g2, r) ← digits r; r ← lit "-" r;
  '(g3, r) ← digits r; r ← lit "/" r;
  '(g4, _) ← digits r;
  Some (g1, g2, g3, g4).

(** [(\d+)\/(\d+)] at the head of [s]. *)
Definition pair_here (s : string) : option (string * string) :=
  '(g1, r) ← digits s; r ← lit "/" r;
  '(g2, _) ← digits r;
  Some (g1, g2).

(** [0\/(\d+)-0\/(\d+)] at the head of [s]. *)
Definition zero_range_here (s : string) : option (string * string) :=
  r ← lit "0" s; r ← lit "/" r;
  '(g1, r) ← digits r; r ← lit "-" r;
  r ← lit "0" r; r ← lit "/" r;
  '(g2, _) ← digits r;
  Some (g1, g2).

(** [re.search]: the match at the leftmost position that has one. *)
Fixpoint search {A} (here : string -> option A) (s : string) : option A :=
  match here s with
  | Some m => Some m
  | None =>
      match s with
      | String _ s' => search here s'
      | EmptyString => None
      end
  end.

Definition digit_val (c : ascii) : nat := nat_of_ascii c - 48.

Fixpoint int_from (acc : nat) (s : string) : nat :=
  match s with
  | String c s' => int_from (10 * acc + digit_val c) s'
  | EmptyString => acc
  end.

(** [int(s)] for a string of digits. *)
Definition int (s : string) : nat := int_from 0 s.

(** [range(a, b + 1)]. *)
Definition range_incl (a b : nat) : list nat := seq a (S b - a).

End Re.

(** The lines one interface contributes: nothing when its list of
    sub-commands is empty, else the header and the sub-commands. *)
Definition block (it : string * list string) : list string :=
  match it.2 with
  | [] => []
  | cmds => ("interface " +:+ it.1) :: cmds
  end.

(** The double quote character of ['vlan name {0} "{1}"']. *)
Definition dquote : string := String (ascii_of_nat 34) EmptyString.

(** ** edgeswitch_vlan: the VLAN existence phase *)

Inductive state := present | absent.

#[global] Instance state_eq_dec : EqDecision state.
Proof. solve_decision. Defined.

Module Vlan.

(** One desired entry, as [map_params_to_obj] hands it over. [main]
    declares [vlan_id] with [type='int'], and [search_obj_in_list] prints
    it with [str] before it compares; an entry of [aggregate] may carry
    it as a [str]. *)
Record want := {
  vlan_id : Py.value;
  name : option string;
  wstate : state;
  auto_tag : option bool;
  auto_untag : option bool;
  auto_exclude : option bool;
  tagged_interfaces : option (list string);
  untagged_interfaces : option (list string);
  excluded_interfaces : option (list string)
}.

(** One line of [show vlan brief], as [parse_vlan_brief] keeps it. *)
Record have := {
  h_vlan_id : string;
  h_name : string
}.

(** [search_obj_in_list]: the first [o] with [o['vlan_id'] == str(vlan_id)].
    [key] reads the entry's [vlan_id]; the function is called on both the
    observed and the desired list. *)
Definition search_obj_in_list {A} (key : A -> Py.value)
    (vlan_id : Py.value) (lst : list A) : option A :=
  List.find (fun o => Py.eqb (key o) (Py.VStr (Py.str vlan_id))) lst.

Definition have_key (h : have) : Py.value := Py.VStr (h_vlan_id h).

Definition cmd_no_vlan (v : Py.value) : string := "no vlan " +:+ Py.str v.
Definition cmd_vlan (v : Py.value) : string := "vlan " +:+ Py.str v.
Definition cmd_vlan_name (v : Py.value) (n : string) : string :=
  "vlan name " +:+ Py.str v +:+ " " +:+ dquote +:+ n +:+ dquote.

(** The body of the loop over the desired entries. *)
Definition want_commands (hv : list have) (w : want) : list string :=
  let obj_in_have := search_obj_in_list have_key (vlan_id w) hv in
  match wstate w with
  | absent =>
      match obj_in_have with
      | Some _ => [cmd_no_vlan (vlan_id w)]
      | None => []
      end
  | present =>
      match obj_in_have with
      | None =>
          cmd_vlan (vlan_id w) ::
          (if Py.truthy_str (name w)
           then [cmd_vlan_name (vlan_id w) (default EmptyString (name w))]
           else [])
      | Some o =>
          if Py.truthy_str (name w)
          then if decide (name w = Some (h_name o)) then []
               else [cmd_vlan_name (vlan_id w) (default EmptyString (name w))]
          else []
      end
  end.

(** The body of the purge loop over the observed entries. *)
Definition purge_commands (wt : list want) (h : have) : list string :=
  match search_obj_in_list vlan_id (have_key h) wt with
  | None =>
      if decide (h_vlan_id h = "1") then []
      else [cmd_no_vlan (have_key h)]
  | Some _ => []
  end.

(** The commands collected by the two loops, before the wrapping. *)
Definition phase_commands (wt : list want) (hv : list have) (purge : bool)
  : list string :=
  (wt ≫= want_commands hv) ++
  (if purge then hv ≫= purge_commands wt else []).

(** [map_vlans_to_commands((want, have), module)], with
    [module.params['purge']] as [purge]. *)
Definition map_vlans_to_commands (wt : list want) (hv : list have)
    (purge : bool) : list string :=
  match phase_commands wt hv purge with
  | [] => []
  | commands => "vlan database" :: commands ++ ["exit"]
  end.

(** ** edgeswitch_vlan: the membership phase *)

Inductive action := tag | untag | exclude.

(** One block of [show interfaces switchport], as
    [parse_interfaces_switchport] keeps it. *)
Record port := {
  interface : string;
  pvid_mode : string;
  untagged_vlans : list string;
  tagged_vlans : list string;
  forbidden_vlans : list string
}.

(** The keys one token of an interface list assigns, in order. *)
Definition expand (i : string) : list string :=
  match Re.search Re.range_here i with
  | Some (g1, g2, _, g4) =>
      (fun x : nat => g1 +:+ "/" +:+ pretty x)
        <$> Re.range_incl (Re.int g2) (Re.int g4)
  | None => [i]
  end.

(** [set_interfaces(interfaces_param, interfaces, action)]; a parameter
    that is [None] or empty leaves [interfaces] as it is. *)
Definition set_interfaces (interfaces_param : option (list string))
    (interfaces : Dict.t action) (a : action) : Dict.t action :=
  foldl (fun d i => foldl (fun d k => Dict.set k a d) d (expand i))
        interfaces (default [] interfaces_param).

(** The body of the loop [for key, value in ports.items()]. *)
Definition auto_default (w : want) (interfaces : Dict.t action)
    (kv : string * port) : Dict.t action :=
  if Py.truthy_bool (auto_tag w) then Dict.set kv.1 tag interfaces
  else if Py.truthy_bool (auto_exclude w) then
    if Py.in_strs (vlan_id w) (forbidden_vlans kv.2) then interfaces
    else Dict.set kv.1 exclude interfaces
  else if Py.truthy_bool (auto_untag w) then Dict.set kv.1 untag interfaces
  else interfaces.

(** The dictionary [interfaces] of one desired entry: the default for
    every observed port, then the three explicit lists. *)
Definition resolve (w : want) (ports : Dict.t port) : Dict.t action :=
  let interfaces := foldl (auto_default w) [] ports in
  let interfaces := set_interfaces (tagged_interfaces w) interfaces tag in
  let interfaces := set_interfaces (untagged_interfaces w) interfaces untag in
  set_interfaces (excluded_interfaces w) interfaces exclude.

(** The sub-commands of one interface for one VLAN, after the check
    against the observed membership. *)
Definition member_commands (v : Py.value) (t : action) (p : port)
  : list string :=
  match t with
  | exclude =>
      if Py.in_strs v (forbidden_vlans p) then []
      else ["vlan participation exclude " +:+ Py.str v;
            "no vlan tagging " +:+ Py.str v]
  | untag =>
      if negb (Py.in_strs v (untagged_vlans p))
         || negb (Py.eqb v (Py.VStr (pvid_mode p)))
      then ["vlan pvid " +:+ Py.str v;
            "vlan participation include " +:+ Py.str v]
      else []
  | tag =>
      if Py.in_strs v (tagged_vlans p) then []
      else ["vlan participation include " +:+ Py.str v;
            "vlan tagging " +:+ Py.str v]
  end.

(** The body of the loop [for i, t in interfaces.items()]: the list of
    [i] in [interfaces_cmds] is created when missing, [ports[i]] is read,
    and the list grows in place. *)
Definition accumulate (w : want) (ports : Dict.t port)
    (interfaces_cmds : Dict.t (list string)) (it : string * action)
  : Py.result (Dict.t (list string)) :=
  let cmds := default [] (Dict.get it.1 interfaces_cmds) in
  p ← Dict.subscript it.1 ports;
  mret (Dict.set it.1 (cmds ++ member_commands (vlan_id w) it.2 p)
                 interfaces_cmds).

(** The body of the loop over the desired entries. *)
Definition want_step (ports : Dict.t port)
    (interfaces_cmds : Dict.t (list string)) (w : want)
  : Py.result (Dict.t (list string)) :=
  match wstate w with
  | present =>
      Py.for_each (accumulate w ports) interfaces_cmds (resolve w ports)
  | absent => mret interfaces_cmds
  end.

(** The order of [sorted(interfaces_cmds.items())]: the items are pairs
    whose first components, the keys of a dictionary, are distinct
    strings, so the comparison of two items is the comparison of their
    keys, character by character. *)
Definition item_le (a b : string * list string) : Prop := String.le a.1 b.1.

#[global] Instance item_le_dec : RelDecision item_le.
Proof. intros a b. unfold item_le. apply _. Defined.

(** The last loop: one block per interface, in sorted order. *)
Definition emit (interfaces_cmds : Dict.t (list string)) : list string :=
  merge_sort item_le interfaces_cmds ≫= block.

(** [map_interfaces_to_commands(want, ports, module)]. *)
Definition map_interfaces_to_commands (wt : list want) (ports : Dict.t port)
  : Py.result (list string) :=
  interfaces_cmds ← Py.for_each (want_step ports) [] wt;
  mret (emit interfaces_cmds).

(** ** edgeswitch_vlan: validation and [main] *)

Definition msg_same_group : string :=
  "interface range must be withing same group: ".
Definition msg_wrong_format : string := "wrong interface format: ".
Definition msg_exclusive : string :=
  "parameters are mutually exclusive: auto_tag, auto_untag, auto_exclude".

(** The body of the loop of [check_parmams_interface]. *)
Definition check_token (i : string) : Py.result unit :=
  match Re.search Re.range_here i with
  | Some (g1, _, g3, _) =>
      if decide (g1 = g3) then mret ()
      else Py.Raise (Py.FailJson (msg_same_group +:+ i))
  | None =>
      match Re.search Re.pair_here i with
      | Some _ => mret ()
      | None =>
          if decide (i = "all") then mret ()
          else Py.Raise (Py.FailJson (msg_wrong_format +:+ i))
      end
  end.

Definition check_parmams_interface (interfaces : option (list string))
  : Py.result unit :=
  Py.for_each (fun _ i => check_token i) () (default [] interfaces).

(** The counter [c] of [check_params]. *)
Definition exclusive_count (w : want) : nat :=
  (if Py.truthy_bool (auto_tag w) then 1 else 0) +
  (if Py.truthy_bool (auto_untag w) then 1 else 0) +
  (if Py.truthy_bool (auto_exclude w) then 1 else 0).

(** The body of the loop of [check_params]. *)
Definition check_entry (w : want) : Py.result unit :=
  if decide (1 < exclusive_count w) then Py.Raise (Py.FailJson msg_exclusive)
  else
    _ ← check_parmams_interface (tagged_interfaces w);
    _ ← check_parmams_interface (untagged_interfaces w);
    check_parmams_interface (excluded_interfaces w).

Definition check_params (wt : list want) : Py.result unit :=
  Py.for_each (fun _ w => check_entry w) () wt.

(** What [exit_json] reports. *)
Record report := {
  changed : bool;
  commands : list string
}.

Definition nonempty {A} (l : list A) : bool :=
  match l with
  | [] => false
  | _ => true
  end.

(** [main]. The inputs are the desired entries, the two parameters, and
    the two snapshots read from the device: [hv] before the VLAN phase and
    [ports] after it. The second component of the result is the list of
    command batches sent to the device, in order. *)
Definition main (purge check_mode : bool) (wt : list want) (hv : list have)
    (ports : Dict.t port) : Py.result report * list (list string) :=
  match check_params wt with
  | Py.Raise e => (Py.Raise e, [])
  | Py.Ok _ =>
      let commands1 := map_vlans_to_commands wt hv purge in
      let sent1 :=
        if nonempty commands1 && negb check_mode then [commands1] else [] in
      match map_interfaces_to_commands wt ports with
      | Py.Raise e => (Py.Raise e, sent1)
      | Py.Ok commands2 =>
          let sent2 :=
            if nonempty commands2 && negb check_mode then [commands2]
            else [] in
          (Py.Ok {| changed := nonempty commands1 || nonempty commands2;
                    commands := commands1 ++ commands2 |},
           sent1 ++ sent2)
      end
  end.

(** A desired entry that sets only [vlan_id], [name] and [state]. *)
Definition plain (v : Py.value) (n : option string) (s : state) : want :=
  {| vlan_id := v; name := n; wstate := s;
     auto_tag := None; auto_untag := None; auto_exclude := None;
     tagged_interfaces := None; untagged_interfaces := None;
     excluded_interfaces := None |}.

End Vlan.

(** ** edgeswitch_interface *)

Module Interface.

(** One desired entry. [disable] is [None] when the entry has no
    ['disable'] key, which is the case when [enabled] was not given. *)
Record want := {
  name : string;
  description : option string;
  speed : option string;
  mtu : option string;
  disable : option bool
}.

(** One interface of the running configuration, as [map_config_to_obj]
    builds it. *)
Record have := {
  h_name : string;
  h_description : option string;
  h_speed : string;
  h_mtu : option string;
  h_disable : bool
}.

Definition search_obj_in_list (n : string) (lst : list have) : option have :=
  List.find (fun o => bool_decide (h_name o = n)) lst.

(** ['{0}'.format(o)] for an optional string. *)
Definition format_opt (o : option string) : string :=
  default "None" o.

Definition msg_missing (n : string) : string :=
  "interface " +:+ n +:+ " does not exist on target".

(** The list [cmds] of one desired entry found on the device.
    [get_running_mtu] stands for the read-back
    [show interface ethernet <name>]. *)
Definition entry_commands (get_running_mtu : string -> option string)
    (w : want) (o : have) : list string :=
  let running_mtu :=
    if Py.truthy_str (mtu w) && negb (Py.truthy_str (h_mtu o))
    then get_running_mtu (name w) else h_mtu o in
  (if decide (mtu w = running_mtu) then []
   else ["mtu " +:+ format_opt (mtu w)]) ++
  (if Py.truthy_str (description w) then
     if decide (description w = h_description o) then []
     else ["description '" +:+ format_opt (description w) +:+ "'"]
   else if Py.truthy_str (h_description o) then ["no description"]
   else []) ++
  (if Py.truthy_str (speed w)
      && negb (bool_decide (speed w = Some (h_speed o)))
   then ["speed " +:+ format_opt (speed w)] else []) ++
  (match disable w with
   | Some d =>
       if decide (d = h_disable o) then []
       else [if d then "shutdown" else "no shutdown"]
   | None => []
   end).

(** The body of the loop over the desired entries; the state is the pair
    of [commands] and [warnings]. *)
Definition step (get_running_mtu : string -> option string)
    (hv : list have) (st : list string * list string) (w : want)
  : list string * list string :=
  match search_obj_in_list (name w) hv with
  | None => (st.1, st.2 ++ [msg_missing (name w)])
  | Some o =>
      (st.1 ++ block (name w, entry_commands get_running_mtu w o), st.2)
  end.

(** [map_obj_to_commands((want, have), module, warnings)], returning the
    commands and the warnings appended. *)
Definition map_obj_to_commands (get_running_mtu : string -> option string)
    (wt : list want) (hv : list have) : list string * list string :=
  foldl (step get_running_mtu hv) ([], []) wt.

End Interface.

(** ** edgeswitch_voice *)

Module Voice.

(** One desired entry. [interfaces] is required by the argument spec;
    [dscp] and [lldp] are [None] when left out. *)
Record want := {
  vlan_id : Py.value;
  dscp : option string;
  interfaces : list string;
  lldp : option (list string);
  wstate : state
}.

(** One interface of the running configuration, as [map_config_to_obj]
    builds it. *)
Record port := {
  voice_vlan : string;
  voice_dscp : string;
  p_lldp : list string
}.

(** [map_to_commands_interface(vlan_id, dscp, lldp, state, port)].
    Concatenating [None] to a string and iterating over [None] raise
    [TypeError]. *)
Definition map_to_commands_interface (vlan_id : string)
    (dscp : option string) (lldp : option (list string)) (st : state)
    (p : port) : Py.result (list string) :=
  match st with
  | present =>
      let c1 :=
        if decide (voice_vlan p = vlan_id) then []
        else ["voice vlan {}" +:+ vlan_id] in
      c2 ← (if decide (Some (voice_dscp p) = dscp) then mret []
            else match dscp with
                 | Some d => mret ["voice vlan dscp " +:+ d]
                 | None => Py.Raise Py.TypeError
                 end);
      c3 ← match lldp with
           | Some l =>
               mret ((fun t => "lldp " +:+ t)
                       <$> filter (fun t => t ∉ p_lldp p) l)
           | None => Py.Raise Py.TypeError
           end;
      mret (c1 ++ c2 ++ c3)
  | absent =>
      mret ((if decide (voice_vlan p = "no") then [] else ["no voice vlan"])
            ++ (if decide (voice_dscp p = "no") then []
                else ["no voice vlan dscp"]))
  end.

(** The keys one token of [interfaces] assigns, in order. *)
Definition targets (ports : Dict.t port) (i : string) : list string :=
  if decide (i = "all")
  then filter (fun k => Is_true (String.prefix "0/" k)) (Dict.keys ports)
  else
    match Re.search Re.zero_range_here i with
    | Some (g1, g2) =>
        (fun x : nat => "0/" +:+ pretty x)
          <$> Re.range_incl (Re.int g1) (Re.int g2)
    | None => [i]
    end.

(** [port = ports[key]; interfaces_cmd[key] = map_to_commands_interface(..)]. *)
Definition assign (w : want) (ports : Dict.t port)
    (interfaces_cmd : Dict.t (list string)) (key : string)
  : Py.result (Dict.t (list string)) :=
  p ← Dict.subscript key ports;
  cmds ← map_to_commands_interface (Py.str (vlan_id w)) (dscp w) (lldp w)
           (wstate w) p;
  mret (Dict.set key cmds interfaces_cmd).

Definition msg_missing_vlan : string :=
  "state is 'present' but the following is missing: vlan_id".

(** The last loop of an entry: one block per interface, in the iteration
    order of [interfaces_cmd]. *)
Definition emit (interfaces_cmd : Dict.t (list string)) : list string :=
  interfaces_cmd ≫= block.

(** The commands one desired entry appends. *)
Definition entry_commands (ports : Dict.t port) (w : want)
  : Py.result (list string) :=
  if bool_decide (wstate w = present) && bool_decide (Py.str (vlan_id w) = "None")
  then Py.Raise (Py.FailJson msg_missing_vlan)
  else
    interfaces_cmd ←
      Py.for_each (fun acc i => Py.for_each (assign w ports) acc
                                  (targets ports i))
                  [] (interfaces w);
    mret (emit interfaces_cmd).

(** [map_to_commands(want, ports, module)]. *)
Definition map_to_commands (wt : list want) (ports : Dict.t port)
  : Py.result (list string) :=
  Py.for_each (fun commands w =>
                 cs ← entry_commands ports w; mret (commands ++ cs))
              [] wt.

End Voice.

(** ** Vocabulary of the statements *)

(** Number of occurrences of a command in a command list. *)
Definition occurrences (c : string) (l : list string) : nat :=
  length (filter (fun x => x = c) l).

(** A string that [\d+] matches as a whole. *)
Fixpoint all_digits (s : string) : bool :=
  match s with
  | EmptyString => true
  | String c s' => Re.is_digit c && all_digits s'
  end.

Definition number (s : string) : Prop :=
  s <> EmptyString /\ all_digits s = true.

(** The token [groupA/idxA-groupB/idxB]. *)
Definition range_token (gA iA gB iB : string) : string :=
  gA +:+ "/" +:+ iA +:+ "-" +:+ gB +:+ "/" +:+ iB.

(** The interface tokens of the desired entries, in the order in which
    [check_params] visits them. *)
Definition entry_tokens (w : Vlan.want) : list string :=
  default [] (Vlan.tagged_interfaces w)
  ++ default [] (Vlan.untagged_interfaces w)
  ++ default [] (Vlan.excluded_interfaces w).

Definition all_tokens (wt : list Vlan.want) : list string :=
  wt ≫= entry_tokens.

(** The order the specification names for interface identifiers: by
    group, then by index, both read as numbers. *)
Definition group_index (i : string) : option (nat * nat) :=
  '(g, x) ← Re.pair_here i; Some (Re.int g, Re.int x).

Definition spec_numeric_le (a b : string) : Prop :=
  match group_index a, group_index b with
  | Some (g1, x1), Some (g2, x2) => g1 < g2 \/ (g1 = g2 /\ x1 <= x2)
  | _, _ => False
  end.

(** The interfaces named by the header lines of a command list. *)
Definition header_of (c : string) : option string :=
  if String.prefix "interface " c
  then Some (String.substring 10 (String.length c - 10) c)
  else None.

Definition headers (cmds : list string) : list string :=
  omap header_of cmds.

(** The observed ports of group 0, the ones whose key starts with [0/]. *)
Definition group_zero (ports : Dict.t Voice.port) : Dict.t Voice.port :=
  filter (fun kv => Is_true (String.prefix "0/" kv.1)) ports.

(** ** The device is already as desired

    One predicate per module says that the fields of a desired entry
    equal the fields of the observed entry it corresponds to, with the
    equality of Python values. *)

(** The VLAN of a [present] entry exists under the name the entry gives,
    if it gives one; the VLAN of an [absent] entry does not exist. *)
Definition vlan_settled (hv : list Vlan.have) (w : Vlan.want) : Prop :=
  match Vlan.wstate w with
  | present =>
      exists o,
        Vlan.search_obj_in_list Vlan.have_key (Vlan.vlan_id w) hv = Some o
        /\ (Vlan.name w = None \/ Vlan.name w = Some (Vlan.h_name o))
  | absent =>
      Vlan.search_obj_in_list Vlan.have_key (Vlan.vlan_id w) hv = None
  end.

(** Under [purge], every observed VLAN other than VLAN 1 is the VLAN of a
    desired entry. *)
Definition purge_settled (purge : bool) (wt : list Vlan.want)
    (hv : list Vlan.have) : Prop :=
  purge = true ->
  forall h, h ∈ hv ->
    Vlan.h_vlan_id h = "1"
    \/ exists w, w ∈ wt /\ Vlan.vlan_id w = Py.VStr (Vlan.h_vlan_id h).

(** The observed membership of a port in a VLAN is the desired one. *)
Definition member_settled (v : Py.value) (t : Vlan.action) (p : Vlan.port)
  : Prop :=
  match t with
  | Vlan.tag => v ∈ Py.VStr <$> Vlan.tagged_vlans p
  | Vlan.untag =>
      v ∈ Py.VStr <$> Vlan.untagged_vlans p /\ v = Py.VStr (Vlan.pvid_mode p)
  | Vlan.exclude => v ∈ Py.VStr <$> Vlan.forbidden_vlans p
  end.

Definition membership_settled (ports : Dict.t Vlan.port) (w : Vlan.want)
  : Prop :=
  Vlan.wstate w = present ->
  forall i t, (i, t) ∈ Vlan.resolve w ports ->
    exists p, Dict.get i ports = Some p /\ member_settled (Vlan.vlan_id w) t p.

(** The attributes of a desired interface equal the observed ones; an
    entry may leave [speed] and [enabled] out, and an [mtu] that the
    running configuration does not show is the one read back from the
    interface. *)
Definition interface_settled (get_running_mtu : string -> option string)
    (hv : list Interface.have) (w : Interface.want) : Prop :=
  forall o, Interface.search_obj_in_list (Interface.name w) hv = Some o ->
    (Interface.mtu w = Interface.h_mtu o
     \/ (Py.truthy_str (Interface.mtu w) = true
         /\ Py.truthy_str (Interface.h_mtu o) = false
         /\ get_running_mtu (Interface.name w) = Interface.mtu w))
    /\ Interface.description w = Interface.h_description o
    /\ (Interface.speed w = None
        \/ Interface.speed w = Some (Interface.h_speed o))
    /\ (Interface.disable w = None
        \/ Interface.disable w = Some (Interface.h_disable o)).

(** The voice settings of a port are the desired ones. *)
Definition voice_port_settled (w : Voice.want) (p : Voice.port) : Prop :=
  match Voice.wstate w with
  | present =>
      Voice.voice_vlan p = Py.str (Voice.vlan_id w)
      /\ Voice.dscp w = Some (Voice.voice_dscp p)
      /\ exists l, Voice.lldp w = Some l
                   /\ forall t, t ∈ l -> t ∈ Voice.p_lldp p
  | absent => Voice.voice_vlan p = "no" /\ Voice.voice_dscp p = "no"
  end.

Definition voice_settled (ports : Dict.t Voice.port) (w : Voice.want) : Prop :=
  (Voice.wstate w = present -> Py.str (Voice.vlan_id w) <> "None")
  /\ forall i key, i ∈ Voice.interfaces w -> key ∈ Voice.targets ports i ->
       exists p, Dict.get key ports = Some p /\ voice_port_settled w p.

(** ** Vocabulary of the further properties *)

(** The interfaces a list of tokens stands for, ranges expanded. *)
Definition listed (param : option (list string)) : list string :=
  default [] param ≫= Vlan.expand.

(** The default an observed port gets from the [auto_*] flags of an
    entry, if any. *)
Definition auto_action (w : Vlan.want) (p : Vlan.port) : option Vlan.action :=
  if Py.truthy_bool (Vlan.auto_tag w) then Some Vlan.tag
  else if Py.truthy_bool (Vlan.auto_exclude w) then
    if Py.in_strs (Vlan.vlan_id w) (Vlan.forbidden_vlans p) then None
    else Some Vlan.exclude
  else if Py.truthy_bool (Vlan.auto_untag w) then Some Vlan.untag
  else None.

(** A header line [interface X]. *)
Definition is_header (c : string) : bool := String.prefix "interface " c.

(** A command list made of blocks: each block a header followed by at
    least one line, none of which is a header. *)
Definition blocked (cmds : list string) : Prop :=
  exists blocks : list (string * list string),
    cmds = blocks ≫= (fun b => ("interface " +:+ b.1) :: b.2)
    /\ Forall (fun b => b.2 <> []
                        /\ Forall (fun c => is_header c = false) b.2) blocks.

(** The lines of every interface of an accumulator are not headers. *)
Definition plain_lines (acc : Dict.t (list string)) : Prop :=
  forall k v, (k, v) ∈ acc -> Forall (fun c => is_header c = false) v.

(** ** Text as the parsers read it

    The output of the device is taken as ASCII text; [\d], [\s] and
    [str.strip] are the classes of Python 3 on such text. In every
    pattern below a repetition is followed by something its own class
    excludes (or by the end of the pattern), so the greedy match is the
    longest run and backtracking to a shorter one cannot succeed. *)

Module Text.

Definition nl : ascii := ascii_of_nat 10.

(** [\s], and what [strip()] removes. *)
Definition is_space (c : ascii) : bool :=
  ((9 <=? nat_of_ascii c)%nat && (nat_of_ascii c <=? 13)%nat)
  || ((28 <=? nat_of_ascii c)%nat && (nat_of_ascii c <=? 32)%nat).

(** [.] without [re.S]. *)
Definition not_nl (c : ascii) : bool := negb (bool_decide (c = nl)).

(** The longest run of characters of a class at the head of [s], and
    the rest. *)
Fixpoint span (p : ascii -> bool) (s : string) : string * string :=
  match s with
  | String c s' =>
      if p c then (String c (span p s').1, (span p s').2)
      else (EmptyString, s)
  | EmptyString => (EmptyString, EmptyString)
  end.

(** Literal text at the head of [s]. *)
Fixpoint literal (p s : string) : option string :=
  match p with
  | EmptyString => Some s
  | String a p' =>
      match s with
      | String b s' => if decide (a = b) then literal p' s' else None
      | EmptyString => None
      end
  end.

(** [s.split(c)] for a separator of one character. *)
Fixpoint split (c : ascii) (s : string) : list string :=
  match s with
  | EmptyString => [EmptyString]
  | String a s' =>
      if decide (a = c) then EmptyString :: split c s'
      else match split c s' with
           | x :: l => String a x :: l
           | [] => [String a EmptyString]
           end
  end.

(** ['\n'.join(l)]. *)
Fixpoint join (l : list string) : string :=
  match l with
  | [] => EmptyString
  | [x] => x
  | x :: l' => x +:+ String nl (join l')
  end.

Fixpoint lstrip (s : string) : string :=
  match s with
  | String c s' => if is_space c then lstrip s' else s
  | EmptyString => EmptyString
  end.

Fixpoint rstrip (s : string) : string :=
  match s with
  | String c s' =>
      match rstrip s' with
      | EmptyString => if is_space c then EmptyString else String c EmptyString
      | r => String c r
      end
  | EmptyString => EmptyString
  end.

(** [s.strip()]. *)
Definition strip (s : string) : string := rstrip (lstrip s).

(** [s.replace(old, '')] for a non-empty [old]: [skip] characters of an
    occurrence found are still to be dropped. *)
Fixpoint remove_from (old : string) (skip : nat) (s : string) : string :=
  match s with
  | EmptyString => EmptyString
  | String c s' =>
      match skip with
      | S n => remove_from old n s'
      | O =>
          if String.prefix old s
          then remove_from old (String.length old - 1) s'
          else String c (remove_from old 0 s')
      end
  end.

Definition remove (old s : string) : string := remove_from old 0 s.

(** [label], the rest of the line as a group, and the newline, at the
    head of [s]: the group and what follows the newline. *)
Definition field (label : string) (s : string) : option (string * string) :=
  r ← literal label s;
  r' ← Re.lit nl (span not_nl r).2;
  Some ((span not_nl r).1, r').

(** [re.findall] for a pattern that matches no empty string: the matches
    from left to right, none overlapping the one before. [here] gives
    the match at the head of a string and what follows it; [skip]
    characters of the last match are still to be passed. *)
Fixpoint findall_from {A} (here : string -> option (A * string))
    (skip : nat) (s : string) : list A :=
  match s with
  | EmptyString => []
  | String _ s' =>
      match skip with
      | S n => findall_from here n s'
      | O =>
          match here s with
          | Some (o, r) =>
              o :: findall_from here (String.length s' - String.length r) s'
          | None => findall_from here 0 s'
          end
      end
  end.

Definition findall {A} (here : string -> option (A * string)) (s : string)
  : list A :=
  findall_from here 0 s.

End Text.

(** ** edgeswitch_vlan: reading the device *)

Module VlanRead.
Import Text.

(** [re.match(r'(?P<vlan_id>\d+)\s+(?P<name>[^\s]+)\s+', line)]. *)
Definition match_line (line : string) : option Vlan.have :=
  '(vlan_id, r) ← Re.digits line;
  match span is_space r with
  | (EmptyString, _) => None
  | (_, r) =>
      match span (fun c => negb (is_space c)) r with
      | (EmptyString, _) => None
      | (name, String _ _) =>
          Some {| Vlan.h_vlan_id := vlan_id; Vlan.h_name := name |}
      | (_, EmptyString) => None
      end
  end.

(** [parse_vlan_brief(vlan_out)]. *)
Definition parse_vlan_brief (vlan_out : string) : list Vlan.have :=
  omap match_line (split nl vlan_out).

(** The groups of one match that [parse_interfaces_switchport] reads:
    [o[0]], [o[3]], [o[7]], [o[8]] and [o[9]]. *)
Record groups := {
  g_port : string;
  g_pvid : string;
  g_untagged : string;
  g_tagged : string;
  g_forbidden : string
}.

(** The pattern of [parse_interfaces_switchport] at the head of [s], and
    what follows the match. *)
Definition block_here (s : string) : option (groups * string) :=
  r ← literal "Port: " s;
  '(a, r) ← Re.digits r; r ← Re.lit "/" r;
  '(b, r) ← Re.digits r; r ← Re.lit nl r;
  '(_, r) ← field "VLAN Membership Mode:" r;
  '(_, r) ← field "Access Mode VLAN:" r;
  '(g3, r) ← field "General Mode PVID:" r;
  '(_, r) ← field "General Mode Ingress Filtering:" r;
  '(_, r) ← field "General Mode Acceptable Frame Type:" r;
  '(_, r) ← field "General Mode Dynamically Added VLANs:" r;
  '(g7, r) ← field "General Mode Untagged VLANs:" r;
  '(g8, r) ← field "General Mode Tagged VLANs:" r;
  '(g9, r) ← field "General Mode Forbidden VLANs:" r;
  Some ({| g_port := a +:+ "/" +:+ b; g_pvid := g3; g_untagged := g7;
           g_tagged := g8; g_forbidden := g9 |}, r).

(** The [port] dictionary built from one match. *)
Definition port_of (o : groups) : Vlan.port :=
  {| Vlan.interface := g_port o;
     Vlan.pvid_mode := strip (remove "(default)" (g_pvid o));
     Vlan.untagged_vlans := split "," (strip (g_untagged o));
     Vlan.tagged_vlans := split "," (strip (g_tagged o));
     Vlan.forbidden_vlans := split "," (strip (g_forbidden o)) |}.

(** [parse_interfaces_switchport(cmd_out)]. *)
Definition parse_interfaces_switchport (cmd_out : string)
  : Dict.t Vlan.port :=
  foldl (fun ports o => Dict.set (g_port o) (port_of o) ports)
        [] (findall block_here cmd_out).

End VlanRead.

(** ** edgeswitch_interface: reading the running configuration

    [get_interfaces_config] hands each interface over as the list of its
    configuration lines. The argument names the module searches for
    ([interface], [description], [speed], [mtu]) have no character that
    is special in a pattern, so they are matched as literal text. *)

Module InterfaceRead.
Import Text.

(** The pattern of [parse_config_argument], [arg] followed by a blank
    and the rest of the line, which must not be empty, at the head of
    [s]. *)
Definition argument_here (arg s : string) : option string :=
  r ← literal (arg +:+ " ") s;
  match (span not_nl r).1 with
  | EmptyString => None
  | g => Some g
  end.

(** [line] without its last character, when that is a quote. *)
Fixpoint unquote (line : string) : option string :=
  match line with
  | EmptyString => None
  | String c r =>
      match r with
      | EmptyString =>
          if decide (c = "'"%char) then Some EmptyString else None
      | _ => String c <$> unquote r
      end
  end.

(** The pattern of [parse_quoted_config_argument] at the head of [s]:
    the rest of the line is a non-empty text between quotes. *)
Definition quoted_here (arg s : string) : option string :=
  r ← literal (arg +:+ " '") s;
  g ← unquote (span not_nl r).1;
  if decide (g = EmptyString) then None else Some g.

(** [parse_config_argument(cfg, arg, default)]. *)
Definition parse_config_argument (cfg : list string) (arg : string)
    (default : option string) : option string :=
  match Re.search (argument_here arg) (join cfg) with
  | Some g => Some g
  | None => default
  end.

(** [parse_quoted_config_argument(cfg, arg)]. *)
Definition parse_quoted_config_argument (cfg : list string) (arg : string)
  : option string :=
  Re.search (quoted_here arg) (join cfg).

(** [re.search('^' + p, s, re.M)]: [bol] tells whether the head of [s]
    begins a line. *)
Fixpoint search_bol (p : string) (bol : bool) (s : string) : bool :=
  (bol && String.prefix p s)
  || match s with
     | String c s' => search_bol p (bool_decide (c = nl)) s'
     | EmptyString => false
     end.

(** [parse_shutdown(cfg)]. *)
Definition parse_shutdown (cfg : list string) : bool :=
  search_bol "shutdown" true (join cfg).

(** One interface as [map_config_to_obj] builds it. *)
Record obj := {
  o_name : option string;
  o_description : option string;
  o_speed : option string;
  o_mtu : option string;
  o_disable : bool
}.

Definition read (value : list string) : obj :=
  {| o_name := parse_config_argument value "interface" None;
     o_description := parse_quoted_config_argument value "description";
     o_speed := parse_config_argument value "speed" (Some "auto");
     o_mtu := parse_config_argument value "mtu" None;
     o_disable := if parse_shutdown value then true else false |}.

(** [map_config_to_obj(module)], from what [get_interfaces_config]
    returns. *)
Definition map_config_to_obj (interfaces : Dict.t (list string)) : list obj :=
  (fun kv => read kv.2) <$> interfaces.

(** [search_obj_in_list(name, lst)] on these objects: a name that is
    [None] equals no string. *)
Definition search_obj_in_list (n : string) (lst : list obj) : option obj :=
  List.find (fun o => bool_decide (o_name o = Some n)) lst.

Definition is_dot (c : ascii) : bool := bool_decide (c = "."%char).

(** The pattern of [get_running_mtu] at the head of [s]: the label, a
    run of dots, a blank and a run of digits. *)
Definition frame_size_here (s : string) : option string :=
  r ← literal "Max Frame Size" s;
  match span is_dot r with
  | (EmptyString, _) => None
  | (_, r) => r ← Re.lit " " r; '(d, _) ← Re.digits r; Some d
  end.

(** [get_running_mtu(interface, module)]; [run] is the device answering
    one command. *)
Definition get_running_mtu (run : string -> string) (interface : string)
  : option string :=
  Re.search frame_size_here (run ("show interface ethernet " +:+ interface)).

End InterfaceRead.

(** ** edgeswitch_voice: reading the running configuration *)

Module VoiceRead.
Import Text.

(** [interface], a blank, the rest of the line and the newline. *)
Definition name_here (s : string) : option string :=
  '(g, _) ← field "interface " s; Some g.

(** [label] followed by a run of digits. *)
Definition number_here (label s : string) : option string :=
  r ← literal label s; '(d, _) ← Re.digits r; Some d.

(** The class of the [lldp] pattern: a letter, a digit, an underscore, a
    dash or a blank. *)
Definition is_lldp_char (c : ascii) : bool :=
  Re.is_digit c
  || ((65 <=? nat_of_ascii c)%nat && (nat_of_ascii c <=? 90)%nat)
  || ((97 <=? nat_of_ascii c)%nat && (nat_of_ascii c <=? 122)%nat)
  || bool_decide (c = "_"%char) || bool_decide (c = "-"%char)
  || bool_decide (c = " "%char).

(** [lldp] followed by a blank and a non-empty run of the class. *)
Definition lldp_here (s : string) : option (string * string) :=
  r ← literal "lldp " s;
  match span is_lldp_char r with
  | (EmptyString, _) => None
  | (g, r') => Some (g, r')
  end.

(** The body of the loop of [map_config_to_obj]. *)
Definition read_block (have : Dict.t Voice.port) (value : list string)
  : Dict.t Voice.port :=
  match Re.search name_here (join value) with
  | None => have
  | Some iname =>
      if String.prefix "lag" iname then have
      else
        Dict.set iname
          {| Voice.voice_vlan :=
               default "no"
                 (Re.search (number_here "voice vlan ") (join value));
             Voice.voice_dscp :=
               default "no"
                 (Re.search (number_here "voice vlan dscp ") (join value));
             Voice.p_lldp := findall lldp_here (join value) |}
          have
  end.

(** [map_config_to_obj(module)], from what [get_interfaces_config]
    returns. *)
Definition map_config_to_obj (ic : Dict.t (list string))
  : Dict.t Voice.port :=
  foldl (fun have kv => read_block have kv.2) [] ic.

End VoiceRead.

(** ** Vocabulary of the reading functions *)

(** Every character of [s] is of the class [p]. *)
Fixpoint every (p : ascii -> bool) (s : string) : bool :=
  match s with
  | EmptyString => true
  | String c s' => p c && every p s'
  end.

(** A non-empty run of white space, and a non-empty run without any. *)
Definition blank (s : string) : Prop :=
  s <> EmptyString /\ every Text.is_space s = true.

Definition word (s : string) : Prop :=
  s <> EmptyString /\ every (fun c => negb (Text.is_space c)) s = true.

(** A line of [show vlan brief] that shows the entry [h]: the number,
    blanks, the name, a blank, and anything after it. *)
Definition brief_line (h : Vlan.have) (line : string) : Prop :=
  exists w c rest,
    line = Vlan.h_vlan_id h +:+ w +:+ Vlan.h_name h +:+ String c rest
    /\ number (Vlan.h_vlan_id h) /\ blank w /\ word (Vlan.h_name h)
    /\ Text.is_space c = true.

(** An interface name as [show interfaces switchport] prints it:
    [group/index], both numbers. *)
Definition port_name (k : string) : Prop :=
  exists a b, number a /\ number b /\ k = a +:+ "/" +:+ b.

(** One block of [show interfaces switchport] as the pattern of
    [parse_interfaces_switchport] describes it: the port and the text
    after each of the nine labels. *)
Record switchport_block := {
  sb_group : string;
  sb_index : string;
  sb_mode : string;
  sb_access : string;
  sb_pvid : string;
  sb_ingress : string;
  sb_frame : string;
  sb_dynamic : string;
  sb_untagged : string;
  sb_tagged : string;
  sb_forbidden : string
}.

(** A line [label] [g] followed by [rest]. *)
Definition labelled (label g rest : string) : string :=
  label +:+ g +:+ String Text.nl rest.

(** The ten lines of a block, followed by [rest]. *)
Definition block_text (b : switchport_block) (rest : string) : string :=
  labelled "Port: " (sb_group b +:+ "/" +:+ sb_index b)
  (labelled "VLAN Membership Mode:" (sb_mode b)
  (labelled "Access Mode VLAN:" (sb_access b)
  (labelled "General Mode PVID:" (sb_pvid b)
  (labelled "General Mode Ingress Filtering:" (sb_ingress b)
  (labelled "General Mode Acceptable Frame Type:" (sb_frame b)
  (labelled "General Mode Dynamically Added VLANs:" (sb_dynamic b)
  (labelled "General Mode Untagged VLANs:" (sb_untagged b)
  (labelled "General Mode Tagged VLANs:" (sb_tagged b)
  (labelled "General Mode Forbidden VLANs:" (sb_forbidden b) rest))))))))).

Definition one_line (s : string) : Prop := every Text.not_nl s = true.

Definition block_wf (b : switchport_block) : Prop :=
  number (sb_group b) /\ number (sb_index b)
  /\ Forall one_line
       [sb_mode b; sb_access b; sb_pvid b; sb_ingress b; sb_frame b;
        sb_dynamic b; sb_untagged b; sb_tagged b; sb_forbidden b].

Definition block_name (b : switchport_block) : string :=
  sb_group b +:+ "/" +:+ sb_index b.

(** The port the module keeps for a block. *)
Definition block_port (b : switchport_block) : Vlan.port :=
  {| Vlan.interface := block_name b;
     Vlan.pvid_mode := Text.strip (Text.remove "(default)" (sb_pvid b));
     Vlan.untagged_vlans := Text.split "," (Text.strip (sb_untagged b));
     Vlan.tagged_vlans := Text.split "," (Text.strip (sb_tagged b));
     Vlan.forbidden_vlans := Text.split "," (Text.strip (sb_forbidden b)) |}.

(** Text in which no match of the pattern can begin: it has no [P]. *)
Definition gap (s : string) : Prop :=
  every (fun c => negb (bool_decide (c = "P"%char))) s = true.

(** A listing: blocks, each after a gap, and a last gap. *)
Definition listing (bs : list (string * switchport_block)) (last : string)
  : string :=
  foldr (fun gb rest => gb.1 +:+ block_text gb.2 rest) last bs.

(** [pat], a non-empty [g] and [close] stand in [line] after [pre]. *)
Definition occurs_in (pat close line pre g : string) : Prop :=
  line = pre +:+ pat +:+ g +:+ close /\ g <> EmptyString.

(** [g] is what the leftmost such occurrence in [line] holds. *)
Definition first_in (pat close line g : string) : Prop :=
  exists pre,
    occurs_in pat close line pre g
    /\ forall pre' g', occurs_in pat close line pre' g' ->
         String.length pre <= String.length pre'.

Definition none_in (pat close line : string) : Prop :=
  forall pre g, ~ occurs_in pat close line pre g.

(** [g] comes from the first line of [cfg] that has an occurrence. *)
Definition first_line_in (pat close : string) (cfg : list string)
    (g : string) : Prop :=
  exists before line after,
    cfg = before ++ line :: after
    /\ Forall (none_in pat close) before
    /\ first_in pat close line g.

(** The lines [map_obj_to_commands] emits for an interface when all four
    settings are to be changed: the header, then [mtu], [description],
    [speed] and the state, in this order. *)
Definition written (n d s m : string) (dis : bool) : list string :=
  ["interface " +:+ n; "mtu " +:+ m; "description '" +:+ d +:+ "'";
   "speed " +:+ s; if dis then "shutdown" else "no shutdown"].

(** An object read from the configuration as an observed interface of
    [map_obj_to_commands]; an object without a name is found under no
    name. *)
Definition observed (o : InterfaceRead.obj) : option Interface.have :=
  n ← InterfaceRead.o_name o;
  s ← InterfaceRead.o_speed o;
  Some {| Interface.h_name := n;
          Interface.h_description := InterfaceRead.o_description o;
          Interface.h_speed := s;
          Interface.h_mtu := InterfaceRead.o_mtu o;
          Interface.h_disable := InterfaceRead.o_disable o |}.

(** A non-empty run of dots. *)
Definition dots (s : string) : Prop :=
  s <> EmptyString /\ every InterfaceRead.is_dot s = true.

(** Text in which the label of [get_running_mtu] cannot begin: it has no
    [M]. *)
Definition no_label (s : string) : Prop :=
  every (fun c => negb (bool_decide (c = "M"%char))) s = true.

(** * Properties *)

(** ** Strings and lists *)

Lemma append_cons c s t : String c s +:+ t = String c (s +:+ t).
Proof. reflexivity. Qed.

Lemma append_empty s : EmptyString +:+ s = s.
Proof. reflexivity. Qed.

Lemma occurrences_app c l1 l2 :
  occurrences c (l1 ++ l2) = occurrences c l1 + occurrences c l2.
Proof. unfold occurrences. by rewrite filter_app, length_app. Qed.

Lemma occurrences_cons c x l :
  occurrences c (x :: l) = (if decide (x = c) then 1 else 0) + occurrences c l.
Proof.
  unfold occurrences. rewrite filter_cons. by destruct (decide (x = c)).
Qed.

Lemma occurrences_absent c l : c ∉ l -> occurrences c l = 0.
Proof.
  induction l as [|x l IH]; [done|].
  rewrite not_elem_of_cons, occurrences_cons. intros [? ?].
  rewrite decide_False by done. by rewrite IH.
Qed.

Lemma find_is_some {A} (f : A -> bool) l x :
  x ∈ l -> f x = true -> exists y, List.find f l = Some y.
Proof.
  induction l as [|y l IH]; intros Hx Hf; [by apply elem_of_nil in Hx|].
  simpl. destruct (f y) eqn:E; [by eexists|].
  apply elem_of_cons in Hx as [->|Hx]; [congruence|by apply IH].
Qed.

(** ** The VLAN existence phase *)

Section vlan_phase.
Import Vlan.

Lemma wrap_nonempty wt hv purge :
  phase_commands wt hv purge <> [] ->
  map_vlans_to_commands wt hv purge
  = "vlan database" :: phase_commands wt hv purge ++ ["exit"].
Proof.
  unfold map_vlans_to_commands. by destruct (phase_commands wt hv purge).
Qed.

Lemma wrap_empty wt hv purge :
  phase_commands wt hv purge = [] -> map_vlans_to_commands wt hv purge = [].
Proof. unfold map_vlans_to_commands. by intros ->. Qed.

(** C7: the commands of the existence phase are wrapped in
    [vlan database] and [exit] exactly when the two loops produced a
    command; an entry for VLAN 100 named voice on a device without it
    gives the four commands of the specification, and a phase without
    commands gives the empty list. *)
Theorem vlan_database_wrapping (wt : list want) (hv : list have) (purge : bool) :
  map_vlans_to_commands wt hv purge
  = (if nonempty (phase_commands wt hv purge)
     then "vlan database" :: phase_commands wt hv purge ++ ["exit"]
     else [])
  /\ (map_vlans_to_commands wt hv purge = [] <-> phase_commands wt hv purge = [])
  /\ (head (map_vlans_to_commands wt hv purge) = Some "vlan database"
      <-> phase_commands wt hv purge <> [])
  /\ (last (map_vlans_to_commands wt hv purge) = Some "exit"
      <-> phase_commands wt hv purge <> [])
  /\ map_vlans_to_commands [plain (Py.VInt 100) (Some "voice") present] [] false
     = ["vlan database"; "vlan 100";
        "vlan name 100 " +:+ dquote +:+ "voice" +:+ dquote; "exit"].
Proof.
  unfold map_vlans_to_commands.
  destruct (phase_commands wt hv purge) as [|c cs] eqn:E; simpl.
  - repeat split; try done.
  - repeat split; try done.
    rewrite app_comm_cons, last_snoc. done.
Qed.

Lemma elem_of_map_vlans_2 c wt hv purge :
  c ∈ phase_commands wt hv purge -> c ∈ map_vlans_to_commands wt hv purge.
Proof.
  intros Hc. rewrite wrap_nonempty.
  - right. apply elem_of_app. by left.
  - intros E. rewrite E in Hc. by apply elem_of_nil in Hc.
Qed.

(** C1: an explicit request to remove VLAN 1, on a device that has it,
    produces the delete command for VLAN 1 inside the wrapping; so does
    every list of desired entries with such a request. *)
Theorem vlan1_explicit_absent_emits_delete (purge : bool) :
  map_vlans_to_commands [plain (Py.VInt 1) None absent]
    [{| h_vlan_id := "1"; h_name := "default" |}] purge
  = ["vlan database"; "no vlan 1"; "exit"]
  /\ (forall wt hv w h,
        w ∈ wt -> wstate w = absent -> Py.str (vlan_id w) = "1" ->
        h ∈ hv -> h_vlan_id h = "1" ->
        "no vlan 1" ∈ map_vlans_to_commands wt hv purge).
Proof.
  split; [destruct purge; vm_compute; reflexivity|].
  intros wt hv w h Hw Hst Hid Hh Hh1.
  apply elem_of_map_vlans_2. unfold phase_commands.
  apply elem_of_app. left. apply list_elem_of_bind. exists w. split; [|done].
  unfold want_commands. rewrite Hst. unfold search_obj_in_list.
  destruct (find_is_some
              (fun o => Py.eqb (have_key o) (Py.VStr (Py.str (vlan_id w)))) hv h)
    as [o ->]; [done| |].
  - unfold Py.eqb, have_key. apply bool_decide_eq_true. by rewrite Hid, Hh1.
  - unfold cmd_no_vlan. rewrite Hid. by left.
Qed.

End vlan_phase.

Section vlan_purge.
Import Vlan.

Lemma search_obj_in_list_none {A} (key : A -> Py.value) v (lst : list A) :
  (forall o, o ∈ lst -> key o <> Py.VStr (Py.str v)) ->
  search_obj_in_list key v lst = None.
Proof.
  unfold search_obj_in_list. induction lst as [|o lst IH]; intros H; [done|].
  simpl. unfold Py.eqb. rewrite bool_decide_eq_false_2.
  - apply IH. intros o' Ho'. apply H. by right.
  - apply H. by left.
Qed.

(** A desired id equal to the observed id [s] prints as [s]. *)
Lemma key_str_eq (v : Py.value) s : v = Py.VStr s -> Py.str v = s.
Proof. by intros ->. Qed.

Lemma cmd_no_vlan_inj v s : cmd_no_vlan v = "no vlan " +:+ s -> Py.str v = s.
Proof. unfold cmd_no_vlan. intros H. by apply (inj (String.app "no vlan ")) in H. Qed.

Lemma cmd_vlan_not_delete v s : cmd_vlan v <> "no vlan " +:+ s.
Proof. unfold cmd_vlan. rewrite !append_cons. discriminate. Qed.

Lemma cmd_vlan_name_not_delete v n s : cmd_vlan_name v n <> "no vlan " +:+ s.
Proof. unfold cmd_vlan_name. rewrite !append_cons. discriminate. Qed.

(** The deletes the loop over the desired entries can emit are those of
    entries in state [absent]. *)
Lemma want_commands_delete hv w s :
  "no vlan " +:+ s ∈ want_commands hv w ->
  wstate w = absent /\ Py.str (vlan_id w) = s.
Proof.
  unfold want_commands. intros Hin.
  destruct (wstate w), (search_obj_in_list have_key (vlan_id w) hv);
    repeat case_match;
    rewrite ?elem_of_cons, ?elem_of_nil in Hin; destruct_or?; try done;
    try (symmetry in Hin; by apply cmd_vlan_not_delete in Hin);
    try (symmetry in Hin; by apply cmd_vlan_name_not_delete in Hin).
  symmetry in Hin. by apply cmd_no_vlan_inj in Hin.
Qed.

Lemma purge_commands_delete wt h s :
  "no vlan " +:+ s ∈ purge_commands wt h ->
  h_vlan_id h = s /\ s <> "1"
  /\ search_obj_in_list vlan_id (have_key h) wt = None.
Proof.
  unfold purge_commands.
  destruct (search_obj_in_list vlan_id (have_key h) wt); [by rewrite elem_of_nil|].
  case_decide; rewrite ?elem_of_nil, ?list_elem_of_singleton; [done|].
  intros Hin. symmetry in Hin. apply cmd_no_vlan_inj in Hin. simpl in Hin.
  split; [done|]. split; [congruence|done].
Qed.

Lemma purge_commands_unlisted wt h :
  (forall w, w ∈ wt -> Py.str (vlan_id w) <> h_vlan_id h) ->
  h_vlan_id h <> "1" ->
  purge_commands wt h = ["no vlan " +:+ h_vlan_id h].
Proof.
  intros Hun Hne. unfold purge_commands.
  rewrite search_obj_in_list_none.
  - by rewrite decide_False.
  - intros w Hw Heq. apply (Hun w Hw). by apply key_str_eq.
Qed.

Lemma elem_of_map_vlans c wt hv purge :
  c ∈ map_vlans_to_commands wt hv purge ->
  c = "vlan database" \/ c ∈ phase_commands wt hv purge \/ c = "exit".
Proof.
  unfold map_vlans_to_commands.
  destruct (phase_commands wt hv purge) as [|x l]; [by rewrite elem_of_nil|].
  rewrite elem_of_cons, elem_of_app, list_elem_of_singleton. tauto.
Qed.

(** Number of observed entries that carry the id [s]. *)
Lemma occurrences_purge wt hv s :
  (forall w, w ∈ wt -> Py.str (vlan_id w) <> s) -> s <> "1" ->
  occurrences ("no vlan " +:+ s) (hv ≫= purge_commands wt)
  = length (filter (fun h => h_vlan_id h = s) hv).
Proof.
  intros Hun Hne. induction hv as [|h hv IH]; [done|].
  rewrite bind_cons, occurrences_app, IH, filter_cons.
  destruct (decide (h_vlan_id h = s)) as [<-|Hd].
  - rewrite purge_commands_unlisted by done.
    rewrite occurrences_cons, decide_True by done. done.
  - rewrite occurrences_absent; [done|].
    intros Hin. by apply purge_commands_delete in Hin as [? _].
Qed.

Lemma count_same_id_NoDup (hv : list have) h :
  h ∈ hv -> NoDup (h_vlan_id <$> hv) ->
  length (filter (fun h' => h_vlan_id h' = h_vlan_id h) hv) = 1.
Proof.
  induction hv as [|h' hv IH]; intros Hh Hnd; [by apply elem_of_nil in Hh|].
  rewrite fmap_cons, NoDup_cons in Hnd. destruct Hnd as [Hnotin Hnd].
  rewrite filter_cons. apply elem_of_cons in Hh as [<-|Hh].
  - rewrite decide_True by done. simpl. f_equal.
    apply length_zero_iff_nil.
    destruct (filter _ hv) as [|x l] eqn:E; [done|]. exfalso.
    assert (Hx : x ∈ filter (fun h' => h_vlan_id h' = h_vlan_id h) hv)
      by (rewrite E; by left).
    apply list_elem_of_filter in Hx as [Hx1 Hx2]. apply Hnotin.
    rewrite <- Hx1. by apply list_elem_of_fmap_2.
  - rewrite decide_False; [by apply IH|].
    intros Heq. apply Hnotin. rewrite Heq. by apply list_elem_of_fmap_2.
Qed.

(** C6: with [purge] set, an observed VLAN whose id no desired entry
    carries, and which is not VLAN 1, is deleted by one command per
    observed entry with that id (exactly one when the observed ids are
    distinct); and when no desired entry asks for VLAN 1 to be absent, no
    delete command for VLAN 1 appears. *)
Theorem purge_deletes_unlisted_except_default (wt : list want) (hv : list have) :
  (forall h, h ∈ hv ->
     (forall w, w ∈ wt -> Py.str (vlan_id w) <> h_vlan_id h) ->
     h_vlan_id h <> "1" ->
     occurrences ("no vlan " +:+ h_vlan_id h) (map_vlans_to_commands wt hv true)
     = length (filter (fun h' => h_vlan_id h' = h_vlan_id h) hv)
     /\ (NoDup (h_vlan_id <$> hv) ->
         occurrences ("no vlan " +:+ h_vlan_id h)
           (map_vlans_to_commands wt hv true) = 1))
  /\ ((forall w, w ∈ wt -> wstate w = absent -> Py.str (vlan_id w) <> "1") ->
      "no vlan 1" ∉ map_vlans_to_commands wt hv true).
Proof.
  split.
  - intros h Hh Hun Hne.
    assert (Hcount :
      occurrences ("no vlan " +:+ h_vlan_id h) (map_vlans_to_commands wt hv true)
      = length (filter (fun h' => h_vlan_id h' = h_vlan_id h) hv)).
    { assert (Hin : "no vlan " +:+ h_vlan_id h ∈ phase_commands wt hv true).
      { unfold phase_commands. apply elem_of_app. right.
        apply list_elem_of_bind. exists h. split; [|done].
        rewrite purge_commands_unlisted by done. by left. }
      rewrite wrap_nonempty by (intros E; rewrite E in Hin; by apply elem_of_nil in Hin).
      rewrite occurrences_cons, occurrences_app, decide_False by (rewrite !append_cons; discriminate).
      unfold phase_commands. rewrite occurrences_app.
      rewrite (occurrences_absent _ (wt ≫= _)).
      - rewrite occurrences_purge by done.
        rewrite (occurrences_absent _ ["exit"]); [lia|].
        rewrite list_elem_of_singleton, !append_cons. discriminate.
      - intros Hw. apply list_elem_of_bind in Hw as (w & Hc & Hw).
        apply want_commands_delete in Hc as [_ Hc]. by apply (Hun w). }
    split; [done|]. intros Hnd. rewrite Hcount. by apply count_same_id_NoDup.
  - intros Hnone Hin. apply elem_of_map_vlans in Hin as [Hin|[Hin|Hin]].
    + discriminate Hin.
    + unfold phase_commands in Hin. apply elem_of_app in Hin as [Hin|Hin];
        apply list_elem_of_bind in Hin as (x & Hc & Hx).
      * change "no vlan 1" with ("no vlan " +:+ "1") in Hc.
        apply want_commands_delete in Hc as [Hst Hid]. by apply (Hnone x).
      * change "no vlan 1" with ("no vlan " +:+ "1") in Hc.
        by apply purge_commands_delete in Hc as (_ & Hne & _).
    + discriminate Hin.
Qed.

End vlan_purge.

(** ** Loops and dictionaries *)

Lemma for_each_app {A S} (body : S -> A -> Py.result S) s l1 l2 :
  Py.for_each body s (l1 ++ l2)
  = Py.bind (Py.for_each body s l1) (fun s' => Py.for_each body s' l2).
Proof.
  revert s. induction l1 as [|x l1 IH]; intros s; [done|].
  simpl. destruct (body s x); simpl; [apply IH|done].
Qed.

Lemma for_each_unit_ok {A} (f : A -> Py.result unit) l :
  Forall (fun x => f x = Py.Ok ()) l ->
  Py.for_each (fun _ x => f x) () l = Py.Ok ().
Proof.
  induction 1 as [|x l Hx _ IH]; [done|]. simpl. by rewrite Hx.
Qed.

Lemma for_each_unit_first {A} (f : A -> Py.result unit) pre x post e :
  Forall (fun y => f y = Py.Ok ()) pre -> f x = Py.Raise e ->
  Py.for_each (fun _ y => f y) () (pre ++ x :: post) = Py.Raise e.
Proof.
  intros Hpre Hx. rewrite for_each_app, for_each_unit_ok by done.
  simpl. by rewrite Hx.
Qed.

(** A loop of checks with a failing element fails, at its first failing
    element. *)
Lemma for_each_unit_raises {A} (f : A -> Py.result unit) l x e :
  x ∈ l -> f x = Py.Raise e ->
  exists e', Py.for_each (fun _ y => f y) () l = Py.Raise e'
             /\ exists y, y ∈ l /\ f y = Py.Raise e'.
Proof.
  induction l as [|y l IH]; intros Hx He; [by apply elem_of_nil in Hx|].
  simpl. destruct (f y) as [[]|e'] eqn:Ey.
  - apply elem_of_cons in Hx as [->|Hx]; [congruence|].
    destruct (IH Hx He) as (e' & H1 & z & Hz & H2).
    exists e'. split; [done|]. exists z. split; [by right|done].
  - exists e'. split; [done|]. exists y. split; [by left|done].
Qed.

Lemma dict_get_set {V} k k' (v : V) d :
  Dict.get k (Dict.set k' v d)
  = if decide (k = k') then Some v else Dict.get k d.
Proof.
  induction d as [|[k0 v0] d IH]; simpl.
  - by destruct (decide (k = k')).
  - destruct (decide (k' = k0)) as [->|Hne]; simpl.
    + by destruct (decide (k = k0)).
    + destruct (decide (k = k0)) as [->|Hne'].
      * by rewrite decide_False.
      * done.
Qed.

Lemma dict_get_set_all {V} k (v : V) ks d :
  Dict.get k (foldl (fun d k' => Dict.set k' v d) d ks)
  = if decide (k ∈ ks) then Some v else Dict.get k d.
Proof.
  revert d. induction ks as [|k' ks IH]; intros d; simpl.
  - done.
  - rewrite IH, dict_get_set.
    destruct (decide (k ∈ ks)) as [Hin|Hnin].
    + rewrite decide_True; [done|]. by right.
    + destruct (decide (k = k')) as [->|Hne].
      * rewrite decide_True; [done|]. by left.
      * rewrite decide_False; [done|]. rewrite not_elem_of_cons. tauto.
Qed.

(** ** Matching the interface patterns *)

Lemma span_digits_number d r :
  all_digits d = true ->
  (forall c r', r = String c r' -> Re.is_digit c = false) ->
  Re.span_digits (d +:+ r) = (d, r).
Proof.
  intros Hd Hr. induction d as [|c d IH]; simpl in *.
  - rewrite ?append_empty. destruct r as [|c r']; [done|].
    simpl. by rewrite (Hr c r').
  - apply andb_true_iff in Hd as [Hc Hd]. rewrite ?append_cons. simpl.
    rewrite Hc. by rewrite IH.
Qed.

Lemma digits_number d r :
  number d ->
  (forall c r', r = String c r' -> Re.is_digit c = false) ->
  Re.digits (d +:+ r) = Some (d, r).
Proof.
  intros [Hne Hd] Hr. unfold Re.digits. rewrite span_digits_number by done.
  by destruct d.
Qed.

Lemma append_empty_r s : s +:+ EmptyString = s.
Proof. induction s as [|c s IH]; [done|]. rewrite append_cons. by f_equal. Qed.

Lemma digits_number_end d :
  number d -> Re.digits d = Some (d, EmptyString).
Proof.
  intros Hd. pose proof (digits_number d EmptyString Hd) as H.
  rewrite append_empty_r in H. by apply H.
Qed.

Lemma search_here {A} (here : string -> option A) s m :
  here s = Some m -> Re.search here s = Some m.
Proof. intros H. destruct s; simpl; by rewrite H. Qed.

Lemma range_here_token gA iA gB iB :
  number gA -> number iA -> number gB -> number iB ->
  Re.range_here (range_token gA iA gB iB) = Some (gA, iA, gB, iB).
Proof.
  intros HgA HiA HgB HiB. unfold Re.range_here, range_token.
  rewrite (digits_number gA) by (done || by intros ?? [= <- _]).
  simpl. rewrite append_empty.
  rewrite (digits_number iA) by (done || by intros ?? [= <- _]).
  simpl. rewrite append_empty.
  rewrite (digits_number gB) by (done || by intros ?? [= <- _]).
  simpl. rewrite append_empty.
  by rewrite (digits_number_end iB).
Qed.

(** ** edgeswitch_vlan: validation *)

Section vlan_validation.
Import Vlan.

Lemma expand_token gA iA gB iB :
  number gA -> number iA -> number gB -> number iB ->
  expand (range_token gA iA gB iB)
  = (fun i : nat => gA +:+ "/" +:+ pretty i)
      <$> Re.range_incl (Re.int iA) (Re.int iB).
Proof.
  intros. unfold expand.
  by rewrite (search_here _ _ (gA, iA, gB, iB)) by by apply range_here_token.
Qed.

Lemma elem_of_range_incl a b i : i ∈ Re.range_incl a b <-> a <= i <= b.
Proof. unfold Re.range_incl. rewrite elem_of_seq. lia. Qed.

Lemma check_token_token gA iA gB iB :
  number gA -> number iA -> number gB -> number iB ->
  check_token (range_token gA iA gB iB)
  = if decide (gA = gB) then Py.Ok ()
    else Py.Raise (Py.FailJson (msg_same_group +:+ range_token gA iA gB iB)).
Proof.
  intros. unfold check_token.
  by rewrite (search_here _ _ (gA, iA, gB, iB)) by by apply range_here_token.
Qed.

Lemma check_token_raise i e :
  check_token i = Py.Raise e -> exists msg, e = Py.FailJson msg.
Proof.
  unfold check_token. intros H.
  repeat case_match; simplify_eq; eauto.
Qed.

Lemma for_each_unit_raise_inv {A} (f : A -> Py.result unit) l e :
  Py.for_each (fun _ y => f y) () l = Py.Raise e ->
  exists y, y ∈ l /\ f y = Py.Raise e.
Proof.
  induction l as [|x l IH]; [done|]. simpl.
  destruct (f x) as [[]|e'] eqn:Ex; simpl.
  - intros H. destruct (IH H) as (y & Hy & Hfy).
    exists y. split; [by right|done].
  - intros [= ->]. exists x. split; [by left|done].
Qed.

Lemma check_entry_tokens w :
  exclusive_count w <= 1 ->
  check_entry w = Py.for_each (fun _ i => check_token i) () (entry_tokens w).
Proof.
  intros Hc. unfold check_entry, entry_tokens, check_parmams_interface.
  rewrite decide_False by lia. rewrite !for_each_app.
  unfold mbind, result_bind.
  destruct (Py.for_each _ () (default [] (tagged_interfaces w))) as [[]|];
    simpl; [|done].
  rewrite for_each_app.
  by destruct (Py.for_each _ () (default [] (untagged_interfaces w))) as [[]|].
Qed.

Lemma check_entry_exclusive w :
  1 < exclusive_count w -> check_entry w = Py.Raise (Py.FailJson msg_exclusive).
Proof. intros Hc. unfold check_entry. by rewrite decide_True. Qed.

Lemma check_entry_raise w e :
  check_entry w = Py.Raise e -> exists msg, e = Py.FailJson msg.
Proof.
  destruct (decide (1 < exclusive_count w)) as [Hc|Hc].
  - rewrite check_entry_exclusive by done. intros [= <-]. eauto.
  - rewrite check_entry_tokens by lia. intros H.
    apply for_each_unit_raise_inv in H as (i & _ & Hi).
    by apply check_token_raise in Hi.
Qed.

Lemma check_params_tokens wt :
  (forall w, w ∈ wt -> exclusive_count w <= 1) ->
  check_params wt = Py.for_each (fun _ i => check_token i) () (all_tokens wt).
Proof.
  unfold check_params, all_tokens. induction wt as [|w wt IH]; intros Hc; [done|].
  rewrite bind_cons, for_each_app. simpl.
  rewrite check_entry_tokens by (apply Hc; by left).
  destruct (Py.for_each _ () (entry_tokens w)) as [[]|]; simpl; [|done].
  apply IH. intros w' Hw'. apply Hc. by right.
Qed.

(** An entry that fails its check makes [check_params] fail, with the
    message of the first entry that fails. *)
Lemma check_params_fails wt w e :
  w ∈ wt -> check_entry w = Py.Raise e ->
  exists msg, check_params wt = Py.Raise (Py.FailJson msg).
Proof.
  intros Hw He. unfold check_params.
  destruct (for_each_unit_raises check_entry wt w e Hw He) as (e' & H1 & y & _ & Hy).
  apply check_entry_raise in Hy as [msg ->]. eauto.
Qed.

Lemma check_entry_bad_token w i e :
  i ∈ entry_tokens w -> check_token i = Py.Raise e ->
  exists e', check_entry w = Py.Raise e'.
Proof.
  intros Hi He. destruct (decide (1 < exclusive_count w)) as [Hc|Hc].
  - rewrite check_entry_exclusive by done. eauto.
  - rewrite check_entry_tokens by lia.
    destruct (for_each_unit_raises check_token _ i e Hi He) as (e' & H1 & _).
    eauto.
Qed.

(** A failed validation ends [main] before anything is computed or sent. *)
Lemma main_fails purge check_mode wt hv ports e :
  check_params wt = Py.Raise e ->
  main purge check_mode wt hv ports = (Py.Raise e, []).
Proof. unfold main. by intros ->. Qed.

(** C5: a token [gA/iA-gB/iB] whose two groups are the same expands to
    the interfaces [gA/i] for [i] from [iA] to [iB] inclusive, and
    [set_interfaces] assigns the action to exactly these; when the groups
    differ, validation fails with a message that ends with the token, and
    [main] stops with that failure before any command is computed or
    sent. *)
Theorem range_expansion_and_group_check (gA iA gB iB : string) :
  number gA -> number iA -> number gB -> number iB ->
  (gA = gB ->
     expand (range_token gA iA gB iB)
     = (fun i : nat => gA +:+ "/" +:+ pretty i)
         <$> seq (Re.int iA) (S (Re.int iB) - Re.int iA)
     /\ (forall k, k ∈ expand (range_token gA iA gB iB)
           <-> exists i : nat, Re.int iA <= i <= Re.int iB
                               /\ k = gA +:+ "/" +:+ pretty i)
     /\ (forall d a k,
           Dict.get k (set_interfaces (Some [range_token gA iA gB iB]) d a)
           = if decide (k ∈ expand (range_token gA iA gB iB)) then Some a
             else Dict.get k d)
     /\ check_token (range_token gA iA gB iB) = Py.Ok ())
  /\ (gA <> gB ->
     check_token (range_token gA iA gB iB)
     = Py.Raise (Py.FailJson (msg_same_group +:+ range_token gA iA gB iB))
     /\ (forall wt purge check_mode hv ports,
           range_token gA iA gB iB ∈ all_tokens wt ->
           exists msg,
             check_params wt = Py.Raise (Py.FailJson msg)
             /\ main purge check_mode wt hv ports
                = (Py.Raise (Py.FailJson msg), []))
     /\ (forall wt pre post purge check_mode hv ports,
           (forall w, w ∈ wt -> exclusive_count w <= 1) ->
           all_tokens wt = pre ++ range_token gA iA gB iB :: post ->
           Forall (fun i => check_token i = Py.Ok ()) pre ->
           check_params wt
           = Py.Raise (Py.FailJson (msg_same_group +:+ range_token gA iA gB iB))
           /\ main purge check_mode wt hv ports
              = (Py.Raise
                   (Py.FailJson (msg_same_group +:+ range_token gA iA gB iB)),
                 []))).
Proof.
  intros HgA HiA HgB HiB.
  pose proof (expand_token gA iA gB iB HgA HiA HgB HiB) as Hexp.
  pose proof (check_token_token gA iA gB iB HgA HiA HgB HiB) as Hchk.
  split.
  - intros Heq. rewrite decide_True in Hchk by done.
    split; [done|]. split; [|split; [|done]].
    + intros k. rewrite Hexp, list_elem_of_fmap.
      split.
      * intros (i & -> & Hi%elem_of_range_incl). by exists i.
      * intros (i & Hi & ->). exists i. by rewrite elem_of_range_incl.
    + intros d a k. unfold set_interfaces. simpl. apply dict_get_set_all.
  - intros Hne. rewrite decide_False in Hchk by done.
    split; [done|]. split.
    + intros wt purge check_mode hv ports Hin.
      unfold all_tokens in Hin. apply list_elem_of_bind in Hin as (w & Hi & Hw).
      destruct (check_entry_bad_token w _ _ Hi Hchk) as [e' He'].
      destruct (check_params_fails wt w e' Hw He') as [msg Hmsg].
      exists msg. split; [done|]. by apply main_fails.
    + intros wt pre post purge check_mode hv ports Hc Htok Hpre.
      assert (check_params wt
              = Py.Raise (Py.FailJson (msg_same_group +:+ range_token gA iA gB iB))) as H.
      { rewrite check_params_tokens, Htok by done.
        by apply for_each_unit_first. }
      split; [done|]. by apply main_fails.
Qed.

Lemma two_flags_counted w :
  (auto_tag w = Some true /\ auto_untag w = Some true)
  \/ (auto_tag w = Some true /\ auto_exclude w = Some true)
  \/ (auto_untag w = Some true /\ auto_exclude w = Some true) ->
  1 < exclusive_count w.
Proof.
  unfold exclusive_count.
  intros [[-> ->]|[[-> ->]|[-> ->]]]; simpl.
  - destruct (Py.truthy_bool (auto_exclude w)); lia.
  - destruct (Py.truthy_bool (auto_untag w)); lia.
  - destruct (Py.truthy_bool (auto_tag w)); lia.
Qed.

(** C9: a desired entry in which two of [auto_tag], [auto_untag] and
    [auto_exclude] are set to true, whichever two they are, fails its
    check with the message
    [parameters are mutually exclusive: auto_tag, auto_untag, auto_exclude];
    a list that contains such an entry fails validation, with that
    message when no earlier entry fails, and [main] stops there, before
    any command is computed or sent. *)
Theorem mutually_exclusive_auto_rejected (w : want) (pre post : list want)
    (purge check_mode : bool) (hv : list have) (ports : Dict.t port) :
  (auto_tag w = Some true /\ auto_untag w = Some true)
  \/ (auto_tag w = Some true /\ auto_exclude w = Some true)
  \/ (auto_untag w = Some true /\ auto_exclude w = Some true) ->
  check_entry w
  = Py.Raise
      (Py.FailJson
         "parameters are mutually exclusive: auto_tag, auto_untag, auto_exclude")
  /\ (exists msg,
        check_params (pre ++ w :: post) = Py.Raise (Py.FailJson msg)
        /\ main purge check_mode (pre ++ w :: post) hv ports
           = (Py.Raise (Py.FailJson msg), []))
  /\ (check_params pre = Py.Ok () ->
      check_params (pre ++ w :: post)
      = Py.Raise
          (Py.FailJson
             "parameters are mutually exclusive: auto_tag, auto_untag, auto_exclude")
      /\ main purge check_mode (pre ++ w :: post) hv ports
         = (Py.Raise
              (Py.FailJson
                 "parameters are mutually exclusive: auto_tag, auto_untag, auto_exclude"),
            [])).
Proof.
  intros Hflags. pose proof (two_flags_counted w Hflags) as Hc.
  pose proof (check_entry_exclusive w Hc) as Hw.
  change msg_exclusive
    with "parameters are mutually exclusive: auto_tag, auto_untag, auto_exclude"
    in Hw.
  split; [done|]. split.
  - destruct (check_params_fails (pre ++ w :: post) w _
                ltac:(apply elem_of_app; right; by left) Hw)
      as [msg Hmsg].
    exists msg. split; [done|]. by apply main_fails.
  - intros Hpre.
    assert (check_params (pre ++ w :: post)
            = Py.Raise
                (Py.FailJson
                   "parameters are mutually exclusive: auto_tag, auto_untag, auto_exclude"))
      as H.
    { unfold check_params in *. rewrite for_each_app, Hpre. simpl.
      by rewrite Hw. }
    split; [done|]. by apply main_fails.
Qed.

End vlan_validation.

(** The two tokens of the specification: 0/4-0/6 expands to three
    interfaces, 0/4-1/6 is refused. *)
Lemma range_expansion_witness :
  Vlan.expand "0/4-0/6" = ["0/4"; "0/5"; "0/6"]
  /\ Vlan.check_token "0/4-1/6"
     = Py.Raise (Py.FailJson "interface range must be withing same group: 0/4-1/6").
Proof.
  split.
  - destruct (range_expansion_and_group_check "0" "4" "0" "6") as [H _];
      try (split; [discriminate|reflexivity]).
    destruct (H eq_refl) as [H1 _]. exact H1.
  - destruct (range_expansion_and_group_check "0" "4" "1" "6") as [_ H];
      try (split; [discriminate|reflexivity]).
    destruct H as [H1 _]; [discriminate|]. exact H1.
Defined.

(** An entry of [aggregate] with [auto_tag] and [auto_exclude] both
    set: [main] fails with the message that names the three parameters
    and sends nothing. *)
Lemma mutually_exclusive_witness :
  Vlan.main false false
    [{| Vlan.vlan_id := Py.VStr "100"; Vlan.name := None;
        Vlan.wstate := present;
        Vlan.auto_tag := Some true; Vlan.auto_untag := None;
        Vlan.auto_exclude := Some true;
        Vlan.tagged_interfaces := None; Vlan.untagged_interfaces := None;
        Vlan.excluded_interfaces := None |}] [] []
  = (Py.Raise
       (Py.FailJson
          "parameters are mutually exclusive: auto_tag, auto_untag, auto_exclude"),
     []).
Proof.
  destruct (mutually_exclusive_auto_rejected
              {| Vlan.vlan_id := Py.VStr "100"; Vlan.name := None;
                 Vlan.wstate := present;
                 Vlan.auto_tag := Some true; Vlan.auto_untag := None;
                 Vlan.auto_exclude := Some true;
                 Vlan.tagged_interfaces := None;
                 Vlan.untagged_interfaces := None;
                 Vlan.excluded_interfaces := None |}
              [] [] false false [] []) as (_ & _ & H).
  - right. left. split; reflexivity.
  - destruct H as [_ H]; [reflexivity|]. exact H.
Defined.

(** ** Order of the emitted blocks *)

Section block_order.

#[local] Instance item_le_trans : Transitive Vlan.item_le.
Proof. intros a b c. unfold Vlan.item_le. apply transitivity. Qed.

#[local] Instance item_le_total : Total Vlan.item_le.
Proof. intros a b. unfold Vlan.item_le. apply total, _. Qed.

Lemma NoDup_keys_item {V} (d : Dict.t V) a b :
  NoDup (Dict.keys d) -> a ∈ d -> b ∈ d -> a.1 = b.1 -> a = b.
Proof.
  unfold Dict.keys. induction d as [|x d IH]; intros Hnd Ha Hb Heq.
  { by apply elem_of_nil in Ha. }
  rewrite fmap_cons, NoDup_cons in Hnd. destruct Hnd as [Hx Hnd].
  apply elem_of_cons in Ha as [->|Ha], Hb as [->|Hb]; [done| | |by apply IH].
  - exfalso. apply Hx. rewrite Heq. by apply list_elem_of_fmap_2.
  - exfalso. apply Hx. rewrite <- Heq. by apply list_elem_of_fmap_2.
Qed.

(** Sorting does not depend on the iteration order of the dictionary. *)
Lemma merge_sort_items_perm (d d' : Dict.t (list string)) :
  NoDup (Dict.keys d) -> d' ≡ₚ d ->
  merge_sort Vlan.item_le d' = merge_sort Vlan.item_le d.
Proof.
  intros Hnd Hp. apply (Sorted_unique_strong Vlan.item_le).
  - intros a b Ha Hb Hab Hba. apply (NoDup_keys_item d); [done|..].
    + rewrite (merge_sort_Permutation Vlan.item_le), Hp in Ha. done.
    + by rewrite (merge_sort_Permutation Vlan.item_le) in Hb.
    + unfold Vlan.item_le in *. by apply (anti_symm String.le).
  - apply Sorted_merge_sort, _.
  - apply Sorted_merge_sort, _.
  - by rewrite !(merge_sort_Permutation Vlan.item_le).
Qed.

Lemma StronglySorted_keys_strict (l : list (string * list string)) :
  NoDup (Dict.keys l) -> StronglySorted Vlan.item_le l ->
  StronglySorted (strict String.le) (Dict.keys l).
Proof.
  unfold Dict.keys. induction l as [|x l IH]; intros Hnd Hs; [constructor|].
  rewrite fmap_cons, NoDup_cons in Hnd. destruct Hnd as [Hx Hnd].
  apply StronglySorted_inv in Hs as [Hs Hall].
  rewrite fmap_cons. constructor; [by apply IH|].
  rewrite Forall_fmap. rewrite Forall_forall in Hall |- *.
  intros y Hy. simpl. split; [by apply Hall|].
  intros Hyx. apply Hx.
  rewrite (anti_symm String.le x.1 y.1) by (done || by apply Hall).
  by apply list_elem_of_fmap_2.
Qed.

Lemma elem_of_keys_set {V} x k (v : V) d :
  x ∈ Dict.keys (Dict.set k v d) -> x = k \/ x ∈ Dict.keys d.
Proof.
  unfold Dict.keys. induction d as [|[k0 v0] d IH]; simpl.
  - rewrite list_elem_of_singleton. tauto.
  - destruct (decide (k = k0)) as [->|Hne]; rewrite !fmap_cons, !elem_of_cons;
      simpl; [tauto|].
    intros [?|?]; [tauto|]. destruct IH; tauto.
Qed.

Lemma dict_set_NoDup {V} k (v : V) d :
  NoDup (Dict.keys d) -> NoDup (Dict.keys (Dict.set k v d)).
Proof.
  unfold Dict.keys. induction d as [|[k0 v0] d IH]; simpl.
  - intros _. apply NoDup_singleton.
  - rewrite NoDup_cons. intros [Hk0 Hnd].
    destruct (decide (k = k0)) as [->|Hne]; rewrite fmap_cons, NoDup_cons; simpl.
    + done.
    + split; [|by apply IH].
      intros [?|?]%elem_of_keys_set; [congruence|done].
Qed.

Lemma for_each_preserves {A S} (I : S -> Prop) (body : S -> A -> Py.result S)
    l s s' :
  I s ->
  (forall s0 x s1, body s0 x = Py.Ok s1 -> I s0 -> I s1) ->
  Py.for_each body s l = Py.Ok s' -> I s'.
Proof.
  intros Hs Hbody. revert s Hs. induction l as [|x l IH]; intros s Hs; simpl.
  - by intros [= <-].
  - destruct (body s x) as [s1|] eqn:E; simpl; [|done].
    apply IH. by apply (Hbody s x).
Qed.

(** The accumulator the membership phase builds has one entry per
    interface. *)
Lemma accumulator_keys_NoDup wt ports acc :
  Py.for_each (Vlan.want_step ports) [] wt = Py.Ok acc ->
  NoDup (Dict.keys acc).
Proof.
  apply (for_each_preserves (fun a => NoDup (Dict.keys a))); [constructor|].
  intros a w a'. unfold Vlan.want_step. destruct (Vlan.wstate w).
  - intros Hfe Ha. revert Hfe.
    apply (for_each_preserves (fun a => NoDup (Dict.keys a))); [done|].
    intros a0 [i t] a1. unfold Vlan.accumulate, Dict.subscript. simpl.
    destruct (Dict.get i ports); simpl; [|done].
    intros [= <-]. apply dict_set_NoDup.
  - by intros [= <-].
Qed.

(** Whatever [map_interfaces_to_commands] returns is a sequence of
    blocks in strictly ascending string order of the interfaces. *)
Lemma map_interfaces_blocks_sorted wt ports cmds :
  Vlan.map_interfaces_to_commands wt ports = Py.Ok cmds ->
  exists items,
    StronglySorted (strict String.le) (Dict.keys items)
    /\ cmds = items ≫= block.
Proof.
  unfold Vlan.map_interfaces_to_commands.
  destruct (Py.for_each (Vlan.want_step ports) [] wt) as [acc|] eqn:E;
    simpl; [|done].
  intros [= <-]. exists (merge_sort Vlan.item_le acc). split; [|done].
  apply StronglySorted_keys_strict.
  - unfold Dict.keys. rewrite (merge_sort_Permutation Vlan.item_le).
    by apply (accumulator_keys_NoDup wt ports).
  - apply StronglySorted_merge_sort; apply _.
Qed.

(** C3, as the code has it: the VLAN module emits the blocks of its
    accumulator in ascending order of the interface identifier compared
    as a character string, whatever the iteration order of the
    accumulator, so that the same content gives the same commands. *)
Theorem blocks_sorted_by_identifier_string (acc acc' : Dict.t (list string)) :
  NoDup (Dict.keys acc) -> acc' ≡ₚ acc ->
  Vlan.emit acc' = Vlan.emit acc
  /\ (exists items,
        items ≡ₚ acc
        /\ StronglySorted (strict String.le) (Dict.keys items)
        /\ Vlan.emit acc = items ≫= block).
Proof.
  intros Hnd Hp. split.
  - unfold Vlan.emit. by rewrite (merge_sort_items_perm acc acc').
  - exists (merge_sort Vlan.item_le acc).
    split; [apply merge_sort_Permutation|]. split; [|done].
    apply StronglySorted_keys_strict.
    + unfold Dict.keys. by rewrite (merge_sort_Permutation Vlan.item_le).
    + apply StronglySorted_merge_sort; apply _.
Qed.

(** Two iteration orders of one accumulator, same commands. *)
Lemma blocks_sorted_witness :
  Vlan.emit [("0/2", ["vlan pvid 5"]); ("0/10", []); ("0/1", ["vlan pvid 7"])]
  = Vlan.emit [("0/1", ["vlan pvid 7"]); ("0/2", ["vlan pvid 5"]); ("0/10", [])].
Proof.
  refine (proj1 (blocks_sorted_by_identifier_string
                   [("0/1", ["vlan pvid 7"]); ("0/2", ["vlan pvid 5"]); ("0/10", [])]
                   [("0/2", ["vlan pvid 5"]); ("0/10", []); ("0/1", ["vlan pvid 7"])]
                   _ _)).
  - apply (bool_decide_unpack _). vm_compute. exact I.
  - symmetry. exact (Permutation_cons_append [_; _] _).
Defined.

(** C3, as stated, fails: with commands pending for 0/2 and 0/10 the
    VLAN module puts 0/10 first, which is not the numeric order of the
    indices; and the voice module keeps the order in which the desired
    entry lists the interfaces. *)
Lemma blocks_not_in_numeric_order :
  Vlan.map_interfaces_to_commands
    [{| Vlan.vlan_id := Py.VStr "5"; Vlan.name := None; Vlan.wstate := present;
        Vlan.auto_tag := None; Vlan.auto_untag := None;
        Vlan.auto_exclude := None;
        Vlan.tagged_interfaces := Some ["0/2"; "0/10"];
        Vlan.untagged_interfaces := None;
        Vlan.excluded_interfaces := None |}]
    [("0/2", {| Vlan.interface := "0/2"; Vlan.pvid_mode := "1";
                Vlan.untagged_vlans := ["1"]; Vlan.tagged_vlans := [];
                Vlan.forbidden_vlans := [] |});
     ("0/10", {| Vlan.interface := "0/10"; Vlan.pvid_mode := "1";
                 Vlan.untagged_vlans := ["1"]; Vlan.tagged_vlans := [];
                 Vlan.forbidden_vlans := [] |})]
  = Py.Ok ["interface 0/10"; "vlan participation include 5"; "vlan tagging 5";
           "interface 0/2"; "vlan participation include 5"; "vlan tagging 5"]
  /\ headers (Vlan.emit [("0/2", ["vlan tagging 5"]); ("0/10", ["vlan tagging 5"])])
     = ["0/10"; "0/2"]
  /\ ~ Sorted spec_numeric_le
         (headers (Vlan.emit [("0/2", ["vlan tagging 5"]);
                              ("0/10", ["vlan tagging 5"])]))
  /\ Voice.map_to_commands
       [{| Voice.vlan_id := Py.VNone; Voice.dscp := None;
           Voice.interfaces := ["0/2"; "0/1"]; Voice.lldp := None;
           Voice.wstate := absent |}]
       [("0/1", {| Voice.voice_vlan := "100"; Voice.voice_dscp := "no";
                   Voice.p_lldp := [] |});
        ("0/2", {| Voice.voice_vlan := "100"; Voice.voice_dscp := "no";
                   Voice.p_lldp := [] |})]
     = Py.Ok ["interface 0/2"; "no voice vlan"; "interface 0/1"; "no voice vlan"].
Proof.
  split; [vm_compute; reflexivity|]. split; [vm_compute; reflexivity|].
  split; [|vm_compute; reflexivity].
  intros Hs.
  assert (headers (Vlan.emit [("0/2", ["vlan tagging 5"]); ("0/10", ["vlan tagging 5"])])
          = ["0/10"; "0/2"]) as E by (vm_compute; reflexivity).
  rewrite E in Hs. apply Sorted_inv in Hs as [_ Hhd].
  apply HdRel_inv in Hhd. vm_compute in Hhd. lia.
Qed.

End block_order.

(** ** edgeswitch_voice *)

Section voice.
Import Voice.

(** C4: for a port whose observed voice VLAN differs from the desired
    one, in state [present], the first sub-command is the text
    [voice vlan {}] followed by the id, braces included, and not
    [voice vlan ] followed by the id. *)
Theorem voice_vlan_command_keeps_braces (vlan_id : string) (p : port) :
  voice_vlan p <> vlan_id ->
  (forall d l,
     exists rest,
       map_to_commands_interface vlan_id (Some d) (Some l) present p
       = Py.Ok (("voice vlan {}" +:+ vlan_id) :: rest))
  /\ (forall dscp lldp cmds,
        map_to_commands_interface vlan_id dscp lldp present p = Py.Ok cmds ->
        head cmds = Some ("voice vlan {}" +:+ vlan_id))
  /\ "voice vlan {}" +:+ vlan_id <> "voice vlan " +:+ vlan_id.
Proof.
  intros Hne. split; [|split].
  - intros d l. unfold map_to_commands_interface.
    rewrite decide_False by done.
    destruct (decide (Some (voice_dscp p) = Some d)); simpl; eauto.
  - intros dscp lldp cmds. unfold map_to_commands_interface.
    rewrite decide_False by done.
    destruct (decide (Some (voice_dscp p) = dscp)), dscp, lldp; simpl;
      try discriminate; by intros [= <-].
  - intros H. apply (inj (String.app "voice vlan ")) in H.
    apply (f_equal String.length) in H. simpl in H. lia.
Qed.

(** VLAN 100 on a port without voice VLAN. *)
Lemma voice_vlan_braces_witness :
  map_to_commands
    [{| vlan_id := Py.VInt 100; dscp := Some "46"; interfaces := ["0/1"];
        lldp := Some ["med"]; wstate := present |}]
    [("0/1", {| voice_vlan := "no"; voice_dscp := "46"; p_lldp := ["med"] |})]
  = Py.Ok ["interface 0/1"; "voice vlan {}100"]
  /\ head ["voice vlan {}100"] = Some "voice vlan {}100".
Proof.
  split; [vm_compute; reflexivity|].
  refine (proj1 (proj2 (voice_vlan_command_keeps_braces "100"
            {| voice_vlan := "no"; voice_dscp := "46"; p_lldp := ["med"] |} _))
            (Some "46") (Some ["med"]) _ _); [discriminate|].
  vm_compute. reflexivity.
Defined.

End voice.

(** ** Loops that stop, loops that go through *)

Lemma for_each_raises {A S} (body : S -> A -> Py.result S) l x s :
  x ∈ l -> (forall s', exists e, body s' x = Py.Raise e) ->
  exists e, Py.for_each body s l = Py.Raise e.
Proof.
  intros Hx Hbody. revert s.
  induction l as [|y l IH]; intros s; [by apply elem_of_nil in Hx|].
  simpl. apply elem_of_cons in Hx as [<-|Hx].
  - destruct (Hbody s) as [e ->]. eauto.
  - destruct (body s y) as [s'|e]; simpl; eauto.
Qed.

Lemma for_each_ok {A S} (body : S -> A -> Py.result S) l s :
  (forall x s', x ∈ l -> exists s'', body s' x = Py.Ok s'') ->
  exists s', Py.for_each body s l = Py.Ok s'.
Proof.
  revert s. induction l as [|y l IH]; intros s Hbody; [by eexists|].
  simpl. destruct (Hbody y s) as [s'' ->]; [by left|]. simpl.
  apply IH. intros x s' Hx. apply Hbody. by right.
Qed.

Lemma for_each_ext {A S} (f g : S -> A -> Py.result S) l s :
  (forall x s', x ∈ l -> f s' x = g s' x) ->
  Py.for_each f s l = Py.for_each g s l.
Proof.
  revert s. induction l as [|y l IH]; intros s Hfg; [done|].
  simpl. rewrite Hfg by by left. destruct (g s y); simpl; [|done].
  apply IH. intros x s' Hx. apply Hfg. by right.
Qed.

Lemma elem_of_dict_set {V} k (v : V) k' v' d :
  (k, v) ∈ Dict.set k' v' d -> (k, v) = (k', v') \/ (k, v) ∈ d.
Proof.
  induction d as [|[k0 v0] d IH]; simpl.
  - rewrite list_elem_of_singleton. tauto.
  - destruct (decide (k' = k0)) as [->|Hne]; rewrite !elem_of_cons; [tauto|].
    intros [?|?]; [tauto|]. destruct IH; tauto.
Qed.

Lemma dict_get_elem_of_keys {V} k (d : Dict.t V) :
  k ∈ Dict.keys d -> exists v, Dict.get k d = Some v.
Proof.
  unfold Dict.keys. induction d as [|[k0 v0] d IH]; simpl.
  - by intros ?%elem_of_nil.
  - destruct (decide (k = k0)); [eauto|].
    rewrite elem_of_cons. intros [?|?]; [done|eauto].
Qed.

Lemma dict_get_filter_key {V} (P : string -> bool) k (d : Dict.t V) :
  P k = true ->
  Dict.get k (filter (fun kv => Is_true (P kv.1)) d) = Dict.get k d.
Proof.
  intros HP. induction d as [|[k0 v0] d IH]; [done|].
  rewrite filter_cons. simpl. destruct (decide (Is_true (P k0))) as [H0|H0]; simpl.
  - by destruct (decide (k = k0)).
  - destruct (decide (k = k0)) as [->|]; [|done].
    rewrite HP in H0. by destruct H0.
Qed.

Lemma keys_filter_key {V} (P : string -> bool) (d : Dict.t V) :
  Dict.keys (filter (fun kv => Is_true (P kv.1)) d)
  = filter (fun k => Is_true (P k)) (Dict.keys d).
Proof.
  unfold Dict.keys. induction d as [|[k0 v0] d IH]; [done|].
  rewrite fmap_cons, !filter_cons. simpl.
  destruct (decide (Is_true (P k0))); [rewrite fmap_cons|]; by rewrite IH.
Qed.

Lemma filter_filter_same {A} (P : A -> Prop) `{!forall x, Decision (P x)} (l : list A) :
  filter P (filter P l) = filter P l.
Proof.
  induction l as [|x l IH]; [done|].
  rewrite filter_cons. destruct (decide (P x)); [|done].
  rewrite filter_cons, decide_True by done. by rewrite IH.
Qed.

(** ** edgeswitch_voice: the token [all] *)

Section voice_all.
Import Voice.

Lemma voice_sub_command_not_header v d l st p cmds x key :
  map_to_commands_interface v d l st p = Py.Ok cmds -> x ∈ cmds ->
  x <> "interface " +:+ key.
Proof.
  intros Hc Hx ->. unfold map_to_commands_interface in Hc. destruct st.
  - destruct (decide (voice_vlan p = v)),
      (decide (Some (voice_dscp p) = d)), d as [d'|], l as [l'|];
      simpl in Hc; try discriminate; injection Hc as <-;
      rewrite ?elem_of_cons, ?elem_of_app, ?list_elem_of_fmap in Hx;
      destruct_or?;
      try (by apply elem_of_nil in Hx);
      try (destruct Hx as (t & Hx & _));
      rewrite !append_cons in Hx; discriminate.
  - destruct (decide (voice_vlan p = "no")), (decide (voice_dscp p = "no"));
      simpl in Hc; injection Hc as <-;
      rewrite ?elem_of_cons, ?elem_of_app in Hx;
      destruct_or?;
      try (by apply elem_of_nil in Hx);
      rewrite !append_cons in Hx; discriminate.
Qed.

Lemma assign_loop_items w ports ks acc0 acc :
  Py.for_each (assign w ports) acc0 ks = Py.Ok acc ->
  forall k v, (k, v) ∈ acc ->
    (k, v) ∈ acc0
    \/ (k ∈ ks
        /\ exists p, map_to_commands_interface (Py.str (vlan_id w)) (dscp w)
                       (lldp w) (wstate w) p = Py.Ok v).
Proof.
  revert acc0. induction ks as [|k0 ks IH]; intros acc0; simpl.
  - intros [= <-]. tauto.
  - unfold assign at 1. unfold mbind, result_bind, Dict.subscript.
    destruct (Dict.get k0 ports) as [p|]; simpl; [|done].
    destruct (map_to_commands_interface _ _ _ _ p) as [cmds|] eqn:E; simpl; [|done].
    intros H k v Hkv. destruct (IH _ H k v Hkv) as [Hin|[Hin Hp]].
    + apply elem_of_dict_set in Hin as [[= -> ->]|Hin]; [|tauto].
      right. split; [by left|eauto].
    + right. split; [by right|done].
Qed.

Lemma targets_all ports :
  targets ports "all"
  = filter (fun k => Is_true (String.prefix "0/" k)) (Dict.keys ports).
Proof. done. Qed.

Lemma entry_commands_all w ports :
  interfaces w = ["all"] ->
  entry_commands ports w = entry_commands (group_zero ports) w.
Proof.
  intros Hall. unfold entry_commands. rewrite Hall. simpl.
  destruct (_ && _); [done|]. rewrite !targets_all.
  unfold group_zero. rewrite keys_filter_key, filter_filter_same.
  rewrite (for_each_ext (assign w ports)
             (assign w (filter (fun kv => Is_true (String.prefix "0/" kv.1)) ports)));
    [done|].
  intros k acc [Hk _]%list_elem_of_filter. unfold assign, Dict.subscript.
  rewrite (dict_get_filter_key (String.prefix "0/")); [done|].
  by apply Is_true_true.
Qed.

(** C10: in the voice module the token [all] stands for the observed
    interfaces whose key starts with [0/] only: the commands are those
    computed from the ports of group 0 alone, and no block is emitted for
    an interface of another group. *)
Theorem voice_all_skips_other_groups (w : want) (ports : Dict.t port) :
  interfaces w = ["all"] ->
  targets ports "all"
  = filter (fun k => Is_true (String.prefix "0/" k)) (Dict.keys ports)
  /\ map_to_commands [w] ports = map_to_commands [w] (group_zero ports)
  /\ (forall key, String.prefix "0/" key = false ->
        (key ∉ targets ports "all")
        /\ (forall cmds, map_to_commands [w] ports = Py.Ok cmds ->
                         "interface " +:+ key ∉ cmds))
  /\ (wstate w = absent
      \/ (Py.str (vlan_id w) <> "None" /\ is_Some (dscp w) /\ is_Some (lldp w)) ->
      exists cmds, map_to_commands [w] ports = Py.Ok cmds).
Proof.
  intros Hall. split; [done|]. split; [|split].
  - unfold map_to_commands. simpl. by rewrite entry_commands_all.
  - intros key Hkey.
    assert (key ∉ targets ports "all") as Hnot.
    { rewrite targets_all, list_elem_of_filter. intros [Hp _].
      rewrite Hkey in Hp. by destruct Hp. }
    split; [done|]. intros cmds. unfold map_to_commands. simpl.
    unfold mbind at 1, result_bind at 1.
    destruct (entry_commands ports w) as [cs|] eqn:E; simpl; [|done].
    intros [= <-]. unfold entry_commands in E. rewrite Hall in E. simpl in E.
    destruct (_ && _); [done|]. unfold mbind, result_bind in E.
    destruct (Py.for_each (assign w ports) [] (targets ports "all"))
      as [acc|] eqn:Eacc; simpl in E; [|done].
    injection E as <-. unfold emit. rewrite list_elem_of_bind.
    intros ([k v] & Hx & Hkv).
    destruct (assign_loop_items _ _ _ _ _ Eacc k v Hkv) as [Hin|[Hin [p Hp]]].
    { by apply elem_of_nil in Hin. }
    unfold block in Hx. simpl in Hx. destruct v as [|c v]; [by apply elem_of_nil in Hx|].
    apply elem_of_cons in Hx as [Hx|Hx].
    + apply (inj (String.app "interface ")) in Hx. by subst.
    + by apply (voice_sub_command_not_header _ _ _ _ _ _ _ key Hp Hx).
  - intros Hwf. unfold map_to_commands. simpl.
    unfold entry_commands. rewrite Hall. simpl.
    assert (bool_decide (wstate w = present)
            && bool_decide (Py.str (vlan_id w) = "None") = false) as ->.
    { destruct Hwf as [->|[Hv _]]; [done|].
      by rewrite (bool_decide_eq_false_2 _ Hv), andb_false_r. }
    destruct (for_each_ok (assign w ports) (targets ports "all") []) as [acc Hacc].
    + intros k acc [_ Hk]%list_elem_of_filter.
      apply dict_get_elem_of_keys in Hk as [p Hp].
      unfold assign, Dict.subscript. rewrite Hp. simpl.
      unfold map_to_commands_interface.
      destruct Hwf as [->|(_ & [d ->] & [l ->])]; [by eexists|].
      destruct (wstate w); [|by eexists].
      destruct (decide (Some (voice_dscp p) = Some d)); by eexists.
    + rewrite Hacc. simpl. by eexists.
Qed.

(** A device with a port in group 1: [all] gives what the port of group
    0 alone gives. *)
Lemma voice_all_witness :
  map_to_commands
    [{| vlan_id := Py.VNone; dscp := None; interfaces := ["all"];
        lldp := None; wstate := absent |}]
    [("0/1", {| voice_vlan := "100"; voice_dscp := "46"; p_lldp := [] |});
     ("1/1", {| voice_vlan := "100"; voice_dscp := "46"; p_lldp := [] |})]
  = map_to_commands
      [{| vlan_id := Py.VNone; dscp := None; interfaces := ["all"];
          lldp := None; wstate := absent |}]
      [("0/1", {| voice_vlan := "100"; voice_dscp := "46"; p_lldp := [] |})].
Proof.
  exact (proj1 (proj2 (voice_all_skips_other_groups
           {| vlan_id := Py.VNone; dscp := None; interfaces := ["all"];
              lldp := None; wstate := absent |}
           [("0/1", {| voice_vlan := "100"; voice_dscp := "46"; p_lldp := [] |});
            ("1/1", {| voice_vlan := "100"; voice_dscp := "46"; p_lldp := [] |})]
           eq_refl))).
Defined.

End voice_all.

(** ** A desired interface that the device does not have *)

Section missing_interface.

Lemma interface_step_fold get hv l st :
  foldl (Interface.step get hv) st l
  = (st.1 ++ (foldl (Interface.step get hv) ([], []) l).1,
     st.2 ++ (foldl (Interface.step get hv) ([], []) l).2).
Proof.
  remember (Interface.step get hv) as f eqn:Ef.
  revert st. induction l as [|w l IH]; intros [c ws]; simpl.
  - by rewrite !app_nil_r.
  - rewrite IH. rewrite (IH (f ([], []) w)). subst f.
    unfold Interface.step.
    destruct (Interface.search_obj_in_list (Interface.name w) hv); simpl;
      rewrite ?app_assoc; try done. by rewrite <- app_assoc.
Qed.

Lemma map_obj_to_commands_app get hv l1 l2 :
  Interface.map_obj_to_commands get (l1 ++ l2) hv
  = ((Interface.map_obj_to_commands get l1 hv).1
       ++ (Interface.map_obj_to_commands get l2 hv).1,
     (Interface.map_obj_to_commands get l1 hv).2
       ++ (Interface.map_obj_to_commands get l2 hv).2).
Proof.
  unfold Interface.map_obj_to_commands. rewrite foldl_app.
  by rewrite interface_step_fold.
Qed.

Lemma voice_assign_missing w ports acc key :
  Dict.get key ports = None ->
  Voice.assign w ports acc key = Py.Raise (Py.KeyError key).
Proof. intros H. unfold Voice.assign, Dict.subscript. by rewrite H. Qed.

Lemma vlan_accumulate_missing w ports acc i t :
  Dict.get i ports = None ->
  Vlan.accumulate w ports acc (i, t) = Py.Raise (Py.KeyError i).
Proof. intros H. unfold Vlan.accumulate, Dict.subscript. simpl. by rewrite H. Qed.

(** A voice entry that names an interface the device does not have makes
    the mapping raise. *)
Lemma voice_missing_interface_raises vwt vports vw i key :
  vw ∈ vwt -> i ∈ Voice.interfaces vw -> key ∈ Voice.targets vports i ->
  Dict.get key vports = None ->
  exists e, Voice.map_to_commands vwt vports = Py.Raise e.
Proof.
  intros Hvw Hi Hkey Hget. unfold Voice.map_to_commands.
  apply (for_each_raises _ vwt vw); [done|]. intros commands.
  unfold Voice.entry_commands. destruct (_ && _); [by eexists|].
  destruct (for_each_raises
              (fun acc i => Py.for_each (Voice.assign vw vports) acc
                              (Voice.targets vports i))
              (Voice.interfaces vw) i []) as [e He]; [done| |].
  - intros acc. apply (for_each_raises _ _ key); [done|].
    intros acc'. exists (Py.KeyError key). by apply voice_assign_missing.
  - rewrite He. by eexists.
Qed.

(** So does a VLAN entry in state [present]. *)
Lemma vlan_missing_interface_raises lwt lports lw i t :
  lw ∈ lwt -> Vlan.wstate lw = present ->
  (i, t) ∈ Vlan.resolve lw lports -> Dict.get i lports = None ->
  exists e, Vlan.map_interfaces_to_commands lwt lports = Py.Raise e.
Proof.
  intros Hlw Hst Hit Hget. unfold Vlan.map_interfaces_to_commands.
  destruct (for_each_raises (Vlan.want_step lports) lwt lw []) as [e He];
    [done| |].
  - intros acc. unfold Vlan.want_step. rewrite Hst.
    apply (for_each_raises _ _ (i, t)); [done|].
    intros acc'. exists (Py.KeyError i). by apply vlan_accumulate_missing.
  - rewrite He. by eexists.
Qed.

(** C8, as the code has it: the interface module records the warning
    for a desired interface that is not observed, emits nothing for it,
    and treats the entries before and after it as if it were not there:
    their commands and warnings are all returned, in order. *)
Theorem missing_interface_warns_in_interface_module
    (get_running_mtu : string -> option string)
    (pre post : list Interface.want) (w : Interface.want)
    (hv : list Interface.have) :
  Interface.search_obj_in_list (Interface.name w) hv = None ->
  Interface.map_obj_to_commands get_running_mtu (pre ++ w :: post) hv
  = ((Interface.map_obj_to_commands get_running_mtu pre hv).1
       ++ (Interface.map_obj_to_commands get_running_mtu post hv).1,
     (Interface.map_obj_to_commands get_running_mtu pre hv).2
       ++ Interface.msg_missing (Interface.name w)
       :: (Interface.map_obj_to_commands get_running_mtu post hv).2).
Proof.
  intros Hnone. rewrite map_obj_to_commands_app.
  change (w :: post) with ([w] ++ post). rewrite map_obj_to_commands_app.
  assert (Interface.map_obj_to_commands get_running_mtu [w] hv
          = ([], [Interface.msg_missing (Interface.name w)])) as ->.
  { unfold Interface.map_obj_to_commands. simpl.
    unfold Interface.step. by rewrite Hnone. }
  done.
Qed.

(** 0/9 is not on the device, 0/2 is: one warning, and the commands for
    0/2. *)
Lemma missing_interface_witness :
  Interface.map_obj_to_commands (fun _ => None)
    [{| Interface.name := "0/9"; Interface.description := None;
        Interface.speed := None; Interface.mtu := None;
        Interface.disable := Some true |};
     {| Interface.name := "0/2"; Interface.description := None;
        Interface.speed := None; Interface.mtu := None;
        Interface.disable := Some false |}]
    [{| Interface.h_name := "0/2"; Interface.h_description := None;
        Interface.h_speed := "auto"; Interface.h_mtu := None;
        Interface.h_disable := true |}]
  = (["interface 0/2"; "no shutdown"],
     ["interface 0/9 does not exist on target"]).
Proof.
  exact (missing_interface_warns_in_interface_module (fun _ => None) []
           [{| Interface.name := "0/2"; Interface.description := None;
               Interface.speed := None; Interface.mtu := None;
               Interface.disable := Some false |}]
           {| Interface.name := "0/9"; Interface.description := None;
              Interface.speed := None; Interface.mtu := None;
              Interface.disable := Some true |}
           [{| Interface.h_name := "0/2"; Interface.h_description := None;
               Interface.h_speed := "auto"; Interface.h_mtu := None;
               Interface.h_disable := true |}]
           eq_refl).
Defined.

(** C8, as stated, fails outside the interface module: a voice or VLAN
    entry that names an interface the device does not have ends the
    mapping with [KeyError]; there is no warning, and the valid entry
    next to it gets no commands. *)
Lemma missing_interface_raises_in_voice_and_vlan :
  Voice.map_to_commands
    [{| Voice.vlan_id := Py.VNone; Voice.dscp := None;
        Voice.interfaces := ["0/9"]; Voice.lldp := None;
        Voice.wstate := absent |};
     {| Voice.vlan_id := Py.VNone; Voice.dscp := None;
        Voice.interfaces := ["0/1"]; Voice.lldp := None;
        Voice.wstate := absent |}]
    [("0/1", {| Voice.voice_vlan := "100"; Voice.voice_dscp := "46";
                Voice.p_lldp := [] |})]
  = Py.Raise (Py.KeyError "0/9")
  /\ Vlan.map_interfaces_to_commands
       [{| Vlan.vlan_id := Py.VStr "5"; Vlan.name := None;
           Vlan.wstate := present;
           Vlan.auto_tag := None; Vlan.auto_untag := None;
           Vlan.auto_exclude := None;
           Vlan.tagged_interfaces := Some ["0/9"; "0/1"];
           Vlan.untagged_interfaces := None;
           Vlan.excluded_interfaces := None |}]
       [("0/1", {| Vlan.interface := "0/1"; Vlan.pvid_mode := "1";
                   Vlan.untagged_vlans := ["1"]; Vlan.tagged_vlans := [];
                   Vlan.forbidden_vlans := [] |})]
     = Py.Raise (Py.KeyError "0/9").
Proof. split; vm_compute; reflexivity. Qed.

End missing_interface.

(** ** Idempotence *)

Section idempotence.

Lemma for_each_invariant {A S} (I : S -> Prop) (body : S -> A -> Py.result S)
    l s :
  I s ->
  (forall s' x, x ∈ l -> I s' -> exists s'', body s' x = Py.Ok s'' /\ I s'') ->
  exists s', Py.for_each body s l = Py.Ok s' /\ I s'.
Proof.
  revert s. induction l as [|y l IH]; intros s Hs Hbody; [by exists s|].
  simpl. destruct (Hbody s y) as (s'' & -> & Hs''); [by left|done|]. simpl.
  apply IH; [done|]. intros s' x Hx. apply Hbody. by right.
Qed.

Lemma bind_all_nil {A B} (f : A -> list B) (l : list A) :
  (forall x, x ∈ l -> f x = []) -> l ≫= f = [].
Proof.
  induction l as [|x l IH]; intros H; [done|].
  rewrite bind_cons, H by by left. simpl. apply IH.
  intros y Hy. apply H. by right.
Qed.

(** An accumulator whose lists are all empty. *)
Lemma blocks_all_empty (acc : Dict.t (list string)) :
  (forall k v, (k, v) ∈ acc -> v = []) -> acc ≫= block = [].
Proof.
  intros H. apply bind_all_nil. intros [k v] Hkv.
  unfold block. simpl. by rewrite (H k v Hkv).
Qed.

Lemma dict_get_elem_of {V} k (v : V) d : Dict.get k d = Some v -> (k, v) ∈ d.
Proof.
  induction d as [|[k0 v0] d IH]; simpl; [done|].
  destruct (decide (k = k0)) as [->|].
  - intros [= ->]. by left.
  - intros H. right. by apply IH.
Qed.

Lemma in_strs_elem_of v l : v ∈ Py.VStr <$> l -> Py.in_strs v l = true.
Proof.
  intros (s & -> & Hs)%list_elem_of_fmap. unfold Py.in_strs.
  apply existsb_exists. exists s. split; [by apply list_elem_of_In|].
  unfold Py.eqb. by apply bool_decide_eq_true.
Qed.

Lemma vlan_want_commands_settled hv w :
  vlan_settled hv w -> Vlan.want_commands hv w = [].
Proof.
  unfold vlan_settled, Vlan.want_commands. destruct (Vlan.wstate w).
  - intros (o & -> & [Hn|Hn]); rewrite Hn; simpl; [done|].
    destruct (negb _); [|done]. by rewrite decide_True.
  - by intros ->.
Qed.

Lemma vlan_purge_commands_settled wt h :
  Vlan.h_vlan_id h = "1"
  \/ (exists w, w ∈ wt /\ Vlan.vlan_id w = Py.VStr (Vlan.h_vlan_id h)) ->
  Vlan.purge_commands wt h = [].
Proof.
  unfold Vlan.purge_commands. intros [H1|(w & Hw & Hid)].
  - destruct (Vlan.search_obj_in_list _ _ wt); [done|]. by rewrite decide_True.
  - unfold Vlan.search_obj_in_list.
    destruct (find_is_some
                (fun o => Py.eqb (Vlan.vlan_id o)
                            (Py.VStr (Py.str (Vlan.have_key h)))) wt w)
      as [y ->]; [done| |done].
    unfold Py.eqb. by apply bool_decide_eq_true.
Qed.

Lemma member_commands_settled v t p :
  member_settled v t p -> Vlan.member_commands v t p = [].
Proof.
  unfold member_settled, Vlan.member_commands. destruct t.
  - intros H. by rewrite in_strs_elem_of.
  - intros [H ->]. rewrite in_strs_elem_of by done.
    unfold Py.eqb. by rewrite bool_decide_eq_true_2.
  - intros H. by rewrite in_strs_elem_of.
Qed.

Lemma vlan_want_step_settled ports w acc :
  membership_settled ports w ->
  (forall k v, (k, v) ∈ acc -> v = []) ->
  exists acc', Vlan.want_step ports acc w = Py.Ok acc'
               /\ (forall k v, (k, v) ∈ acc' -> v = []).
Proof.
  intros Hw Hacc. unfold Vlan.want_step.
  destruct (Vlan.wstate w) eqn:Est; [|by exists acc].
  apply (for_each_invariant (fun a => forall k v, (k, v) ∈ a -> v = []));
    [done|].
  intros a [i t] Hit Ha. destruct (Hw Est i t Hit) as (p & Hp & Hset).
  unfold Vlan.accumulate, Dict.subscript. simpl. rewrite Hp. simpl.
  eexists. split; [done|]. intros k v Hkv.
  apply elem_of_dict_set in Hkv as [[= -> ->]|Hkv]; [|by apply (Ha k)].
  rewrite member_commands_settled, app_nil_r by done.
  destruct (Dict.get i a) as [c|] eqn:Eg; [|done]. simpl.
  apply (Ha i). by apply dict_get_elem_of.
Qed.

Lemma interface_entry_commands_settled get w o :
  Interface.mtu w = Interface.h_mtu o
  \/ (Py.truthy_str (Interface.mtu w) = true
      /\ Py.truthy_str (Interface.h_mtu o) = false
      /\ get (Interface.name w) = Interface.mtu w) ->
  Interface.description w = Interface.h_description o ->
  Interface.speed w = None \/ Interface.speed w = Some (Interface.h_speed o) ->
  Interface.disable w = None
  \/ Interface.disable w = Some (Interface.h_disable o) ->
  Interface.entry_commands get w o = [].
Proof.
  intros Hm Hd Hs Hdis. unfold Interface.entry_commands.
  assert ((if decide
                (Interface.mtu w
                 = (if Py.truthy_str (Interface.mtu w)
                       && negb (Py.truthy_str (Interface.h_mtu o))
                    then get (Interface.name w) else Interface.h_mtu o))
           then [] else ["mtu " +:+ Interface.format_opt (Interface.mtu w)])
          = @nil string) as ->.
  { destruct Hm as [Hm|(H1 & H2 & H3)].
    - by rewrite Hm, andb_negb_r, decide_True.
    - by rewrite H1, H2, H3, decide_True. }
  rewrite Hd. simpl.
  assert ((if Py.truthy_str (Interface.h_description o)
           then if decide (Interface.h_description o = Interface.h_description o)
                then [] else _
           else if Py.truthy_str (Interface.h_description o)
                then ["no description"] else []) = @nil string) as ->.
  { destruct (Py.truthy_str (Interface.h_description o));
      [by rewrite decide_True|done]. }
  simpl.
  assert (Py.truthy_str (Interface.speed w)
          && negb (bool_decide (Interface.speed w = Some (Interface.h_speed o)))
          = false) as ->.
  { destruct Hs as [->| ->]; [done|].
    by rewrite bool_decide_eq_true_2, andb_false_r. }
  simpl. destruct Hdis as [->| ->]; [done|]. by rewrite decide_True.
Qed.

Lemma voice_commands_settled w p :
  voice_port_settled w p ->
  Voice.map_to_commands_interface (Py.str (Voice.vlan_id w)) (Voice.dscp w)
    (Voice.lldp w) (Voice.wstate w) p = Py.Ok [].
Proof.
  unfold voice_port_settled, Voice.map_to_commands_interface.
  destruct (Voice.wstate w).
  - intros (Hv & -> & l & -> & Hl). rewrite !decide_True by done. simpl.
    assert (filter (fun t => t ∉ Voice.p_lldp p) l = []) as ->; [|done].
    induction l as [|t l IH]; [done|].
    rewrite filter_cons, decide_False.
    + apply IH. intros t' Ht'. apply Hl. by right.
    + intros Hn. apply Hn, Hl. by left.
  - intros [-> ->]. done.
Qed.

Lemma voice_entry_commands_settled ports w :
  voice_settled ports w -> Voice.entry_commands ports w = Py.Ok [].
Proof.
  intros [Hv Hp]. unfold Voice.entry_commands.
  assert (bool_decide (Voice.wstate w = present)
          && bool_decide (Py.str (Voice.vlan_id w) = "None") = false) as ->.
  { destruct (Voice.wstate w) eqn:Est; [|done].
    by rewrite (bool_decide_eq_false_2 _ (Hv eq_refl)). }
  destruct (for_each_invariant
              (fun a : Dict.t (list string) => forall k v, (k, v) ∈ a -> v = [])
              (fun acc i => Py.for_each (Voice.assign w ports) acc
                              (Voice.targets ports i))
              (Voice.interfaces w) []) as (acc & Hacc & Hall).
  - intros k v Hkv. by apply elem_of_nil in Hkv.
  - intros a i Hi Ha. apply for_each_invariant; [done|].
    intros a' key Hkey Ha'. destruct (Hp i key Hi Hkey) as (p & Hget & Hset).
    unfold Voice.assign, Dict.subscript. rewrite Hget. simpl.
    rewrite voice_commands_settled by done. simpl.
    eexists. split; [done|]. intros k v Hkv.
    apply elem_of_dict_set in Hkv as [[= -> ->]|Hkv]; [done|by apply (Ha' k)].
  - rewrite Hacc. simpl. unfold Voice.emit. by rewrite blocks_all_empty.
Qed.

(** Where the compared values are equal as Python values, the command
    mappings are idempotent: when every desired entry already equals
    what is observed, the VLAN existence phase, the VLAN membership
    phase, the interface attributes and the voice settings each return
    the empty command list. *)
Theorem idempotence_on_equal_values
    (lwt : list Vlan.want) (lhv : list Vlan.have) (purge : bool)
    (lports : Dict.t Vlan.port)
    (get_running_mtu : string -> option string)
    (iwt : list Interface.want) (ihv : list Interface.have)
    (vwt : list Voice.want) (vports : Dict.t Voice.port) :
  (Forall (vlan_settled lhv) lwt -> purge_settled purge lwt lhv ->
   Vlan.map_vlans_to_commands lwt lhv purge = [])
  /\ (Forall (membership_settled lports) lwt ->
      Vlan.map_interfaces_to_commands lwt lports = Py.Ok [])
  /\ (Forall (interface_settled get_running_mtu ihv) iwt ->
      (Interface.map_obj_to_commands get_running_mtu iwt ihv).1 = [])
  /\ (Forall (voice_settled vports) vwt ->
      Voice.map_to_commands vwt vports = Py.Ok []).
Proof.
  split; [|split; [|split]].
  - intros Hw Hp. apply wrap_empty. unfold Vlan.phase_commands.
    rewrite Forall_forall in Hw.
    rewrite bind_all_nil by (intros w Hin; by apply vlan_want_commands_settled, Hw).
    destruct purge; [|done]. simpl. apply bind_all_nil.
    intros h Hh. by apply vlan_purge_commands_settled, Hp.
  - intros Hw. rewrite Forall_forall in Hw.
    unfold Vlan.map_interfaces_to_commands.
    destruct (for_each_invariant
                (fun a : Dict.t (list string) => forall k v, (k, v) ∈ a -> v = [])
                (Vlan.want_step lports) lwt []) as (acc & Hacc & Hall).
    + intros k v Hkv. by apply elem_of_nil in Hkv.
    + intros a w Hin Ha. apply vlan_want_step_settled; [by apply Hw|done].
    + rewrite Hacc. simpl. unfold Vlan.emit. f_equal.
      apply blocks_all_empty. intros k v Hkv. apply (Hall k).
      by rewrite (merge_sort_Permutation Vlan.item_le) in Hkv.
  - intros Hw. unfold Interface.map_obj_to_commands.
    induction Hw as [|w l Hw _ IH]; [done|]. simpl.
    rewrite interface_step_fold, IH, app_nil_r.
    unfold Interface.step.
    destruct (Interface.search_obj_in_list (Interface.name w) ihv) as [o|] eqn:Es;
      [|done].
    destruct (Hw o Es) as (? & ? & ? & ?). simpl.
    by rewrite interface_entry_commands_settled.
  - intros Hw. unfold Voice.map_to_commands.
    induction Hw as [|w l Hw _ IH]; [done|]. simpl.
    by rewrite voice_entry_commands_settled.
Qed.

Lemma in_strs_int z l : Py.in_strs (Py.VInt z) l = false.
Proof. unfold Py.in_strs. by induction l. Qed.

(** With an [int] id every membership test fails, whatever is observed. *)
Lemma member_commands_int z t p : Vlan.member_commands (Py.VInt z) t p <> [].
Proof.
  unfold Vlan.member_commands. destruct t; by rewrite in_strs_int.
Qed.

(** C2: the VLAN module is not idempotent for a VLAN id of type [int],
    the type its argument spec declares: interface 0/1 is already a
    tagged member of VLAN 100 and the entry asks for exactly that, yet
    the membership phase emits the two commands again, because the
    [int] id is looked up in the lists of [str] ids read from the
    device; it does so for every [int] id, mode and port. For the same
    reason the purge loop does not find VLAN 100 among the desired
    entries and deletes it. *)
Theorem int_vlan_id_repeats_commands :
  Vlan.map_interfaces_to_commands
    [{| Vlan.vlan_id := Py.VInt 100; Vlan.name := None; Vlan.wstate := present;
        Vlan.auto_tag := None; Vlan.auto_untag := None;
        Vlan.auto_exclude := None;
        Vlan.tagged_interfaces := Some ["0/1"];
        Vlan.untagged_interfaces := None;
        Vlan.excluded_interfaces := None |}]
    [("0/1", {| Vlan.interface := "0/1"; Vlan.pvid_mode := "1";
                Vlan.untagged_vlans := ["1"]; Vlan.tagged_vlans := ["100"];
                Vlan.forbidden_vlans := [EmptyString] |})]
  = Py.Ok ["interface 0/1"; "vlan participation include 100";
           "vlan tagging 100"]
  /\ (forall z t p, Vlan.member_commands (Py.VInt z) t p <> [])
  /\ Vlan.map_vlans_to_commands
       [Vlan.plain (Py.VInt 100) (Some "voice") present]
       [{| Vlan.h_vlan_id := "1"; Vlan.h_name := "default" |};
        {| Vlan.h_vlan_id := "100"; Vlan.h_name := "voice" |}] true
     = ["vlan database"; "no vlan 100"; "exit"].
Proof.
  split; [vm_compute; reflexivity|].
  split; [apply member_commands_int|vm_compute; reflexivity].
Qed.

End idempotence.

(** One settled entry per module. *)
Lemma idempotence_on_equal_values_witness :
  Vlan.map_vlans_to_commands
    [{| Vlan.vlan_id := Py.VStr "100"; Vlan.name := Some "voice";
        Vlan.wstate := present;
        Vlan.auto_tag := None; Vlan.auto_untag := None;
        Vlan.auto_exclude := None;
        Vlan.tagged_interfaces := Some ["0/1"];
        Vlan.untagged_interfaces := None;
        Vlan.excluded_interfaces := None |}]
    [{| Vlan.h_vlan_id := "1"; Vlan.h_name := "default" |};
     {| Vlan.h_vlan_id := "100"; Vlan.h_name := "voice" |}] true = []
  /\ Vlan.map_interfaces_to_commands
       [{| Vlan.vlan_id := Py.VStr "100"; Vlan.name := Some "voice";
           Vlan.wstate := present;
           Vlan.auto_tag := None; Vlan.auto_untag := None;
           Vlan.auto_exclude := None;
           Vlan.tagged_interfaces := Some ["0/1"];
           Vlan.untagged_interfaces := None;
           Vlan.excluded_interfaces := None |}]
       [("0/1", {| Vlan.interface := "0/1"; Vlan.pvid_mode := "1";
                   Vlan.untagged_vlans := ["1"]; Vlan.tagged_vlans := ["100"];
                   Vlan.forbidden_vlans := [] |})] = Py.Ok []
  /\ (Interface.map_obj_to_commands (fun _ => None)
        [{| Interface.name := "0/3"; Interface.description := None;
            Interface.speed := Some "auto"; Interface.mtu := None;
            Interface.disable := None |}]
        [{| Interface.h_name := "0/3"; Interface.h_description := None;
            Interface.h_speed := "auto"; Interface.h_mtu := None;
            Interface.h_disable := false |}]).1 = []
  /\ Voice.map_to_commands
       [{| Voice.vlan_id := Py.VInt 100; Voice.dscp := Some "46";
           Voice.interfaces := ["0/1"]; Voice.lldp := Some ["med"];
           Voice.wstate := present |}]
       [("0/1", {| Voice.voice_vlan := "100"; Voice.voice_dscp := "46";
                   Voice.p_lldp := ["med"] |})] = Py.Ok [].
Proof.
  destruct (idempotence_on_equal_values
    [{| Vlan.vlan_id := Py.VStr "100"; Vlan.name := Some "voice";
        Vlan.wstate := present;
        Vlan.auto_tag := None; Vlan.auto_untag := None;
        Vlan.auto_exclude := None;
        Vlan.tagged_interfaces := Some ["0/1"];
        Vlan.untagged_interfaces := None;
        Vlan.excluded_interfaces := None |}]
    [{| Vlan.h_vlan_id := "1"; Vlan.h_name := "default" |};
     {| Vlan.h_vlan_id := "100"; Vlan.h_name := "voice" |}] true
    [("0/1", {| Vlan.interface := "0/1"; Vlan.pvid_mode := "1";
                Vlan.untagged_vlans := ["1"]; Vlan.tagged_vlans := ["100"];
                Vlan.forbidden_vlans := [] |})]
    (fun _ => None)
    [{| Interface.name := "0/3"; Interface.description := None;
        Interface.speed := Some "auto"; Interface.mtu := None;
        Interface.disable := None |}]
    [{| Interface.h_name := "0/3"; Interface.h_description := None;
        Interface.h_speed := "auto"; Interface.h_mtu := None;
        Interface.h_disable := false |}]
    [{| Voice.vlan_id := Py.VInt 100; Voice.dscp := Some "46";
        Voice.interfaces := ["0/1"]; Voice.lldp := Some ["med"];
        Voice.wstate := present |}]
    [("0/1", {| Voice.voice_vlan := "100"; Voice.voice_dscp := "46";
                Voice.p_lldp := ["med"] |})]) as (H1 & H2 & H3 & H4).
  split; [|split; [|split]].
  - apply H1.
    + apply Forall_singleton. eexists. split; [reflexivity|]. by right.
    + intros _ h Hh. apply elem_of_cons in Hh as [->|Hh]; [by left|].
      apply list_elem_of_singleton in Hh as ->. right.
      eexists. split; [by left|reflexivity].
  - apply H2. apply Forall_singleton. intros _ i t Hit.
    apply list_elem_of_singleton in Hit as [= -> ->].
    eexists. split; [reflexivity|]. by left.
  - apply H3. apply Forall_singleton. intros o [= <-]. simpl. tauto.
  - apply H4. apply Forall_singleton. split.
    + simpl. discriminate.
    + intros i key Hi Hkey. apply list_elem_of_singleton in Hi as ->.
      apply list_elem_of_singleton in Hkey as ->.
      eexists. split; [reflexivity|].
      split; [reflexivity|]. split; [reflexivity|].
      eexists. split; [reflexivity|]. intros t Ht. exact Ht.
Defined.

(** VLAN 200 is observed and not desired: one delete command. *)
Lemma purge_witness :
  occurrences "no vlan 200"
    (Vlan.map_vlans_to_commands
       [Vlan.plain (Py.VInt 100) None present]
       [{| Vlan.h_vlan_id := "1"; Vlan.h_name := "default" |};
        {| Vlan.h_vlan_id := "100"; Vlan.h_name := "voice" |};
        {| Vlan.h_vlan_id := "200"; Vlan.h_name := "video" |}] true) = 1.
Proof.
  destruct (purge_deletes_unlisted_except_default
       [Vlan.plain (Py.VInt 100) None present]
       [{| Vlan.h_vlan_id := "1"; Vlan.h_name := "default" |};
        {| Vlan.h_vlan_id := "100"; Vlan.h_name := "voice" |};
        {| Vlan.h_vlan_id := "200"; Vlan.h_name := "video" |}]) as [H _].
  destruct (H {| Vlan.h_vlan_id := "200"; Vlan.h_name := "video" |}) as [_ H1].
  - by do 2 right; left.
  - intros w Hw. apply list_elem_of_singleton in Hw as ->. discriminate.
  - discriminate.
  - apply H1. apply (bool_decide_unpack _). vm_compute. exact I.
Defined.

(** ** The scenarios of the specification and of the unit tests *)

Section scenarios.

Example interface_up :
  Interface.map_obj_to_commands (fun _ => None)
    [{| Interface.name := "0/2"; Interface.description := None;
        Interface.speed := None; Interface.mtu := None;
        Interface.disable := Some false |}]
    [{| Interface.h_name := "0/2"; Interface.h_description := None;
        Interface.h_speed := "auto"; Interface.h_mtu := None;
        Interface.h_disable := true |}]
  = (["interface 0/2"; "no shutdown"], []).
Proof. vm_compute. reflexivity. Qed.

Example interface_down :
  Interface.map_obj_to_commands (fun _ => None)
    [{| Interface.name := "0/3"; Interface.description := None;
        Interface.speed := None; Interface.mtu := None;
        Interface.disable := Some true |}]
    [{| Interface.h_name := "0/3"; Interface.h_description := None;
        Interface.h_speed := "auto"; Interface.h_mtu := None;
        Interface.h_disable := false |}]
  = (["interface 0/3"; "shutdown"], []).
Proof. vm_compute. reflexivity. Qed.

Example interface_description :
  Interface.map_obj_to_commands (fun _ => None)
    [{| Interface.name := "0/3"; Interface.description := Some "interface-test";
        Interface.speed := None; Interface.mtu := None;
        Interface.disable := None |}]
    [{| Interface.h_name := "0/3"; Interface.h_description := None;
        Interface.h_speed := "auto"; Interface.h_mtu := None;
        Interface.h_disable := false |}]
  = (["interface 0/3"; "description 'interface-test'"], []).
Proof. vm_compute. reflexivity. Qed.

(** The running configuration shows no [mtu]; the value read back from
    the interface differs from the desired one. *)
Example interface_mtu :
  Interface.map_obj_to_commands (fun _ => Some "1518")
    [{| Interface.name := "0/3"; Interface.description := None;
        Interface.speed := None; Interface.mtu := Some "9216";
        Interface.disable := None |}]
    [{| Interface.h_name := "0/3"; Interface.h_description := None;
        Interface.h_speed := "auto"; Interface.h_mtu := None;
        Interface.h_disable := false |}]
  = (["interface 0/3"; "mtu 9216"], []).
Proof. vm_compute. reflexivity. Qed.

Example interface_speed_idempotence :
  Interface.map_obj_to_commands (fun _ => None)
    [{| Interface.name := "0/3"; Interface.description := None;
        Interface.speed := Some "auto"; Interface.mtu := None;
        Interface.disable := None |}]
    [{| Interface.h_name := "0/3"; Interface.h_description := None;
        Interface.h_speed := "auto"; Interface.h_mtu := None;
        Interface.h_disable := false |}]
  = ([], []).
Proof. vm_compute. reflexivity. Qed.

Example voice_absent :
  Voice.map_to_commands
    [{| Voice.vlan_id := Py.VNone; Voice.dscp := None;
        Voice.interfaces := ["0/1"]; Voice.lldp := None;
        Voice.wstate := absent |}]
    [("0/1", {| Voice.voice_vlan := "100"; Voice.voice_dscp := "46";
                Voice.p_lldp := [] |})]
  = Py.Ok ["interface 0/1"; "no voice vlan"; "no voice vlan dscp"].
Proof. vm_compute. reflexivity. Qed.

Example voice_absent_already :
  Voice.map_to_commands
    [{| Voice.vlan_id := Py.VNone; Voice.dscp := None;
        Voice.interfaces := ["0/1"]; Voice.lldp := None;
        Voice.wstate := absent |}]
    [("0/1", {| Voice.voice_vlan := "no"; Voice.voice_dscp := "no";
                Voice.p_lldp := [] |})]
  = Py.Ok [].
Proof. vm_compute. reflexivity. Qed.

(** The commands of the module documentation for VLANs 50, 100 and 200
    on interface 0/1. *)
Example vlan_documented_commands :
  Vlan.map_interfaces_to_commands
    [{| Vlan.vlan_id := Py.VStr "50"; Vlan.name := None; Vlan.wstate := present;
        Vlan.auto_tag := None; Vlan.auto_untag := None;
        Vlan.auto_exclude := None; Vlan.tagged_interfaces := None;
        Vlan.untagged_interfaces := Some ["0/1"];
        Vlan.excluded_interfaces := None |};
     {| Vlan.vlan_id := Py.VStr "100"; Vlan.name := None; Vlan.wstate := present;
        Vlan.auto_tag := None; Vlan.auto_untag := None;
        Vlan.auto_exclude := None; Vlan.tagged_interfaces := Some ["0/1"];
        Vlan.untagged_interfaces := None;
        Vlan.excluded_interfaces := None |};
     {| Vlan.vlan_id := Py.VStr "200"; Vlan.name := None; Vlan.wstate := present;
        Vlan.auto_tag := None; Vlan.auto_untag := None;
        Vlan.auto_exclude := None; Vlan.tagged_interfaces := None;
        Vlan.untagged_interfaces := None;
        Vlan.excluded_interfaces := Some ["0/1"] |}]
    [("0/1", {| Vlan.interface := "0/1"; Vlan.pvid_mode := "1";
                Vlan.untagged_vlans := ["1"];
                Vlan.tagged_vlans := [EmptyString];
                Vlan.forbidden_vlans := [EmptyString] |})]
  = Py.Ok ["interface 0/1"; "vlan pvid 50"; "vlan participation include 50";
           "vlan participation include 100"; "vlan tagging 100";
           "vlan participation exclude 200"; "no vlan tagging 200"].
Proof. vm_compute. reflexivity. Qed.

End scenarios.

(** * Further properties of the three modules *)

(** ** edgeswitch_vlan: which action an interface gets *)

Section resolve.
Import Vlan.

Lemma dict_get_set_interfaces param d a k :
  Dict.get k (set_interfaces param d a)
  = if decide (k ∈ listed param) then Some a else Dict.get k d.
Proof.
  unfold set_interfaces, listed.
  generalize (default [] param). intros toks. revert d.
  induction toks as [|i toks IH]; intros d; simpl; [done|].
  rewrite IH, dict_get_set_all.
  destruct (decide (k ∈ toks ≫= expand)) as [Hin|Hnin].
  - rewrite decide_True; [done|]. apply elem_of_app. by right.
  - destruct (decide (k ∈ expand i)) as [Hi|Hni].
    + rewrite decide_True; [done|]. apply elem_of_app. by left.
    + rewrite decide_False; [done|]. rewrite elem_of_app. tauto.
Qed.

Lemma dict_get_not_key {V} k (d : Dict.t V) :
  k ∉ Dict.keys d -> Dict.get k d = None.
Proof.
  unfold Dict.keys. induction d as [|[k0 v0] d IH]; [done|].
  rewrite fmap_cons, not_elem_of_cons. simpl. intros [Hne Hk].
  rewrite decide_False by done. by apply IH.
Qed.

Lemma dict_get_auto_default w ports d k :
  NoDup (Dict.keys ports) ->
  Dict.get k (foldl (auto_default w) d ports)
  = match Dict.get k ports ≫= auto_action w with
    | Some a => Some a
    | None => Dict.get k d
    end.
Proof.
  unfold Dict.keys. revert d.
  induction ports as [|[k0 p0] ports IH]; intros d Hnd; [done|].
  rewrite fmap_cons, NoDup_cons in Hnd. destruct Hnd as [Hk0 Hnd].
  simpl. rewrite IH by done.
  destruct (decide (k = k0)) as [->|Hne].
  - rewrite (dict_get_not_key k0 ports) by done. simpl.
    unfold auto_default, auto_action. simpl.
    repeat case_match; rewrite ?dict_get_set, ?decide_True; done.
  - destruct (Dict.get k ports ≫= auto_action w); [done|].
    unfold auto_default. simpl.
    repeat case_match; rewrite ?dict_get_set, ?decide_False; done.
Qed.

(** X1: the action of an interface is [exclude] when
    [excluded_interfaces] lists it, else [untag] when
    [untagged_interfaces] does, else [tag] when [tagged_interfaces] does,
    and only else the default that the [auto_*] flags give an observed
    port. *)
Theorem explicit_lists_override (w : want) (ports : Dict.t port) (k : string) :
  NoDup (Dict.keys ports) ->
  Dict.get k (resolve w ports)
  = if decide (k ∈ listed (excluded_interfaces w)) then Some exclude
    else if decide (k ∈ listed (untagged_interfaces w)) then Some untag
    else if decide (k ∈ listed (tagged_interfaces w)) then Some tag
    else Dict.get k ports ≫= auto_action w.
Proof.
  intros Hnd. unfold resolve. rewrite !dict_get_set_interfaces.
  repeat case_decide; try done.
  rewrite dict_get_auto_default by done. simpl.
  by destruct (Dict.get k ports ≫= auto_action w).
Qed.

(** The example of the module documentation: VLAN 200 excluded
    everywhere, untagged on 0/45-0/48, tagged on 0/46. *)
Lemma explicit_lists_override_witness :
  Dict.get "0/46"
    (resolve
       {| vlan_id := Py.VStr "200"; name := Some "video"; wstate := present;
          auto_tag := None; auto_untag := None; auto_exclude := Some true;
          tagged_interfaces := Some ["0/46"];
          untagged_interfaces := Some ["0/45-0/48"];
          excluded_interfaces := None |}
       [("0/1", {| interface := "0/1"; pvid_mode := "1";
                   untagged_vlans := ["1"]; tagged_vlans := [EmptyString];
                   forbidden_vlans := [EmptyString] |});
        ("0/46", {| interface := "0/46"; pvid_mode := "1";
                    untagged_vlans := ["1"]; tagged_vlans := [EmptyString];
                    forbidden_vlans := [EmptyString] |})])
  = Some untag.
Proof.
  rewrite explicit_lists_override.
  - vm_compute. reflexivity.
  - apply (bool_decide_unpack _). vm_compute. exact I.
Defined.

(** X2: entries in state [absent] play no part in the membership phase:
    the result is the one of the [present] entries alone. *)
Theorem absent_entries_ignored (wt : list want) (ports : Dict.t port) :
  map_interfaces_to_commands wt ports
  = map_interfaces_to_commands (filter (fun w => wstate w = present) wt) ports.
Proof.
  unfold map_interfaces_to_commands. f_equal.
  generalize (@nil (string * list string)).
  induction wt as [|w wt IH]; intros acc; [done|].
  rewrite filter_cons. destruct (decide (wstate w = present)) as [E|E].
  - simpl. destruct (want_step ports acc w); simpl; [apply IH|done].
  - simpl. unfold want_step at 1. destruct (wstate w); [done|]. simpl.
    apply IH.
Qed.

End resolve.

(** ** Headers and the lines under them *)

Section blocks.

Lemma prefix_inv p s :
  String.prefix p s = true -> exists r, s = p +:+ r.
Proof.
  revert s. induction p as [|a p IH]; intros s H; [by exists s|].
  destruct s as [|b s]; [discriminate H|].
  change (String.prefix (String a p) (String b s))
    with (if ascii_dec a b then String.prefix p s else false) in H.
  destruct (ascii_dec a b) as [->|]; [|discriminate H].
  destruct (IH s H) as [r ->]. by exists r.
Qed.

Lemma is_header_inv x :
  is_header x = true -> exists key, x = "interface " +:+ key.
Proof. apply prefix_inv. Qed.

Lemma blocked_nil : blocked [].
Proof. exists []. by split. Qed.

Lemma blocked_app l1 l2 : blocked l1 -> blocked l2 -> blocked (l1 ++ l2).
Proof.
  intros (b1 & -> & H1) (b2 & -> & H2). exists (b1 ++ b2).
  split; [by rewrite bind_app|by apply Forall_app].
Qed.

Lemma blocked_block k v :
  Forall (fun c => is_header c = false) v -> blocked (block (k, v)).
Proof.
  intros Hv. unfold block. simpl. destruct v as [|c v]; [apply blocked_nil|].
  exists [(k, c :: v)]. split; [by rewrite bind_cons, app_nil_r|].
  apply Forall_singleton. by split.
Qed.

Lemma blocked_blocks (items : list (string * list string)) :
  Forall (fun it => Forall (fun c => is_header c = false) it.2) items ->
  blocked (items ≫= block).
Proof.
  induction 1 as [|[k v] items Hv _ IH]; [apply blocked_nil|].
  rewrite bind_cons. apply blocked_app; [by apply blocked_block|done].
Qed.

Lemma member_commands_not_header v t p :
  Forall (fun c => is_header c = false) (Vlan.member_commands v t p).
Proof.
  unfold Vlan.member_commands.
  destruct t; repeat case_match; by repeat constructor.
Qed.

Lemma interface_entry_commands_not_header get w o :
  Forall (fun c => is_header c = false) (Interface.entry_commands get w o).
Proof.
  unfold Interface.entry_commands.
  repeat (apply Forall_app; split);
    repeat case_match; by repeat constructor.
Qed.

Lemma voice_commands_not_header v d l st p cmds :
  Voice.map_to_commands_interface v d l st p = Py.Ok cmds ->
  Forall (fun c => is_header c = false) cmds.
Proof.
  intros Hc. apply Forall_forall. intros x Hx.
  destruct (is_header x) eqn:E; [|done].
  apply is_header_inv in E as [key ->].
  by destruct (voice_sub_command_not_header _ _ _ _ _ _ _ key Hc Hx).
Qed.

Lemma plain_lines_items acc :
  plain_lines acc ->
  Forall (fun it => Forall (fun c => is_header c = false) it.2) acc.
Proof. intros H. apply Forall_forall. intros [k v] Hkv. by apply (H k). Qed.

Lemma vlan_accumulator_plain wt ports acc :
  Py.for_each (Vlan.want_step ports) [] wt = Py.Ok acc -> plain_lines acc.
Proof.
  apply (for_each_preserves plain_lines).
  { intros k v Hkv. by apply elem_of_nil in Hkv. }
  intros a w a'. unfold Vlan.want_step. destruct (Vlan.wstate w).
  - intros Hfe Ha. revert Hfe. apply (for_each_preserves plain_lines); [done|].
    intros a0 [i t] a1. unfold Vlan.accumulate, Dict.subscript. simpl.
    destruct (Dict.get i ports) as [p|]; simpl; [|done].
    intros [= <-] Ha0 k v Hkv.
    apply elem_of_dict_set in Hkv as [[= -> ->]|Hkv]; [|by apply (Ha0 k)].
    apply Forall_app. split; [|apply member_commands_not_header].
    destruct (Dict.get i a0) as [c|] eqn:Eg; [|constructor]. simpl.
    apply (Ha0 i). by apply dict_get_elem_of.
  - by intros [= <-].
Qed.

Lemma voice_entry_blocked ports w cs :
  Voice.entry_commands ports w = Py.Ok cs -> blocked cs.
Proof.
  unfold Voice.entry_commands. destruct (_ && _); [done|].
  unfold mbind, result_bind.
  destruct (Py.for_each _ [] (Voice.interfaces w)) as [acc|] eqn:E;
    simpl; [|done].
  intros [= <-]. unfold Voice.emit.
  apply blocked_blocks, plain_lines_items. revert E.
  apply (for_each_preserves plain_lines).
  { intros k v Hkv. by apply elem_of_nil in Hkv. }
  intros a i a' Hfe Ha. revert Hfe.
  apply (for_each_preserves plain_lines); [done|].
  intros a0 key a1. unfold Voice.assign, Dict.subscript.
  destruct (Dict.get key ports) as [p|]; simpl; [|done].
  destruct (Voice.map_to_commands_interface _ _ _ _ p) as [cmds|] eqn:Ec;
    simpl; [|done].
  intros [= <-] Ha0 k v Hkv.
  apply elem_of_dict_set in Hkv as [[= -> ->]|Hkv]; [|by apply (Ha0 k)].
  by apply voice_commands_not_header in Ec.
Qed.

(** X3: the commands of each module come in blocks: an [interface]
    header is always followed by at least one line of its own, and the
    lines under a header are never headers themselves; an interface
    for which nothing is to be done gets no header. *)
Theorem commands_come_in_blocks :
  (forall wt ports cmds,
      Vlan.map_interfaces_to_commands wt ports = Py.Ok cmds -> blocked cmds)
  /\ (forall get_running_mtu wt hv,
        blocked (Interface.map_obj_to_commands get_running_mtu wt hv).1)
  /\ (forall wt ports cmds,
        Voice.map_to_commands wt ports = Py.Ok cmds -> blocked cmds).
Proof.
  split; [|split].
  - intros wt ports cmds. unfold Vlan.map_interfaces_to_commands.
    destruct (Py.for_each (Vlan.want_step ports) [] wt) as [acc|] eqn:E;
      simpl; [|done].
    intros [= <-]. unfold Vlan.emit.
    apply blocked_blocks, plain_lines_items.
    intros k v Hkv. apply (vlan_accumulator_plain wt ports acc E k).
    by rewrite (merge_sort_Permutation Vlan.item_le) in Hkv.
  - intros get wt hv. unfold Interface.map_obj_to_commands.
    assert (forall st, blocked st.1 ->
              blocked (foldl (Interface.step get hv) st wt).1) as H.
    { induction wt as [|w wt IH]; intros st Hst; [done|].
      simpl. apply IH. unfold Interface.step.
      destruct (Interface.search_obj_in_list (Interface.name w) hv);
        simpl; [|done].
      apply blocked_app; [done|].
      apply blocked_block, interface_entry_commands_not_header. }
    apply H, blocked_nil.
  - intros wt ports cmds. unfold Voice.map_to_commands.
    apply (for_each_preserves blocked); [apply blocked_nil|].
    intros commands w commands'. unfold mbind, result_bind.
    destruct (Voice.entry_commands ports w) as [cs|] eqn:E; simpl; [|done].
    intros [= <-] Hc. apply blocked_app; [done|].
    by apply (voice_entry_blocked ports w).
Qed.

End blocks.

(** ** edgeswitch_vlan: what [main] reports and what it sends *)

Section vlan_main.
Import Vlan.



End vlan_main.

(** ** edgeswitch_vlan: when the membership phase raises *)

Section vlan_raise.
Import Vlan.

Lemma for_each_raise_inv {A S} (body : S -> A -> Py.result S) l s e :
  Py.for_each body s l = Py.Raise e ->
  exists x s', x ∈ l /\ body s' x = Py.Raise e.
Proof.
  revert s. induction l as [|y l IH]; intros s; [done|]. simpl.
  destruct (body s y) as [s1|e1] eqn:E; simpl.
  - intros H. destruct (IH _ H) as (x & s' & Hx & Hb).
    exists x, s'. split; [by right|done].
  - intros [= ->]. exists y, s. split; [by left|done].
Qed.

Lemma accumulate_raise_inv w ports acc it e :
  accumulate w ports acc it = Py.Raise e ->
  e = Py.KeyError it.1 /\ Dict.get it.1 ports = None.
Proof.
  unfold accumulate, Dict.subscript.
  destruct (Dict.get it.1 ports); simpl; [done|]. by intros [= <-].
Qed.

Lemma membership_raise_inv (wt : list want) (ports : Dict.t port) e :
  map_interfaces_to_commands wt ports = Py.Raise e ->
  exists w i t, (w ∈ wt /\ wstate w = present
                 /\ (i, t) ∈ resolve w ports
                 /\ Dict.get i ports = None)
                /\ e = Py.KeyError i.
Proof.
  unfold map_interfaces_to_commands.
  destruct (Py.for_each (want_step ports) [] wt) as [acc|e'] eqn:E;
    simpl; [done|].
  intros [= ->]. apply for_each_raise_inv in E as (w & acc & Hw & E).
  unfold want_step in E. destruct (wstate w) eqn:Est; [|done].
  apply for_each_raise_inv in E as ([i t] & acc' & Hit & E).
  apply accumulate_raise_inv in E as [-> Hget].
  by exists w, i, t.
Qed.

(** X5: the membership phase raises exactly when an entry in state
    [present] resolves to an interface that is not among the observed
    ports, and what it raises is the [KeyError] of such an interface;
    nothing else makes it fail. *)
Theorem membership_raises_for_unobserved (wt : list want) (ports : Dict.t port) :
  ((exists e, map_interfaces_to_commands wt ports = Py.Raise e)
   <-> exists w i t, w ∈ wt /\ wstate w = present
                     /\ (i, t) ∈ resolve w ports /\ Dict.get i ports = None)
  /\ (forall e, map_interfaces_to_commands wt ports = Py.Raise e ->
        exists i, e = Py.KeyError i /\ Dict.get i ports = None).
Proof.
  split; [split|].
  - intros [e He].
    destruct (membership_raise_inv _ _ _ He) as (w & i & t & H & _).
    by exists w, i, t.
  - intros (w & i & t & Hw & Hst & Hit & Hget).
    by apply (vlan_missing_interface_raises wt ports w i t).
  - intros e He.
    destruct (membership_raise_inv _ _ _ He)
      as (w & i & t & (_ & _ & _ & Hget) & ->).
    by exists i.
Qed.

Lemma listed_plain_token param i :
  i ∈ default [] param -> Re.search Re.range_here i = None -> i ∈ listed param.
Proof.
  intros Hi Hs. unfold listed. apply list_elem_of_bind. exists i.
  split; [|done]. unfold expand. rewrite Hs. by left.
Qed.

Lemma resolve_listed w ports k :
  k ∈ listed (tagged_interfaces w) ++ listed (untagged_interfaces w)
      ++ listed (excluded_interfaces w) ->
  exists t, (k, t) ∈ resolve w ports.
Proof.
  intros Hk.
  assert (exists t, Dict.get k (resolve w ports) = Some t) as [t Ht].
  { unfold resolve. rewrite !dict_get_set_interfaces.
    rewrite !elem_of_app in Hk.
    repeat case_decide; eauto. tauto. }
  exists t. by apply dict_get_elem_of.
Qed.

(** X6: the token [all] passes validation but is not expanded in the
    VLAN module: it is taken as the name of one interface, so that an
    entry in state [present] that lists it makes the membership phase
    raise [KeyError] unless a port named [all] is observed. *)
Theorem vlan_all_is_one_interface (wt : list want) (ports : Dict.t port)
    (w : want) :
  w ∈ wt -> wstate w = present -> "all" ∈ entry_tokens w ->
  Dict.get "all" ports = None ->
  check_token "all" = Py.Ok ()
  /\ expand "all" = ["all"]
  /\ exists i, map_interfaces_to_commands wt ports = Py.Raise (Py.KeyError i).
Proof.
  intros Hw Hst Hall Hget. split; [done|]. split; [done|].
  destruct (resolve_listed w ports "all") as [t Ht].
  { unfold entry_tokens in Hall. rewrite !elem_of_app in Hall |- *.
    destruct Hall as [H|[H|H]]; [left|right; left|right; right];
      by apply listed_plain_token. }
  destruct (vlan_missing_interface_raises wt ports w "all" t) as [e He];
    [done..|].
  destruct (membership_raise_inv _ _ _ He) as (_ & i & _ & _ & ->).
  by exists i.
Qed.

Lemma vlan_all_is_one_interface_witness :
  check_token "all" = Py.Ok ()
  /\ expand "all" = ["all"]
  /\ exists i,
       map_interfaces_to_commands
         [{| vlan_id := Py.VStr "200"; name := None; wstate := present;
          auto_tag := None; auto_untag := None; auto_exclude := None;
          tagged_interfaces := Some ["all"];
          untagged_interfaces := None;
          excluded_interfaces := None |}]
         [("0/1", {| interface := "0/1"; pvid_mode := "1";
                  untagged_vlans := ["1"];
                  tagged_vlans := [EmptyString];
                  forbidden_vlans := [EmptyString] |})]
       = Py.Raise (Py.KeyError i).
Proof.
  apply (vlan_all_is_one_interface
           [{| vlan_id := Py.VStr "200"; name := None; wstate := present;
          auto_tag := None; auto_untag := None; auto_exclude := None;
          tagged_interfaces := Some ["all"];
          untagged_interfaces := None;
          excluded_interfaces := None |}]
           [("0/1", {| interface := "0/1"; pvid_mode := "1";
                  untagged_vlans := ["1"];
                  tagged_vlans := [EmptyString];
                  forbidden_vlans := [EmptyString] |})]
           {| vlan_id := Py.VStr "200"; name := None; wstate := present;
          auto_tag := None; auto_untag := None; auto_exclude := None;
          tagged_interfaces := Some ["all"];
          untagged_interfaces := None;
          excluded_interfaces := None |}).
  - by left.
  - reflexivity.
  - apply (bool_decide_unpack _). vm_compute. exact I.
  - reflexivity.
Defined.

End vlan_raise.

(** ** edgeswitch_voice: ranges, and the options [present] needs *)

Section voice_further.
Import Voice.

Lemma zero_range_here_token a b :
  number a -> number b ->
  Re.zero_range_here ("0/" +:+ a +:+ "-0/" +:+ b) = Some (a, b).
Proof.
  intros Ha Hb. unfold Re.zero_range_here.
  change ("0/" +:+ a +:+ "-0/" +:+ b)
    with (String "0" (String "/" (a +:+ "-0/" +:+ b))).
  simpl. rewrite (digits_number a) by (done || by intros ?? [= <- _]).
  change ("-0/" +:+ b) with (String "-" (String "0" (String "/" b))).
  simpl. by rewrite (digits_number_end b).
Qed.

(** X7: in the voice module a token [0/a-0/b] stands for the interfaces
    [0/x] with [x] from [a] to [b], both included, in increasing order
    and written in plain decimal; when [b] is below [a] it stands for no
    interface at all. *)
Theorem voice_range_targets (ports : Dict.t port) (a b : string) :
  number a -> number b ->
  targets ports ("0/" +:+ a +:+ "-0/" +:+ b)
  = (fun x : nat => "0/" +:+ pretty x)
      <$> seq (Re.int a) (S (Re.int b) - Re.int a)
  /\ (forall k, k ∈ targets ports ("0/" +:+ a +:+ "-0/" +:+ b)
        <-> exists x : nat, k = "0/" +:+ pretty x
                            /\ Re.int a <= x <= Re.int b)
  /\ (Re.int b < Re.int a ->
        targets ports ("0/" +:+ a +:+ "-0/" +:+ b) = []).
Proof.
  intros Ha Hb.
  assert (targets ports ("0/" +:+ a +:+ "-0/" +:+ b)
          = (fun x : nat => "0/" +:+ pretty x)
              <$> seq (Re.int a) (S (Re.int b) - Re.int a)) as Heq.
  { unfold targets. rewrite decide_False.
    - by rewrite (search_here _ _ _ (zero_range_here_token a b Ha Hb)).
    - change ("0/" +:+ a +:+ "-0/" +:+ b)
        with (String "0" (String "/" (a +:+ "-0/" +:+ b))). done. }
  split; [done|]. split.
  - intros k. rewrite Heq, list_elem_of_fmap. split.
    + intros (x & -> & Hx). apply elem_of_seq in Hx. exists x. split; [done|lia].
    + intros (x & -> & Hx). exists x. split; [done|]. apply elem_of_seq. lia.
  - intros Hlt. rewrite Heq. by replace (S (Re.int b) - Re.int a) with 0 by lia.
Qed.

Lemma voice_range_targets_witness :
  targets [] "0/3-0/5" = ["0/3"; "0/4"; "0/5"].
Proof.
  destruct (voice_range_targets [] "3" "5") as [H _].
  - by split.
  - by split.
  - exact H.
Defined.

Lemma interface_commands_need_options vid d l p :
  d = None \/ l = None ->
  map_to_commands_interface vid d l present p = Py.Raise Py.TypeError.
Proof.
  intros [-> | ->]; unfold map_to_commands_interface.
  - by destruct (decide (Some (voice_dscp p) = None)).
  - destruct (decide (Some (voice_dscp p) = d)); [done|]. by destruct d.
Qed.

(** X8: [dscp] and [lldp] may be left out of the arguments, but an entry
    in state [present] that leaves one of them out and names at least one
    interface never yields commands: the mapping raises. *)
Theorem voice_present_needs_dscp_and_lldp (wt : list want)
    (ports : Dict.t port) (w : want) (i k : string) :
  w ∈ wt -> wstate w = present ->
  dscp w = None \/ lldp w = None ->
  i ∈ interfaces w -> k ∈ targets ports i ->
  (exists e, map_to_commands wt ports = Py.Raise e)
  /\ forall acc p, Dict.get k ports = Some p ->
       assign w ports acc k = Py.Raise Py.TypeError.
Proof.
  intros Hw Hst Hopt Hi Hk.
  assert (forall acc, exists e, assign w ports acc k = Py.Raise e) as Hassign.
  { intros acc. unfold assign, Dict.subscript.
    destruct (Dict.get k ports) as [p|]; simpl; [|by eexists].
    rewrite Hst, interface_commands_need_options by done. by eexists. }
  split.
  - unfold map_to_commands. apply (for_each_raises _ _ w); [done|].
    intros cmds. unfold entry_commands.
    destruct (_ && _); simpl; [by eexists|].
    destruct (for_each_raises
                (fun acc i => Py.for_each (assign w ports) acc (targets ports i))
                (interfaces w) i [] Hi) as [e He].
    + intros acc. by apply (for_each_raises _ _ k).
    + rewrite He. by eexists.
  - intros acc p Hp. unfold assign, Dict.subscript. rewrite Hp. simpl.
    by rewrite Hst, interface_commands_need_options.
Qed.

Lemma voice_present_needs_dscp_and_lldp_witness :
  exists e,
    map_to_commands
      [{| vlan_id := Py.VInt 100; dscp := None; interfaces := ["0/1"];
          lldp := Some ["med"]; wstate := present |}]
      [("0/1", {| voice_vlan := "no"; voice_dscp := "no"; p_lldp := [] |})]
    = Py.Raise e.
Proof.
  apply (voice_present_needs_dscp_and_lldp
           [{| vlan_id := Py.VInt 100; dscp := None; interfaces := ["0/1"];
               lldp := Some ["med"]; wstate := present |}]
           [("0/1", {| voice_vlan := "no"; voice_dscp := "no"; p_lldp := [] |})]
           {| vlan_id := Py.VInt 100; dscp := None; interfaces := ["0/1"];
              lldp := Some ["med"]; wstate := present |}
           "0/1" "0/1").
  - by left.
  - reflexivity.
  - by left.
  - by left.
  - by left.
Defined.

End voice_further.

(** ** Runs of characters *)

Section runs.
Import Text.

Lemma span_app p a b :
  every p a = true ->
  (forall c r, b = String c r -> p c = false) ->
  span p (a +:+ b) = (a, b).
Proof.
  intros Ha Hb. induction a as [|c a IH]; simpl in *.
  - rewrite ?append_empty. destruct b as [|c r]; [done|].
    simpl. by rewrite (Hb c r).
  - apply andb_true_iff in Ha as [Hc Ha]. rewrite ?append_cons. simpl.
    rewrite Hc. by rewrite IH.
Qed.

Lemma span_inv p s :
  s = (span p s).1 +:+ (span p s).2
  /\ every p (span p s).1 = true
  /\ (forall c r, (span p s).2 = String c r -> p c = false).
Proof.
  induction s as [|c s (IH1 & IH2 & IH3)]; simpl.
  - by rewrite append_empty.
  - destruct (p c) eqn:Hc; simpl.
    + rewrite append_cons, Hc. by rewrite <- IH1.
    + rewrite append_empty. repeat split. by intros ?? [= <- _].
Qed.

Lemma span_digits_span s : Re.span_digits s = span Re.is_digit s.
Proof.
  induction s as [|c s IH]; simpl; [done|]. rewrite IH. by destruct (Re.is_digit c).
Qed.

Lemma all_digits_every s : all_digits s = every Re.is_digit s.
Proof. induction s as [|c s IH]; simpl; [done|]. by rewrite IH. Qed.

Lemma digits_inv s d r :
  Re.digits s = Some (d, r) ->
  s = d +:+ r /\ number d
  /\ (forall c r', r = String c r' -> Re.is_digit c = false).
Proof.
  unfold Re.digits. rewrite span_digits_span.
  destruct (span_inv Re.is_digit s) as (H1 & H2 & H3).
  destruct (span Re.is_digit s) as [d' r'] eqn:E. simpl in *.
  destruct d' as [|c d']; [done|]. intros [= <- <-].
  repeat split; [done..| |done]. by rewrite all_digits_every.
Qed.

Lemma space_not_digit c : is_space c = true -> Re.is_digit c = false.
Proof. by destruct c as [[] [] [] [] [] [] [] []]. Qed.

Lemma literal_spec p s r : literal p s = Some r <-> s = p +:+ r.
Proof.
  revert s. induction p as [|a p IH]; intros s; simpl.
  - rewrite append_empty. split; [by intros [= ->]|by intros ->].
  - rewrite append_cons. destruct s as [|b s]; [done|].
    destruct (decide (a = b)) as [->|Hne].
    + rewrite IH. split; [by intros ->|by intros [= ->]].
    + split; [done|]. by intros [= <- _].
Qed.

End runs.

(** ** edgeswitch_vlan: reading [show vlan brief] *)

Section vlan_brief.
Import Text VlanRead.

Lemma match_line_brief line h :
  match_line line = Some h <-> brief_line h line.
Proof.
  unfold match_line, brief_line. split.
  - destruct (Re.digits line) as [[d r]|] eqn:Ed; simpl; [|done].
    apply digits_inv in Ed as (-> & Hd & _).
    destruct (span_inv is_space r) as (H1 & H2 & _).
    destruct (span is_space r) as [w r1]. simpl in *.
    destruct w as [|cw w]; [done|].
    destruct (span_inv (fun c => negb (is_space c)) r1) as (H3 & H4 & H5).
    destruct (span (fun c => negb (is_space c)) r1) as [n r2]. simpl in *.
    destruct n as [|cn n]; [done|]. destruct r2 as [|c rest]; [done|].
    intros [= <-]. simpl. exists (String cw w), c, rest.
    repeat split; try done.
    + by rewrite H1, H3.
    + apply Hd.
    + apply Hd.
    + specialize (H5 c rest eq_refl). by apply negb_false_iff in H5.
  - intros (w & c & rest & -> & Hd & [Hw1 Hw2] & [Hn1 Hn2] & Hc).
    destruct h as [d n]. simpl in *.
    assert (Re.digits (d +:+ w +:+ n +:+ String c rest)
            = Some (d, w +:+ n +:+ String c rest)) as ->.
    { apply digits_number; [done|]. destruct w as [|cw w]; [done|].
      simpl in Hw2. apply andb_true_iff in Hw2 as [Hcw _].
      rewrite append_cons. intros ?? [= <- _]. by apply space_not_digit. }
    assert (span is_space (w +:+ n +:+ String c rest)
            = (w, n +:+ String c rest)) as Hw.
    { apply span_app; [done|]. destruct n as [|cn n]; [done|].
      simpl in Hn2. apply andb_true_iff in Hn2 as [Hcn _].
      rewrite append_cons. intros ?? [= <- _]. by apply negb_true_iff in Hcn. }
    assert (span (fun c => negb (is_space c)) (n +:+ String c rest)
            = (n, String c rest)) as Hn.
    { apply span_app; [done|]. intros ?? [= <- _]. by rewrite Hc. }
    cbn [mbind option_bind]. rewrite Hw. destruct w; [done|].
    rewrite Hn. by destruct n.
Qed.

(** X9: [parse_vlan_brief] keeps exactly the lines that begin with a
    number, blanks, a word and one more blank, and reads the number as
    the id and the word as the name; every other line is dropped, among
    them a line that ends right after the name. A name is cut at its
    first blank. *)
Theorem parse_vlan_brief_lines (vlan_out : string) (h : Vlan.have) :
  h ∈ parse_vlan_brief vlan_out
  <-> exists line, line ∈ split nl vlan_out /\ brief_line h line.
Proof.
  unfold parse_vlan_brief. rewrite list_elem_of_omap.
  split; intros (line & Hl & Hm); exists line; split; try done;
    by apply match_line_brief.
Qed.

End vlan_brief.

(** ** edgeswitch_vlan: reading [show interfaces switchport] *)

Section switchport.
Import Text VlanRead.

Lemma block_here_port s o r :
  block_here s = Some (o, r) -> port_name (g_port o).
Proof.
  unfold block_here. intros H.
  destruct (literal "Port: " s) as [r0|]; simpl in H; [|done].
  destruct (Re.digits r0) as [[a r1]|] eqn:Ea; simpl in H; [|done].
  destruct (Re.lit "/" r1) as [r2|]; simpl in H; [|done].
  destruct (Re.digits r2) as [[b r3]|] eqn:Eb; simpl in H; [|done].
  apply digits_inv in Ea as (_ & Ha & _), Eb as (_ & Hb & _).
  repeat (match type of H with
          | (?m ≫= _) = _ => destruct m as [[? ?]|]; simpl in H; [|done]
          | (?m ≫= _) = _ => destruct m as [?|]; simpl in H; [|done]
          end).
  injection H as <- _. by exists a, b.
Qed.

Lemma findall_from_port skip s o :
  o ∈ findall_from block_here skip s -> port_name (g_port o).
Proof.
  revert skip. induction s as [|c s IH]; intros skip; simpl.
  - by intros ?%elem_of_nil.
  - destruct skip as [|n]; [|by apply IH].
    destruct (block_here (String c s)) as [[o' r]|] eqn:E; [|by apply IH].
    rewrite elem_of_cons. intros [->|H]; [|by eapply IH].
    by eapply block_here_port.
Qed.

Lemma split_nonempty c s : split c s <> [].
Proof.
  induction s as [|a s IH]; simpl; [done|].
  destruct (decide (a = c)); [done|]. by destruct (split c s).
Qed.

Lemma all_not_port_name : ~ port_name "all".
Proof.
  intros (a & b & [Ha1 Ha2] & _ & H). destruct a as [|c a]; [done|].
  simpl in Ha2. apply andb_true_iff in Ha2 as [Hc _].
  rewrite append_cons in H. by injection H as <- _.
Qed.

Lemma append_assoc_s (a b c : string) : (a +:+ b) +:+ c = a +:+ (b +:+ c).
Proof. induction a as [|x a IH]; [done|]. rewrite !append_cons. by f_equal. Qed.

Lemma field_labelled label g rest :
  one_line g -> field label (labelled label g rest) = Some (g, rest).
Proof.
  intros Hg. unfold field, labelled.
  rewrite (proj2 (literal_spec label _ (g +:+ String nl rest)) eq_refl).
  cbn [mbind option_bind].
  rewrite (span_app not_nl g (String nl rest)); [|done|].
  - cbn [fst snd Re.lit]. by rewrite decide_True.
  - by intros ?? [= <- _].
Qed.

Lemma block_here_text b rest :
  block_wf b ->
  block_here (block_text b rest)
  = Some ({| g_port := block_name b; g_pvid := sb_pvid b;
             g_untagged := sb_untagged b; g_tagged := sb_tagged b;
             g_forbidden := sb_forbidden b |}, rest).
Proof.
  intros (Ha & Hb & Hf). unfold block_here, block_text.
  repeat (apply Forall_cons in Hf as [? Hf]).
  unfold labelled at 1.
  rewrite (proj2 (literal_spec "Port: " _ _) eq_refl).
  cbn [mbind option_bind]. rewrite append_assoc_s.
  rewrite (digits_number (sb_group b)) by (done || by intros ?? [= <- _]).
  cbn [mbind option_bind]. rewrite append_assoc_s.
  change ("/" +:+ ?x) with (String "/" x). cbn [Re.lit].
  rewrite decide_True by done. cbn [mbind option_bind].
  rewrite (digits_number (sb_index b)) by (done || by intros ?? [= <- _]).
  cbn [mbind option_bind Re.lit]. rewrite decide_True by done.
  cbn [mbind option_bind].
  repeat (rewrite field_labelled by done; cbn [mbind option_bind]).
  done.
Qed.

Lemma labelled_app label g q rest :
  labelled label g (q +:+ rest) = labelled label g q +:+ rest.
Proof. unfold labelled. by rewrite !append_assoc_s, append_cons. Qed.

Lemma block_text_app b rest :
  block_text b rest = block_text b EmptyString +:+ rest.
Proof.
  unfold block_text. rewrite <- !labelled_app. by rewrite append_empty.
Qed.

Lemma findall_from_skip {A} (here : string -> option (A * string)) p rest :
  findall_from here (String.length p) (p +:+ rest) = findall_from here 0 rest.
Proof.
  induction p as [|c p IH]; simpl.
  - rewrite append_empty. by destruct rest.
  - done.
Qed.

Lemma length_append_s (a b : string) :
  String.length (a +:+ b) = String.length a + String.length b.
Proof. induction a as [|x a IH]; [done|]. rewrite append_cons. simpl. by rewrite IH. Qed.

Lemma findall_block b rest :
  block_wf b ->
  findall block_here (block_text b rest)
  = {| g_port := block_name b; g_pvid := sb_pvid b;
       g_untagged := sb_untagged b; g_tagged := sb_tagged b;
       g_forbidden := sb_forbidden b |} :: findall block_here rest.
Proof.
  intros Hwf. pose proof (block_here_text b rest Hwf) as Hhere.
  assert (exists p, block_text b rest = String "P" (p +:+ rest)) as [p Hp].
  { rewrite block_text_app. unfold block_text at 1. unfold labelled at 1.
    change ("Port: " +:+ ?x) with (String "P" ("ort: " +:+ x)).
    eexists. by rewrite append_cons. }
  unfold findall. rewrite Hp in *. simpl. rewrite Hhere. f_equal.
  rewrite length_append_s.
  replace (String.length p + String.length rest - String.length rest)
    with (String.length p) by lia.
  apply findall_from_skip.
Qed.

Lemma findall_gap g rest :
  gap g -> findall block_here (g +:+ rest) = findall block_here rest.
Proof.
  unfold gap, findall. induction g as [|c g IH]; simpl.
  - by rewrite append_empty.
  - intros [Hc Hg]%andb_true_iff.
    assert (block_here (String c (g +:+ rest)) = None) as ->.
    { unfold block_here. simpl. rewrite decide_False; [done|].
      intros <-. by rewrite bool_decide_eq_true_2 in Hc. }
    by apply IH.
Qed.

Lemma findall_no_gap g : gap g -> findall block_here g = [].
Proof.
  intros Hg. rewrite <- (append_empty_r g), findall_gap by done. done.
Qed.

Lemma findall_listing bs last :
  Forall (fun gb => gap gb.1 /\ block_wf gb.2) bs -> gap last ->
  findall block_here (listing bs last)
  = (fun gb => {| g_port := block_name gb.2; g_pvid := sb_pvid gb.2;
                  g_untagged := sb_untagged gb.2;
                  g_tagged := sb_tagged gb.2;
                  g_forbidden := sb_forbidden gb.2 |}) <$> bs.
Proof.
  intros Hbs Hlast. induction Hbs as [|[g b] bs [Hg Hb] _ IH]; simpl.
  - by apply findall_no_gap.
  - rewrite findall_gap, findall_block by done. by rewrite IH.
Qed.

Lemma dict_set_fresh {V} k (v : V) d :
  k ∉ Dict.keys d -> Dict.set k v d = d ++ [(k, v)].
Proof.
  unfold Dict.keys. induction d as [|[k0 v0] d IH]; [done|].
  rewrite fmap_cons, not_elem_of_cons. simpl. intros [Hne Hk].
  rewrite decide_False by done. by rewrite IH.
Qed.

Lemma foldl_set_fresh {A V} (key : A -> string) (val : A -> V) l d :
  NoDup (Dict.keys d ++ (key <$> l)) ->
  foldl (fun d o => Dict.set (key o) (val o) d) d l
  = d ++ ((fun o => (key o, val o)) <$> l).
Proof.
  revert d. induction l as [|o l IH]; intros d Hnd; simpl.
  - by rewrite app_nil_r.
  - rewrite fmap_cons in Hnd.
    assert (key o ∉ Dict.keys d) as Hfresh.
    { apply NoDup_app in Hnd as (_ & Hd & _). intros Hk.
      apply (Hd _ Hk). by left. }
    rewrite dict_set_fresh by done. rewrite IH.
    + by rewrite <- app_assoc.
    + unfold Dict.keys in *. rewrite fmap_app. simpl.
      by rewrite <- app_assoc.
Qed.

(** What holds of the dictionary while the matches are entered. *)
Lemma ports_invariant (l : list groups) (ports : Dict.t Vlan.port) :
  Forall (fun o => port_name (g_port o)) l ->
  NoDup (Dict.keys ports) ->
  (forall k p, (k, p) ∈ ports ->
     Vlan.interface p = k /\ port_name k
     /\ Vlan.untagged_vlans p <> [] /\ Vlan.tagged_vlans p <> []
     /\ Vlan.forbidden_vlans p <> []) ->
  NoDup (Dict.keys
           (foldl (fun ports o => Dict.set (g_port o) (port_of o) ports)
                  ports l))
  /\ forall k p,
       (k, p) ∈ foldl (fun ports o => Dict.set (g_port o) (port_of o) ports)
                      ports l ->
       Vlan.interface p = k /\ port_name k
       /\ Vlan.untagged_vlans p <> [] /\ Vlan.tagged_vlans p <> []
       /\ Vlan.forbidden_vlans p <> [].
Proof.
  revert ports. induction l as [|o l IH]; intros ports Hl Hnd Hp; simpl.
  - done.
  - apply Forall_cons in Hl as [Ho Hl]. apply IH; [done| |].
    + by apply dict_set_NoDup.
    + intros k p [[= -> ->]|Hkp]%elem_of_dict_set; [|by apply Hp].
      repeat split; try done; apply split_nonempty.
Qed.

(** X10: whatever the device prints, the ports read from
    [show interfaces switchport] have distinct names of the form
    [group/index], each port is filed under its own name, its three VLAN
    lists are never empty (a blank field gives the list of one empty
    string), and no port is called [all]. *)
Theorem switchport_ports (cmd_out : string) :
  NoDup (Dict.keys (parse_interfaces_switchport cmd_out))
  /\ (forall k p, (k, p) ∈ parse_interfaces_switchport cmd_out ->
        Vlan.interface p = k /\ port_name k
        /\ Vlan.untagged_vlans p <> [] /\ Vlan.tagged_vlans p <> []
        /\ Vlan.forbidden_vlans p <> [])
  /\ Dict.get "all" (parse_interfaces_switchport cmd_out) = None.
Proof.
  destruct (ports_invariant (findall block_here cmd_out) []) as [Hnd Hp].
  - apply Forall_forall. intros o Ho. by eapply findall_from_port.
  - apply NoDup_nil_2.
  - by intros k p ?%elem_of_nil.
  - split; [done|]. split; [done|].
    destruct (Dict.get "all" (parse_interfaces_switchport cmd_out))
      as [p|] eqn:E; [|done].
    apply dict_get_elem_of, Hp in E as (_ & Hall & _).
    by apply all_not_port_name in Hall.
Qed.

(** X11: a listing made of well-formed blocks with distinct port names,
    with text free of the letter [P] before, between and after them, is
    read back block by block: the ports come out in the order of the
    listing, each with its PVID stripped of [(default)] and of blanks
    and its three VLAN fields stripped and cut at the commas. *)
Theorem switchport_listing_read (bs : list (string * switchport_block))
    (last : string) :
  Forall (fun gb => gap gb.1 /\ block_wf gb.2) bs -> gap last ->
  NoDup ((fun gb => block_name gb.2) <$> bs) ->
  parse_interfaces_switchport (listing bs last)
  = (fun gb => (block_name gb.2, block_port gb.2)) <$> bs.
Proof.
  intros Hbs Hlast Hnd. unfold parse_interfaces_switchport.
  rewrite findall_listing by done.
  rewrite (foldl_set_fresh g_port port_of).
  - simpl. by rewrite <- list_fmap_compose.
  - simpl. by rewrite <- list_fmap_compose.
Qed.

Lemma switchport_listing_read_witness :
  parse_interfaces_switchport
    (listing
       [(String nl EmptyString,
         {| sb_group := "0"; sb_index := "1"; sb_mode := " General";
            sb_access := " 1 (default)"; sb_pvid := " 1 (default)";
            sb_ingress := " Disabled"; sb_frame := " Admit all";
            sb_dynamic := EmptyString; sb_untagged := " 1";
            sb_tagged := " 10,20"; sb_forbidden := EmptyString |})]
       (String nl EmptyString))
  = [("0/1", {| Vlan.interface := "0/1"; Vlan.pvid_mode := "1";
                Vlan.untagged_vlans := ["1"];
                Vlan.tagged_vlans := ["10"; "20"];
                Vlan.forbidden_vlans := [EmptyString] |})].
Proof.
  rewrite switchport_listing_read.
  - reflexivity.
  - apply Forall_singleton. repeat split; try done; repeat constructor.
  - reflexivity.
  - apply NoDup_singleton.
Defined.

End switchport.

(** ** Searching a text line by line *)

Section lines.
Import Text.

Lemma every_app p a b : every p (a +:+ b) = every p a && every p b.
Proof.
  induction a as [|c a IH]; [done|]. rewrite append_cons. simpl.
  by rewrite IH, andb_assoc.
Qed.

Lemma one_line_app a b : one_line (a +:+ b) <-> one_line a /\ one_line b.
Proof. unfold one_line. rewrite every_app. apply andb_true_iff. Qed.

Lemma span_one_line r : one_line r -> span not_nl r = (r, EmptyString).
Proof.
  intros Hr. rewrite <- (append_empty_r r) at 1. by apply span_app.
Qed.

Lemma span_one_line_nl r rest :
  one_line r -> span not_nl (r +:+ String nl rest) = (r, String nl rest).
Proof. intros Hr. apply span_app; [done|]. by intros ?? [= <- _]. Qed.

Lemma literal_line p x rest :
  one_line p ->
  literal p (x +:+ String nl rest)
  = (fun r => r +:+ String nl rest) <$> literal p x.
Proof.
  intros Hp. revert x. induction p as [|a p IH]; intros x; [done|].
  apply andb_true_iff in Hp as [Ha Hp].
  destruct x as [|b x]; simpl.
  - rewrite decide_False; [done|]. intros ->. by vm_compute in Ha.
  - destruct (decide (a = b)); [|done]. by apply IH.
Qed.

(** [Re.search] gives the match at the leftmost position that has one. *)
Lemma append_nil_inv (a b : string) :
  EmptyString = a +:+ b -> a = EmptyString /\ b = EmptyString.
Proof.
  destruct a; [|by rewrite append_cons]. rewrite append_empty. by intros <-.
Qed.

Lemma append_cons_inv c s (a b : string) :
  String c s = a +:+ b ->
  (a = EmptyString /\ b = String c s)
  \/ exists a', a = String c a' /\ s = a' +:+ b.
Proof.
  destruct a as [|c' a].
  - rewrite append_empty. intros <-. by left.
  - rewrite append_cons. intros [= <- ->]. right. by exists a.
Qed.

Lemma search_leftmost {A} (here : string -> option A) s m :
  Re.search here s = Some m
  <-> exists pre x, s = pre +:+ x /\ here x = Some m
        /\ forall pre' x', s = pre' +:+ x' ->
             String.length pre' < String.length pre -> here x' = None.
Proof.
  induction s as [|c s IH]; simpl.
  - destruct (here EmptyString) as [m'|] eqn:E.
    + split.
      * intros [= ->]. exists EmptyString, EmptyString.
        repeat split; [done|]. intros ?? _ H. simpl in H. lia.
      * intros (pre & x & [-> ->]%append_nil_inv & Hx & _). congruence.
    + split; [done|].
      intros (pre & x & [-> ->]%append_nil_inv & Hx & _). congruence.
  - destruct (here (String c s)) as [m'|] eqn:E.
    + split.
      * intros [= ->]. exists EmptyString, (String c s).
        repeat split; [done|]. intros ?? _ H. simpl in H. lia.
      * intros (pre & x & Hs & Hx & Hmin).
        apply append_cons_inv in Hs as [[-> ->]|(pre' & -> & ->)];
          [congruence|].
        rewrite (Hmin EmptyString (String c (pre' +:+ x))) in E;
          [done|by rewrite append_empty|simpl; lia].
    + rewrite IH. split.
      * intros (pre & x & -> & Hx & Hmin). exists (String c pre), x.
        split; [by rewrite append_cons|]. split; [done|].
        intros pre' x' Hs Hlt.
        apply append_cons_inv in Hs as [[-> ->]|(pre'' & -> & Hs)]; [done|].
        apply (Hmin pre'' x' Hs). simpl in Hlt. lia.
      * intros (pre & x & Hs & Hx & Hmin).
        apply append_cons_inv in Hs as [[-> ->]|(pre' & -> & ->)];
          [congruence|].
        exists pre', x. repeat split; [done|]. intros pre'' x' Hs Hlt.
        apply (Hmin (String c pre'') x').
        -- by rewrite append_cons, Hs.
        -- simpl. lia.
Qed.

Lemma search_none {A} (here : string -> option A) s :
  Re.search here s = None
  <-> forall pre x, s = pre +:+ x -> here x = None.
Proof.
  induction s as [|c s IH]; simpl.
  - destruct (here EmptyString) eqn:E.
    + split; [done|]. intros H.
      by rewrite (H EmptyString EmptyString) in E.
    + split; [|done]. by intros _ pre x [-> ->]%append_nil_inv.
  - destruct (here (String c s)) eqn:E.
    + split; [done|]. intros H.
      rewrite (H EmptyString (String c s)) in E; [done|].
      by rewrite append_empty.
    + rewrite IH. split.
      * intros H pre x Hs.
        apply append_cons_inv in Hs as [[-> ->]|(pre' & -> & Hs)]; [done|].
        by apply (H pre').
      * intros H pre x Hs. apply (H (String c pre) x).
        by rewrite append_cons, Hs.
Qed.

(** A pattern that cannot reach over a newline is searched for line by
    line. *)
Lemma search_line {A} (here : string -> option A) l rest :
  (forall x, one_line x -> here (x +:+ String nl rest) = here x) ->
  one_line l ->
  Re.search here (l +:+ String nl rest)
  = match Re.search here l with
    | Some m => Some m
    | None => Re.search here rest
    end.
Proof.
  intros Hloc Hl. induction l as [|c l IH].
  - pose proof (Hloc EmptyString eq_refl) as H0.
    rewrite append_empty in *. simpl. rewrite H0.
    by destruct (here EmptyString).
  - pose proof (Hloc (String c l) Hl) as H0.
    apply andb_true_iff in Hl as [Hc Hl]. rewrite append_cons in *.
    simpl. rewrite H0.
    destruct (here (String c l)); [done|]. by apply IH.
Qed.

Lemma search_join {A} (here : string -> option A) cfg :
  (forall x rest, one_line x -> here (x +:+ String nl rest) = here x) ->
  here EmptyString = None ->
  Forall one_line cfg ->
  Re.search here (join cfg) = head (omap (Re.search here) cfg).
Proof.
  intros Hloc H0 Hcfg. induction Hcfg as [|l cfg Hl Hcfg IH]; simpl.
  - by rewrite H0.
  - destruct cfg as [|l' cfg].
    + simpl. by destruct (Re.search here l).
    + rewrite search_line by auto. rewrite IH.
      by destruct (Re.search here l).
Qed.

Lemma head_omap_some {A B} (f : A -> option B) l b :
  head (omap f l) = Some b
  <-> exists before x after,
        l = before ++ x :: after /\ Forall (fun y => f y = None) before
        /\ f x = Some b.
Proof.
  induction l as [|a l IH]; simpl.
  - split; [done|]. intros (before & x & after & H & _). by destruct before.
  - destruct (f a) as [b'|] eqn:E; simpl.
    + split.
      * intros [= ->]. by exists [], a, l.
      * intros (before & x & after & H & Hb & Hx).
        destruct before as [|y before]; simpl in H.
        -- injection H as <- _. congruence.
        -- injection H as <- _. apply Forall_cons in Hb as [Hy _]. congruence.
    + rewrite IH. split.
      * intros (before & x & after & -> & Hb & Hx).
        exists (a :: before), x, after. repeat split; [|done].
        by apply Forall_cons.
      * intros (before & x & after & H & Hb & Hx).
        destruct before as [|y before]; simpl in H.
        -- injection H as <- _. congruence.
        -- injection H as <- ->. apply Forall_cons in Hb as [_ Hb].
           by exists before, x, after.
Qed.

Lemma head_omap_none {A B} (f : A -> option B) l :
  head (omap f l) = None <-> Forall (fun y => f y = None) l.
Proof.
  induction l as [|a l IH]; simpl.
  - split; [by constructor|done].
  - destruct (f a) eqn:E; simpl.
    + split; [done|]. intros [H _]%Forall_cons. congruence.
    + rewrite IH, Forall_cons. tauto.
Qed.

(** From the match at the head of a string to the occurrences in a
    line. *)
Lemma search_first_in (here : string -> option string) pat close line g :
  (forall x m, one_line x ->
     here x = Some m <-> x = pat +:+ m +:+ close /\ m <> EmptyString) ->
  one_line line ->
  Re.search here line = Some g <-> first_in pat close line g.
Proof.
  intros Hhere Hline. rewrite search_leftmost. unfold first_in, occurs_in.
  split.
  - intros (pre & x & -> & Hx & Hmin).
    apply one_line_app in Hline as [Hpre Hxl].
    apply Hhere in Hx as [-> Hg]; [|done]. exists pre. split; [done|].
    intros pre' g' [Hs Hg'].
    destruct (decide (String.length pre' < String.length pre)) as [Hlt|];
      [|lia].
    specialize (Hmin pre' (pat +:+ g' +:+ close) Hs Hlt).
    assert (one_line (pat +:+ g' +:+ close)) as Hol.
    { assert (one_line (pre' +:+ pat +:+ g' +:+ close)) as H'.
      { rewrite <- Hs. by apply one_line_app. }
      by apply one_line_app in H' as [_ ?]. }
    assert (here (pat +:+ g' +:+ close) = Some g') as Hsome
      by by apply Hhere.
    congruence.
  - intros (pre & [-> Hg] & Hmin).
    apply one_line_app in Hline as [Hpre Hxl].
    exists pre, (pat +:+ g +:+ close). split; [done|]. split.
    + by apply Hhere.
    + intros pre' x' Hs Hlt.
      destruct (here x') as [m|] eqn:E; [|done].
      assert (one_line x') as Hx'.
      { assert (one_line (pre' +:+ x')) as H'.
        { rewrite <- Hs. by apply one_line_app. }
        by apply one_line_app in H' as [_ ?]. }
      apply Hhere in E as [-> Hm]; [|done].
      specialize (Hmin pre' m (conj Hs Hm)). lia.
Qed.

Lemma search_none_in (here : string -> option string) pat close line :
  (forall x m, one_line x ->
     here x = Some m <-> x = pat +:+ m +:+ close /\ m <> EmptyString) ->
  one_line line ->
  Re.search here line = None <-> none_in pat close line.
Proof.
  intros Hhere Hline. rewrite search_none. unfold none_in, occurs_in. split.
  - intros H pre g [Hs Hg]. specialize (H pre _ Hs).
    assert (one_line (pat +:+ g +:+ close)) as Hol.
    { rewrite Hs in Hline. by apply one_line_app in Hline as [_ ?]. }
    assert (here (pat +:+ g +:+ close) = Some g) as Hsome by by apply Hhere.
    congruence.
  - intros H pre x Hs. destruct (here x) as [m|] eqn:E; [|done].
    assert (one_line x) as Hx.
    { rewrite Hs in Hline. by apply one_line_app in Hline as [_ ?]. }
    apply Hhere in E as [-> Hm]; [|done].
    by destruct (H pre m).
Qed.

End lines.

(** ** edgeswitch_interface: reading the configuration of an interface *)

Section interface_read.
Import Text InterfaceRead.

Lemma append_inj_l (p a b : string) : p +:+ a = p +:+ b -> a = b.
Proof.
  induction p as [|c p IH]; [by rewrite !append_empty|].
  rewrite !append_cons. intros [= H]. by apply IH.
Qed.

Lemma append_inj_r (a b c : string) : a +:+ c = b +:+ c -> a = b.
Proof.
  revert b. induction a as [|x a IH]; intros b H.
  - destruct b as [|y b]; [done|].
    apply (f_equal String.length) in H.
    rewrite !length_append_s in H. simpl in H. lia.
  - destruct b as [|y b].
    + apply (f_equal String.length) in H.
      rewrite !length_append_s in H. simpl in H. lia.
    + rewrite !append_cons in H. injection H as -> H. f_equal. by apply IH.
Qed.

Lemma literal_one_line p x r :
  literal p x = Some r -> one_line x -> one_line r.
Proof. intros ->%literal_spec. by intros [_ ?]%one_line_app. Qed.

Lemma argument_here_spec arg x m :
  one_line x ->
  argument_here arg x = Some m
  <-> x = (arg +:+ " ") +:+ m +:+ EmptyString /\ m <> EmptyString.
Proof.
  intros Hx. unfold argument_here. rewrite append_empty_r.
  destruct (literal (arg +:+ " ") x) as [r|] eqn:E; simpl.
  - pose proof (literal_one_line _ _ _ E Hx) as Hr.
    apply literal_spec in E as ->. rewrite span_one_line by done. simpl.
    split.
    + destruct r; [done|]. by intros [= <-].
    + intros [Heq Hm]. apply append_inj_l in Heq as <-.
      by destruct r.
  - split; [done|]. intros [Heq _].
    apply (proj2 (literal_spec _ _ _)) in Heq. congruence.
Qed.

Lemma argument_here_local arg x rest :
  one_line arg -> one_line x ->
  argument_here arg (x +:+ String nl rest) = argument_here arg x.
Proof.
  intros Harg Hx. unfold argument_here.
  rewrite literal_line by (by apply one_line_app).
  destruct (literal (arg +:+ " ") x) as [r|] eqn:E; simpl; [|done].
  pose proof (literal_one_line _ _ _ E Hx) as Hr.
  by rewrite span_one_line_nl, span_one_line.
Qed.

Lemma unquote_spec line g :
  unquote line = Some g <-> line = g +:+ "'".
Proof.
  revert g. induction line as [|c l IH]; intros g.
  - split; [done|]. by intros [_ ?]%append_nil_inv.
  - simpl. destruct l as [|c' l].
    + destruct (decide (c = "'"%char)) as [->|Hne].
      * split; [by intros [= <-]|]. intros H.
        apply append_cons_inv in H as [[-> _]|(a' & -> & H)]; [done|].
        by apply append_nil_inv in H as [_ ?].
      * split; [done|]. intros H.
        apply append_cons_inv in H as [[-> H]|(a' & -> & H)].
        -- by injection H as <-.
        -- by apply append_nil_inv in H as [_ ?].
    + destruct (unquote (String c' l)) as [g'|] eqn:E; simpl.
      * pose proof (proj1 (IH g') eq_refl) as E'. split.
        -- intros [= <-]. by rewrite append_cons, <- E'.
        -- intros H.
           apply append_cons_inv in H as [[-> H]|(a' & -> & H)]; [done|].
           f_equal. rewrite E' in H.
           by apply append_inj_r in H as ->.
      * split; [done|]. intros H.
        apply append_cons_inv in H as [[-> H]|(a' & -> & H)]; [done|].
        by apply IH in H.
Qed.

Lemma quoted_here_spec arg x m :
  one_line x ->
  quoted_here arg x = Some m
  <-> x = (arg +:+ " '") +:+ m +:+ "'" /\ m <> EmptyString.
Proof.
  intros Hx. unfold quoted_here.
  destruct (literal (arg +:+ " '") x) as [r|] eqn:E; simpl.
  - pose proof (literal_one_line _ _ _ E Hx) as Hr.
    apply literal_spec in E as ->. rewrite span_one_line by done. simpl.
    destruct (unquote r) as [g|] eqn:Eg; simpl.
    + apply unquote_spec in Eg as ->.
      destruct (decide (g = EmptyString)) as [->|Hne].
      * split; [done|]. intros [Heq Hm].
        apply append_inj_l, append_inj_r in Heq. congruence.
      * split; [by intros [= <-]|]. intros [Heq Hm].
        by apply append_inj_l, append_inj_r in Heq as ->.
    + split; [done|]. intros [Heq Hm].
      apply append_inj_l in Heq.
      apply (proj2 (unquote_spec _ _)) in Heq. congruence.
  - split; [done|]. intros [Heq _].
    apply (proj2 (literal_spec _ _ _)) in Heq. congruence.
Qed.

Lemma quoted_here_local arg x rest :
  one_line arg -> one_line x ->
  quoted_here arg (x +:+ String nl rest) = quoted_here arg x.
Proof.
  intros Harg Hx. unfold quoted_here.
  rewrite literal_line by (by apply one_line_app).
  destruct (literal (arg +:+ " '") x) as [r|] eqn:E; simpl; [|done].
  pose proof (literal_one_line _ _ _ E Hx) as Hr.
  by rewrite span_one_line_nl, span_one_line.
Qed.

Lemma argument_by_line cfg arg :
  Forall one_line cfg -> one_line arg ->
  Re.search (argument_here arg) (join cfg)
  = head (omap (Re.search (argument_here arg)) cfg).
Proof.
  intros Hcfg Harg. apply search_join; [|by destruct arg|done].
  intros x rest Hx. by apply argument_here_local.
Qed.

Lemma quoted_by_line cfg arg :
  Forall one_line cfg -> one_line arg ->
  Re.search (quoted_here arg) (join cfg)
  = head (omap (Re.search (quoted_here arg)) cfg).
Proof.
  intros Hcfg Harg. apply search_join; [|by destruct arg|done].
  intros x rest Hx. by apply quoted_here_local.
Qed.

Lemma Forall_iff_on {A} (P Q R : A -> Prop) l :
  Forall P l -> (forall x, P x -> Q x <-> R x) ->
  Forall Q l <-> Forall R l.
Proof.
  intros HP Hiff. rewrite !Forall_forall. rewrite Forall_forall in HP.
  split; intros H x Hx; apply (Hiff x (HP x Hx)); by apply H.
Qed.

Lemma head_omap_first_line (here : string -> option string) pat close cfg g :
  (forall x m, one_line x ->
     here x = Some m <-> x = pat +:+ m +:+ close /\ m <> EmptyString) ->
  Forall one_line cfg ->
  head (omap (Re.search here) cfg) = Some g <-> first_line_in pat close cfg g.
Proof.
  intros Hhere Hcfg. rewrite head_omap_some. unfold first_line_in.
  split; intros (before & line & after & -> & Hb & Hl);
    exists before, line, after; (split; [done|]);
    apply Forall_app in Hcfg as [Hcb [Hcl _]%Forall_cons]; split.
  - apply (Forall_iff_on one_line (fun y => Re.search here y = None)
             (none_in pat close) before Hcb); [|done].
    intros l Hl1. by apply search_none_in.
  - by apply (search_first_in here).
  - apply (Forall_iff_on one_line (fun y => Re.search here y = None)
             (none_in pat close) before Hcb); [|done].
    intros l Hl1. by apply search_none_in.
  - by apply (search_first_in here pat close).
Qed.

Lemma head_omap_no_line (here : string -> option string) pat close cfg :
  (forall x m, one_line x ->
     here x = Some m <-> x = pat +:+ m +:+ close /\ m <> EmptyString) ->
  Forall one_line cfg ->
  head (omap (Re.search here) cfg) = None <-> Forall (none_in pat close) cfg.
Proof.
  intros Hhere Hcfg. rewrite head_omap_none.
  apply (Forall_iff_on one_line (fun y => Re.search here y = None)
           (none_in pat close) cfg Hcfg).
  intros l Hl1. by apply search_none_in.
Qed.

(** X12: [parse_config_argument] works line by line. Its value is what
    follows the leftmost place where [arg] and a blank stand before at
    least one more character, in the first line that has such a place;
    the place need not be the beginning of the line. When no line has
    one, the value is [default]. *)
Theorem config_argument_first_occurrence (cfg : list string)
    (arg : string) (dflt : option string) (g : string) :
  Forall one_line cfg -> one_line arg ->
  parse_config_argument cfg arg dflt = Some g
  <-> first_line_in (arg +:+ " ") EmptyString cfg g
      \/ (Forall (none_in (arg +:+ " ") EmptyString) cfg /\ dflt = Some g).
Proof.
  intros Hcfg Harg. unfold parse_config_argument.
  rewrite argument_by_line by done.
  pose proof (head_omap_first_line (argument_here arg) (arg +:+ " ")
                EmptyString cfg) as Hfirst.
  pose proof (head_omap_no_line (argument_here arg) (arg +:+ " ")
                EmptyString cfg) as Hnone.
  destruct (head (omap (Re.search (argument_here arg)) cfg)) as [m|] eqn:E.
  - split.
    + intros [= ->]. left. apply Hfirst; [|done..].
      intros x m' Hx. by apply argument_here_spec.
    + intros [Hg|[Hno _]].
      * apply Hfirst in Hg; [congruence| |done].
        intros x m' Hx. by apply argument_here_spec.
      * apply Hnone in Hno; [done| |done].
        intros x m' Hx. by apply argument_here_spec.
  - split.
    + intros ->. right. split; [|done]. apply Hnone; [|done..].
      intros x m' Hx. by apply argument_here_spec.
    + intros [Hg|[_ ?]]; [|done].
      apply Hfirst in Hg; [done| |done].
      intros x m' Hx. by apply argument_here_spec.
Qed.

(** X13: [parse_quoted_config_argument] works line by line as well: its
    value is the non-empty text between the quote after [arg] and a
    quote that ends the line, at the leftmost such place of the first
    line that has one, and [None] when no line has one. *)
Theorem quoted_argument_first_occurrence (cfg : list string)
    (arg : string) (g : string) :
  Forall one_line cfg -> one_line arg ->
  (parse_quoted_config_argument cfg arg = Some g
   <-> first_line_in (arg +:+ " '") "'" cfg g)
  /\ (parse_quoted_config_argument cfg arg = None
      <-> Forall (none_in (arg +:+ " '") "'") cfg).
Proof.
  intros Hcfg Harg. unfold parse_quoted_config_argument.
  rewrite quoted_by_line by done. split.
  - apply head_omap_first_line; [|done].
    intros x m Hx. by apply quoted_here_spec.
  - apply head_omap_no_line; [|done].
    intros x m Hx. by apply quoted_here_spec.
Qed.

(** The word [speed] inside a description is taken for the setting. *)
Lemma config_argument_first_occurrence_witness :
  first_line_in "speed " EmptyString
    ["interface 0/1"; "description 'set speed 100'"; "speed 1000"] "100'"
  \/ (Forall (none_in "speed " EmptyString)
        ["interface 0/1"; "description 'set speed 100'"; "speed 1000"]
      /\ Some "auto" = Some "100'").
Proof.
  apply (config_argument_first_occurrence
           ["interface 0/1"; "description 'set speed 100'"; "speed 1000"]
           "speed" (Some "auto") "100'").
  - repeat constructor.
  - reflexivity.
  - reflexivity.
Defined.

Lemma quoted_argument_first_occurrence_witness :
  first_line_in "description '" "'"
    ["interface 0/1"; "description 'it's up'"; "shutdown"] "it's up".
Proof.
  apply (quoted_argument_first_occurrence
           ["interface 0/1"; "description 'it's up'"; "shutdown"]
           "description" "it's up").
  - repeat constructor.
  - reflexivity.
  - reflexivity.
Defined.

End interface_read.

(** ** edgeswitch_interface: is the interface shut down *)

Section shutdown.
Import Text InterfaceRead.

Lemma prefix_cons a p b s :
  String.prefix (String a p) (String b s)
  = if ascii_dec a b then String.prefix p s else false.
Proof. done. Qed.

Lemma prefix_empty_l s : String.prefix EmptyString s = true.
Proof. by destruct s. Qed.

Lemma prefix_append p r : String.prefix p (p +:+ r) = true.
Proof.
  induction p as [|a p IH]; [apply prefix_empty_l|].
  rewrite append_cons, prefix_cons. by destruct (ascii_dec a a).
Qed.

Lemma prefix_line p l rest :
  one_line p ->
  String.prefix p (l +:+ String nl rest) = String.prefix p l.
Proof.
  revert l. induction p as [|a p IH]; intros l Hp.
  - by rewrite !prefix_empty_l.
  - apply andb_true_iff in Hp as [Ha Hp]. destruct l as [|b l].
    + rewrite append_empty, prefix_cons.
      destruct (ascii_dec a nl) as [->|]; [by vm_compute in Ha|done].
    + rewrite append_cons, !prefix_cons.
      destruct (ascii_dec a b); [by apply IH|done].
Qed.

Lemma search_bol_cons p b c s :
  search_bol p b (String c s)
  = (b && String.prefix p (String c s))
    || search_bol p (bool_decide (c = nl)) s.
Proof. done. Qed.

Lemma search_bol_nil p b :
  search_bol p b EmptyString = b && String.prefix p EmptyString.
Proof. unfold search_bol. by rewrite orb_false_r. Qed.

Lemma not_nl_decide c : not_nl c = true -> bool_decide (c = nl) = false.
Proof. unfold not_nl. by intros ->%negb_true_iff. Qed.

Lemma search_bol_one_line p b x :
  one_line x -> search_bol p b x = b && String.prefix p x.
Proof.
  revert b. induction x as [|c x IH]; intros b Hx.
  - apply search_bol_nil.
  - apply andb_true_iff in Hx as [Hc Hx].
    rewrite search_bol_cons, (not_nl_decide c Hc), IH by done.
    by rewrite orb_false_r.
Qed.

Lemma search_bol_line p b l rest :
  one_line p -> one_line l ->
  search_bol p b (l +:+ String nl rest)
  = (b && String.prefix p l) || search_bol p true rest.
Proof.
  intros Hp. revert b. induction l as [|c l IH]; intros b Hl.
  - rewrite <- (prefix_line p EmptyString rest Hp).
    rewrite append_empty, search_bol_cons. by rewrite bool_decide_eq_true_2.
  - pose proof (prefix_line p (String c l) rest Hp) as Hpre.
    apply andb_true_iff in Hl as [Hc Hl].
    rewrite append_cons in *.
    rewrite search_bol_cons, (not_nl_decide c Hc), IH, Hpre by done.
    done.
Qed.

Lemma search_bol_join p cfg :
  one_line p -> p <> EmptyString -> Forall one_line cfg ->
  search_bol p true (join cfg) = existsb (String.prefix p) cfg.
Proof.
  intros Hp Hne Hcfg. induction Hcfg as [|l cfg Hl Hcfg IH].
  - change (join []) with EmptyString. rewrite search_bol_nil.
    by destruct p.
  - destruct cfg as [|l' cfg].
    + change (join [l]) with l. rewrite search_bol_one_line by done.
      simpl. by rewrite orb_false_r.
    + change (join (l :: l' :: cfg))
        with (l +:+ String nl (join (l' :: cfg))).
      rewrite search_bol_line, IH by done. done.
Qed.

(** X14: [parse_shutdown] answers [True] exactly when one of the
    configuration lines begins with [shutdown]; a line [no shutdown],
    or [shutdown] after leading blanks, does not count. *)
Theorem shutdown_line_by_line (cfg : list string) :
  Forall one_line cfg ->
  parse_shutdown cfg = true
  <-> exists l r, l ∈ cfg /\ l = "shutdown" +:+ r.
Proof.
  intros Hcfg. unfold parse_shutdown.
  rewrite search_bol_join by done. rewrite existsb_exists. split.
  - intros (l & Hl & [r ->]%prefix_inv). exists ("shutdown" +:+ r), r.
    split; [by apply list_elem_of_In|done].
  - intros (l & r & Hl & ->). exists ("shutdown" +:+ r).
    split; [by apply list_elem_of_In|apply prefix_append].
Qed.

Lemma shutdown_line_by_line_witness :
  parse_shutdown ["interface 0/3"; "description 'no shutdown'"; "shutdown"]
  = true.
Proof.
  apply shutdown_line_by_line.
  - repeat constructor.
  - exists "shutdown", EmptyString. split; [|reflexivity].
    do 2 right. left.
Defined.

End shutdown.

(** ** edgeswitch_interface: what is written is what is read *)

Section interface_round_trip.
Import Text InterfaceRead.

Lemma word_one_line x :
  every (fun c => negb (is_space c)) x = true -> one_line x.
Proof.
  unfold one_line. induction x as [|c x IH]; simpl; [done|].
  intros [Hc Hx]%andb_true_iff. rewrite IH by done.
  rewrite andb_true_r. unfold not_nl.
  apply negb_true_iff, bool_decide_eq_false. intros ->. by vm_compute in Hc.
Qed.

Lemma literal_no_space a b x :
  every (fun c => negb (is_space c)) x = true ->
  literal (a +:+ String " " b) x = None.
Proof.
  revert x. induction a as [|y a IH]; intros x Hx.
  - rewrite append_empty. destruct x as [|c x]; [done|]. simpl.
    apply andb_true_iff in Hx as [Hc _].
    rewrite decide_False; [done|]. intros <-. by vm_compute in Hc.
  - rewrite append_cons. destruct x as [|c x]; [done|]. simpl.
    apply andb_true_iff in Hx as [_ Hx].
    destruct (decide (y = c)); [by apply IH|done].
Qed.

Lemma search_no_space {A} (here : string -> option A) x :
  (forall y, every (fun c => negb (is_space c)) y = true -> here y = None) ->
  every (fun c => negb (is_space c)) x = true ->
  Re.search here x = None.
Proof.
  intros Hhere. induction x as [|c x IH]; intros Hx; simpl.
  - by rewrite Hhere.
  - rewrite Hhere by done. apply IH.
    by apply andb_true_iff in Hx as [_ ?].
Qed.

Lemma argument_no_space arg x :
  every (fun c => negb (is_space c)) x = true ->
  Re.search (argument_here arg) x = None.
Proof.
  apply search_no_space. intros y Hy. unfold argument_here.
  by rewrite (literal_no_space arg EmptyString).
Qed.

Lemma quoted_no_space arg x :
  every (fun c => negb (is_space c)) x = true ->
  Re.search (quoted_here arg) x = None.
Proof.
  apply search_no_space. intros y Hy. unfold quoted_here.
  by rewrite (literal_no_space arg "'").
Qed.

Lemma search_skip {A} (here : string -> option A) c r :
  here (String c r) = None ->
  Re.search here (String c r) = Re.search here r.
Proof. intros H. simpl. by rewrite H. Qed.

Lemma argument_at_head arg g :
  one_line g -> g <> EmptyString ->
  Re.search (argument_here arg) (arg +:+ " " +:+ g) = Some g.
Proof.
  intros Hg Hne. apply search_here. unfold argument_here.
  rewrite <- append_assoc_s.
  rewrite (proj2 (literal_spec (arg +:+ " ") _ g) eq_refl). simpl.
  rewrite span_one_line by done. by destruct g.
Qed.

Lemma quoted_at_head arg g :
  one_line g -> g <> EmptyString ->
  Re.search (quoted_here arg) (arg +:+ " '" +:+ g +:+ "'") = Some g.
Proof.
  intros Hg Hne. apply search_here. unfold quoted_here.
  rewrite <- append_assoc_s.
  rewrite (proj2 (literal_spec (arg +:+ " '") _ (g +:+ "'")) eq_refl).
  simpl. rewrite span_one_line by (by apply one_line_app). simpl.
  rewrite (proj2 (unquote_spec (g +:+ "'") g) eq_refl). simpl.
  by rewrite decide_False.
Qed.

Ltac skip_heads :=
  repeat (rewrite search_skip by reflexivity).

Lemma written_one_line n d s m dis :
  one_line n -> one_line d -> one_line s -> one_line m ->
  Forall one_line (written n d s m dis).
Proof.
  intros Hn Hd Hs Hm. unfold written.
  apply Forall_cons_2; [by apply one_line_app|].
  apply Forall_cons_2; [by apply one_line_app|].
  apply Forall_cons_2.
  { apply one_line_app. split; [done|]. by apply one_line_app. }
  apply Forall_cons_2; [by apply one_line_app|].
  apply Forall_cons_2; [by destruct dis|]. apply Forall_nil_2.
Qed.

(** X15: the module reads back what it writes. For an interface whose
    name and MTU have no blank, and whose description does not hold the
    word [speed] followed by a blank, the lines emitted to set all four
    settings are read by [map_config_to_obj] as exactly these settings,
    and on the interface so read the same desired entry gives no command
    and no warning. *)
Theorem interface_written_is_read (key n d s m : string) (dis : bool)
    (get_running_mtu : string -> option string) :
  word n -> word m ->
  d <> EmptyString -> one_line d ->
  none_in "speed " EmptyString ("description '" +:+ d +:+ "'") ->
  s <> EmptyString -> one_line s ->
  map_config_to_obj [(key, written n d s m dis)]
  = [{| o_name := Some n; o_description := Some d; o_speed := Some s;
        o_mtu := Some m; o_disable := dis |}]
  /\ Interface.map_obj_to_commands get_running_mtu
       [{| Interface.name := n; Interface.description := Some d;
           Interface.speed := Some s; Interface.mtu := Some m;
           Interface.disable := Some dis |}]
       (omap observed (map_config_to_obj [(key, written n d s m dis)]))
     = ([], []).
Proof.
  intros [Hn0 Hn] [Hm0 Hm] Hd0 Hd Hds Hs0 Hs.
  pose proof (word_one_line n Hn) as Hnl.
  pose proof (word_one_line m Hm) as Hml.
  pose proof (written_one_line n d s m dis Hnl Hd Hs Hml) as Hlines.
  assert (read (written n d s m dis)
          = {| o_name := Some n; o_description := Some d;
               o_speed := Some s; o_mtu := Some m; o_disable := dis |})
    as Hread.
  { unfold read, parse_config_argument, parse_quoted_config_argument,
      parse_shutdown.
    rewrite !argument_by_line, quoted_by_line, search_bol_join by done.
    assert (Re.search (argument_here "interface") ("interface " +:+ n)
            = Some n) as H1 by by apply (argument_at_head "interface").
    assert (Re.search (argument_here "mtu") ("interface " +:+ n) = None)
      as H2.
    { change ("interface " +:+ n)
        with (String "i" (String "n" (String "t" (String "e" (String "r"
               (String "f" (String "a" (String "c" (String "e"
               (String " " n)))))))))).
      skip_heads. by apply argument_no_space. }
    assert (Re.search (argument_here "mtu") ("mtu " +:+ m) = Some m)
      as H3 by by apply (argument_at_head "mtu").
    assert (Re.search (quoted_here "description") ("interface " +:+ n)
            = None) as H4.
    { change ("interface " +:+ n)
        with (String "i" (String "n" (String "t" (String "e" (String "r"
               (String "f" (String "a" (String "c" (String "e"
               (String " " n)))))))))).
      skip_heads. by apply quoted_no_space. }
    assert (Re.search (quoted_here "description") ("mtu " +:+ m) = None)
      as H5.
    { change ("mtu " +:+ m)
        with (String "m" (String "t" (String "u" (String " " m)))).
      skip_heads. by apply quoted_no_space. }
    assert (Re.search (quoted_here "description")
              ("description '" +:+ d +:+ "'") = Some d)
      as H6 by by apply (quoted_at_head "description").
    assert (Re.search (argument_here "speed") ("interface " +:+ n) = None)
      as H7.
    { change ("interface " +:+ n)
        with (String "i" (String "n" (String "t" (String "e" (String "r"
               (String "f" (String "a" (String "c" (String "e"
               (String " " n)))))))))).
      skip_heads. by apply argument_no_space. }
    assert (Re.search (argument_here "speed") ("mtu " +:+ m) = None) as H8.
    { change ("mtu " +:+ m)
        with (String "m" (String "t" (String "u" (String " " m)))).
      skip_heads. by apply argument_no_space. }
    assert (Re.search (argument_here "speed")
              ("description '" +:+ d +:+ "'") = None) as H9.
    { apply (search_none_in _ "speed " EmptyString); [| |done].
      - intros x g Hx. by apply (argument_here_spec "speed").
      - apply one_line_app. split; [done|]. by apply one_line_app. }
    assert (Re.search (argument_here "speed") ("speed " +:+ s) = Some s)
      as H10 by by apply (argument_at_head "speed").
    unfold written. cbn [omap list_omap head].
    rewrite H1. cbn [omap list_omap head].
    rewrite H2, H3, H4, H5, H6, H7, H8, H9, H10.
    cbn [omap list_omap head]. by destruct dis. }
  split.
  - unfold map_config_to_obj. simpl. by rewrite Hread.
  - unfold map_config_to_obj. simpl. rewrite Hread. simpl.
    unfold Interface.map_obj_to_commands, Interface.step. simpl.
    rewrite bool_decide_eq_true_2 by done. simpl.
    rewrite interface_entry_commands_settled; [done|..]; simpl; auto.
Qed.

Lemma interface_written_is_read_witness :
  map_config_to_obj
    [("0/3", written "0/3" "uplink to core" "1000" "9216" true)]
  = [{| o_name := Some "0/3"; o_description := Some "uplink to core";
        o_speed := Some "1000"; o_mtu := Some "9216"; o_disable := true |}]
  /\ Interface.map_obj_to_commands (fun _ => None)
       [{| Interface.name := "0/3";
           Interface.description := Some "uplink to core";
           Interface.speed := Some "1000"; Interface.mtu := Some "9216";
           Interface.disable := Some true |}]
       (omap observed
          (map_config_to_obj
             [("0/3", written "0/3" "uplink to core" "1000" "9216" true)]))
     = ([], []).
Proof.
  apply (interface_written_is_read "0/3" "0/3" "uplink to core" "1000"
           "9216" true (fun _ => None)).
  - by split.
  - by split.
  - done.
  - reflexivity.
  - apply (search_none_in (argument_here "speed") "speed " EmptyString).
    + intros x g Hx. by apply (argument_here_spec "speed").
    + reflexivity.
    + reflexivity.
  - done.
  - reflexivity.
Defined.

End interface_round_trip.

(** ** edgeswitch_voice: reading the running configuration *)

Section voice_read.
Import Text VoiceRead.

Lemma name_here_inv x g :
  name_here x = Some g ->
  exists post, x = "interface " +:+ g +:+ String nl post.
Proof.
  unfold name_here, field.
  destruct (literal "interface " x) as [r|] eqn:E; simpl; [|done].
  apply literal_spec in E as ->.
  destruct (span_inv not_nl r) as (Hr & _ & _).
  destruct (span not_nl r) as [g' r']. simpl in *.
  destruct r' as [|c r']; simpl; [done|].
  destruct (decide (nl = c)) as [<-|]; simpl; [|done].
  intros [= <-]. exists r'. by rewrite Hr.
Qed.

Lemma number_here_inv label x d :
  number_here label x = Some d -> number d.
Proof.
  unfold number_here.
  destruct (literal label x) as [r|]; simpl; [|done].
  destruct (Re.digits r) as [[d' r']|] eqn:E; simpl; [|done].
  intros [= <-]. by apply digits_inv in E as (_ & ? & _).
Qed.

Lemma search_number label s :
  default "no" (Re.search (number_here label) s) = "no"
  \/ number (default "no" (Re.search (number_here label) s)).
Proof.
  destruct (Re.search (number_here label) s) as [d|] eqn:E; [|by left].
  right. apply search_leftmost in E as (_ & x & _ & Hx & _).
  by eapply number_here_inv.
Qed.

(** What holds of the dictionary while the blocks are read. *)
Lemma voice_read_invariant (ic done_ : Dict.t (list string))
    (have : Dict.t Voice.port) :
  NoDup (Dict.keys have) ->
  (forall k p, (k, p) ∈ have ->
     String.prefix "lag" k = false
     /\ (Voice.voice_vlan p = "no" \/ number (Voice.voice_vlan p))
     /\ (Voice.voice_dscp p = "no" \/ number (Voice.voice_dscp p))
     /\ exists key value pre post,
          (key, value) ∈ done_ ++ ic
          /\ join value = pre +:+ "interface " +:+ k +:+ String nl post) ->
  NoDup (Dict.keys (foldl (fun have kv => read_block have kv.2) have ic))
  /\ forall k p,
       (k, p) ∈ foldl (fun have kv => read_block have kv.2) have ic ->
       String.prefix "lag" k = false
       /\ (Voice.voice_vlan p = "no" \/ number (Voice.voice_vlan p))
       /\ (Voice.voice_dscp p = "no" \/ number (Voice.voice_dscp p))
       /\ exists key value pre post,
            (key, value) ∈ done_ ++ ic
            /\ join value = pre +:+ "interface " +:+ k +:+ String nl post.
Proof.
  revert done_ have. induction ic as [|[key value] ic IH];
    intros done_ have Hnd Hp; [done|].
  simpl.
  replace (done_ ++ (key, value) :: ic)
    with ((done_ ++ [(key, value)]) ++ ic) in * by by rewrite <- app_assoc.
  apply IH.
  - unfold read_block. destruct (Re.search name_here (join value)); [|done].
    destruct (String.prefix "lag" s); [done|]. by apply dict_set_NoDup.
  - intros k p Hkp. unfold read_block in Hkp.
    destruct (Re.search name_here (join value)) as [iname|] eqn:E;
      [|by apply Hp].
    destruct (String.prefix "lag" iname) eqn:Elag; [by apply Hp|].
    apply elem_of_dict_set in Hkp as [[= -> ->]|Hkp]; [|by apply Hp].
    split; [done|]. split; [apply search_number|].
    split; [apply search_number|].
    apply search_leftmost in E as (pre & x & Hs & Hx & _).
    apply name_here_inv in Hx as [post ->].
    exists key, value, pre, post. split; [|done].
    apply elem_of_app; left. apply elem_of_app; right. by left.
Qed.

(** X16: whatever [get_interfaces_config] returns, the ports the voice
    module reads have distinct names, none of which begins with [lag];
    the voice VLAN and the DSCP of a port are each [no] or a number;
    and the name of a port is what stands between [interface] with a
    blank and the end of a line followed by another line in the text of
    one of the blocks. *)
Theorem voice_ports_read (ic : Dict.t (list string)) :
  NoDup (Dict.keys (map_config_to_obj ic))
  /\ forall k p, (k, p) ∈ map_config_to_obj ic ->
       String.prefix "lag" k = false
       /\ (Voice.voice_vlan p = "no" \/ number (Voice.voice_vlan p))
       /\ (Voice.voice_dscp p = "no" \/ number (Voice.voice_dscp p))
       /\ exists key value pre post,
            (key, value) ∈ ic
            /\ join value = pre +:+ "interface " +:+ k +:+ String nl post.
Proof.
  apply (voice_read_invariant ic [] []).
  - apply NoDup_nil_2.
  - by intros k p ?%elem_of_nil.
Qed.

Lemma voice_lag_unread ic k :
  String.prefix "lag" k = true -> Dict.get k (map_config_to_obj ic) = None.
Proof.
  intros Hlag.
  destruct (Dict.get k (map_config_to_obj ic)) as [p|] eqn:E; [|done].
  apply dict_get_elem_of in E.
  destruct (voice_read_invariant ic [] []) as [_ H].
  - apply NoDup_nil_2.
  - by intros ?? ?%elem_of_nil.
  - apply H in E as [E _]. congruence.
Qed.

(** X17: link aggregation interfaces are left out when the device is
    read, so the voice settings of an interface whose name begins with
    [lag] cannot be managed: an entry that addresses one makes
    [map_to_commands] raise, whatever the device holds. *)
Theorem voice_lag_raises (ic : Dict.t (list string)) (wt : list Voice.want)
    (w : Voice.want) (i k : string) :
  w ∈ wt -> i ∈ Voice.interfaces w ->
  k ∈ Voice.targets (map_config_to_obj ic) i ->
  String.prefix "lag" k = true ->
  exists e, Voice.map_to_commands wt (map_config_to_obj ic) = Py.Raise e.
Proof.
  intros Hw Hi Hk Hlag.
  apply (voice_missing_interface_raises wt _ w i k); [done..|].
  by apply voice_lag_unread.
Qed.

Lemma voice_lag_raises_witness :
  exists e,
    Voice.map_to_commands
      [{| Voice.vlan_id := Py.VInt 100; Voice.dscp := Some "46";
          Voice.interfaces := ["lag 1"]; Voice.lldp := Some [];
          Voice.wstate := present |}]
      (map_config_to_obj
         [("lag 1", ["interface lag 1"; "voice vlan 100"; "exit"])])
    = Py.Raise e.
Proof.
  apply (voice_lag_raises
           [("lag 1", ["interface lag 1"; "voice vlan 100"; "exit"])]
           [{| Voice.vlan_id := Py.VInt 100; Voice.dscp := Some "46";
               Voice.interfaces := ["lag 1"]; Voice.lldp := Some [];
               Voice.wstate := present |}]
           {| Voice.vlan_id := Py.VInt 100; Voice.dscp := Some "46";
              Voice.interfaces := ["lag 1"]; Voice.lldp := Some [];
              Voice.wstate := present |}
           "lag 1" "lag 1").
  - by left.
  - by left.
  - by left.
  - reflexivity.
Defined.

End voice_read.

(** ** edgeswitch_vlan: a run that lists [all] *)

Section vlan_all_run.
Import Text VlanRead.

Lemma switchport_no_all cmd_out :
  Dict.get "all" (parse_interfaces_switchport cmd_out) = None.
Proof.
  destruct (ports_invariant (findall block_here cmd_out) []) as [_ Hp].
  - apply Forall_forall. intros o Ho. by eapply findall_from_port.
  - apply NoDup_nil_2.
  - by intros k p ?%elem_of_nil.
  - destruct (Dict.get "all" (parse_interfaces_switchport cmd_out))
      as [p|] eqn:E; [|done].
    apply dict_get_elem_of, Hp in E as (_ & Hall & _).
    by apply all_not_port_name in Hall.
Qed.

(** X18: a run of the VLAN module whose entries pass validation and in
    which an entry in state [present] lists [all] always ends in a
    [KeyError], whatever the device prints; outside check mode the
    commands of the VLAN phase have been sent to the device by then,
    and nothing of the membership phase is sent. *)
Theorem vlan_all_run_fails_midway (purge : bool) (wt : list Vlan.want)
    (w : Vlan.want) (vlan_out port_out : string) :
  Vlan.check_params wt = Py.Ok () ->
  w ∈ wt -> Vlan.wstate w = present -> "all" ∈ entry_tokens w ->
  exists i,
    Vlan.main purge false wt (parse_vlan_brief vlan_out)
      (parse_interfaces_switchport port_out)
    = (Py.Raise (Py.KeyError i),
       if Vlan.nonempty
            (Vlan.map_vlans_to_commands wt (parse_vlan_brief vlan_out) purge)
       then [Vlan.map_vlans_to_commands wt (parse_vlan_brief vlan_out) purge]
       else [])
    /\ Vlan.main purge true wt (parse_vlan_brief vlan_out)
         (parse_interfaces_switchport port_out)
       = (Py.Raise (Py.KeyError i), []).
Proof.
  intros Hcheck Hw Hst Hall.
  destruct (resolve_listed w (parse_interfaces_switchport port_out) "all")
    as [t Ht].
  { unfold entry_tokens in Hall. rewrite !elem_of_app in Hall |- *.
    destruct Hall as [H|[H|H]]; [left|right; left|right; right];
      by apply listed_plain_token. }
  destruct (vlan_missing_interface_raises wt
              (parse_interfaces_switchport port_out) w "all" t)
    as [e He]; [done..|apply switchport_no_all|].
  destruct (membership_raise_inv _ _ _ He) as (_ & i & _ & _ & ->).
  exists i. unfold Vlan.main. rewrite Hcheck, He.
  split; [|by rewrite andb_false_r].
  by destruct (Vlan.nonempty _).
Qed.

Lemma vlan_all_run_fails_midway_witness :
  exists i,
    Vlan.main false false
      [{| Vlan.vlan_id := Py.VInt 200; Vlan.name := Some "video";
          Vlan.wstate := present; Vlan.auto_tag := None;
          Vlan.auto_untag := None; Vlan.auto_exclude := None;
          Vlan.tagged_interfaces := Some ["all"];
          Vlan.untagged_interfaces := None;
          Vlan.excluded_interfaces := None |}]
      (parse_vlan_brief "1       default                          Default")
      (parse_interfaces_switchport EmptyString)
    = (Py.Raise (Py.KeyError i),
       [["vlan database"; "vlan 200";
         "vlan name 200 " +:+ dquote +:+ "video" +:+ dquote; "exit"]]).
Proof.
  destruct (vlan_all_run_fails_midway false
              [{| Vlan.vlan_id := Py.VInt 200; Vlan.name := Some "video";
                  Vlan.wstate := present; Vlan.auto_tag := None;
                  Vlan.auto_untag := None; Vlan.auto_exclude := None;
                  Vlan.tagged_interfaces := Some ["all"];
                  Vlan.untagged_interfaces := None;
                  Vlan.excluded_interfaces := None |}]
              {| Vlan.vlan_id := Py.VInt 200; Vlan.name := Some "video";
                 Vlan.wstate := present; Vlan.auto_tag := None;
                 Vlan.auto_untag := None; Vlan.auto_exclude := None;
                 Vlan.tagged_interfaces := Some ["all"];
                 Vlan.untagged_interfaces := None;
                 Vlan.excluded_interfaces := None |}
              "1       default                          Default"
              EmptyString)
    as (i & H & _).
  - reflexivity.
  - by left.
  - reflexivity.
  - by left.
  - exists i. exact H.
Defined.

End vlan_all_run.

(** ** edgeswitch_interface: the MTU read back from the interface *)

Section running_mtu.
Import Text InterfaceRead.

Lemma frame_size_here_number x d : frame_size_here x = Some d -> number d.
Proof.
  unfold frame_size_here.
  destruct (literal "Max Frame Size" x) as [r|]; simpl; [|done].
  destruct (span is_dot r) as [[|c ds] r1]; [done|].
  destruct (Re.lit " " r1) as [r2|]; simpl; [|done].
  destruct (Re.digits r2) as [[d' r3]|] eqn:E; simpl; [|done].
  intros [= <-]. by apply digits_inv in E as (_ & ? & _).
Qed.

Lemma frame_size_here_line ds d post :
  dots ds -> number d ->
  (forall c r, post = String c r -> Re.is_digit c = false) ->
  frame_size_here ("Max Frame Size" +:+ ds +:+ " " +:+ d +:+ post) = Some d.
Proof.
  intros [Hds0 Hds] Hd Hpost. unfold frame_size_here.
  rewrite (proj2 (literal_spec "Max Frame Size" _
                    (ds +:+ " " +:+ d +:+ post)) eq_refl).
  cbn [mbind option_bind].
  rewrite (span_app is_dot ds (" " +:+ d +:+ post)); [|done|].
  - destruct ds as [|c ds]; [done|].
    change (" " +:+ d +:+ post) with (String " " (d +:+ post)).
    cbn [Re.lit]. rewrite decide_True by done. cbn [mbind option_bind].
    by rewrite digits_number.
  - change (" " +:+ d +:+ post) with (String " " (d +:+ post)).
    by intros ?? [= <- _].
Qed.

Lemma search_no_label {A} (here : string -> option A) pre rest :
  (forall c r, c <> "M"%char -> here (String c r) = None) ->
  no_label pre ->
  Re.search here (pre +:+ rest) = Re.search here rest.
Proof.
  intros Hhere. unfold no_label. induction pre as [|c pre IH]; intros Hpre.
  - by rewrite append_empty.
  - apply andb_true_iff in Hpre as [Hc Hpre]. rewrite append_cons.
    rewrite search_skip; [by apply IH|]. apply Hhere.
    intros ->. by rewrite bool_decide_eq_true_2 in Hc.
Qed.

Lemma frame_size_here_not_label c r :
  c <> "M"%char -> frame_size_here (String c r) = None.
Proof.
  intros Hc. unfold frame_size_here. simpl. by rewrite decide_False.
Qed.

(** X19: the MTU [get_running_mtu] reads back from
    [show interface ethernet] is a number whenever there is one; from an
    output that shows [Max Frame Size], dots, a blank and a number, with
    no letter [M] before it, it is that number. An entry that asks for
    an MTU on an interface whose configuration shows none then emits its
    [mtu] command exactly when the number read back is another one, or
    none was found. *)
Theorem running_mtu_read (run : string -> string) (interface : string) :
  (forall d, get_running_mtu run interface = Some d -> number d)
  /\ (forall pre ds d post,
        run ("show interface ethernet " +:+ interface)
        = pre +:+ "Max Frame Size" +:+ ds +:+ " " +:+ d +:+ post ->
        no_label pre -> dots ds -> number d ->
        (forall c r, post = String c r -> Re.is_digit c = false) ->
        get_running_mtu run interface = Some d)
  /\ (forall w o m,
        Interface.name w = interface ->
        Interface.mtu w = Some m -> m <> EmptyString ->
        Py.truthy_str (Interface.h_mtu o) = false ->
        ("mtu " +:+ m) ∈ Interface.entry_commands (get_running_mtu run) w o
        <-> get_running_mtu run interface <> Some m).
Proof.
  split; [|split].
  - intros d Hd. unfold get_running_mtu in Hd.
    apply search_leftmost in Hd as (_ & x & _ & Hx & _).
    by eapply frame_size_here_number.
  - intros pre ds d post Hrun Hpre Hds Hd Hpost. unfold get_running_mtu.
    rewrite Hrun.
    rewrite (search_no_label _ pre); [|apply frame_size_here_not_label|done].
    apply search_here. by apply frame_size_here_line.
  - intros w o m Hname Hmtu Hm Hobs.
    assert (Py.truthy_str (Interface.mtu w) = true) as Ht.
    { rewrite Hmtu. simpl. by rewrite bool_decide_eq_false_2. }
    unfold Interface.entry_commands. rewrite Ht, Hobs, Hname, Hmtu.
    change (true && negb false) with true. cbv beta iota.
    change (Interface.format_opt (Some m)) with m.
    rewrite !elem_of_app.
    destruct (decide (Some m = get_running_mtu run interface)) as [<-|Hne].
    + split; [|done]. intros [H|[H|[H|H]]].
      * by apply elem_of_nil in H.
      * destruct (Py.truthy_str (Interface.description w)).
        -- destruct (decide _); [by apply elem_of_nil in H|].
           by apply list_elem_of_singleton in H.
        -- destruct (Py.truthy_str (Interface.h_description o));
             [by apply list_elem_of_singleton in H|by apply elem_of_nil in H].
      * destruct (_ && _); [|by apply elem_of_nil in H].
        by apply list_elem_of_singleton in H.
      * destruct (Interface.disable w) as [dis|]; [|by apply elem_of_nil in H].
        destruct (decide _); [by apply elem_of_nil in H|].
        apply list_elem_of_singleton in H. by destruct dis.
    + split; [congruence|]. intros _. left. by left.
Qed.

Lemma running_mtu_read_witness :
  get_running_mtu
    (fun _ => "Link Status: Up" +:+ String nl
                ("Max Frame Size............... 1518" +:+ String nl
                   EmptyString))
    "0/3"
  = Some "1518".
Proof.
  destruct (running_mtu_read
              (fun _ => "Link Status: Up" +:+ String nl
                          ("Max Frame Size............... 1518"
                           +:+ String nl EmptyString))
              "0/3") as (_ & H & _).
  apply (H ("Link Status: Up" +:+ String nl EmptyString)
           "..............." "1518" (String nl EmptyString)).
  - reflexivity.
  - reflexivity.
  - by split.
  - by split.
  - by intros ?? [= <- _].
Defined.

End running_mtu.

(** ** edgeswitch_interface: objects without a name *)

Section unnamed.
Import Text InterfaceRead.

Lemma read_speed value : exists s, o_speed (read value) = Some s.
Proof.
  unfold read, parse_config_argument. simpl.
  destruct (Re.search _ _); by eexists.
Qed.

(** X20: an object read from a block in which no [interface] line is
    found has no name and is found under no name: looking an interface
    up among the objects read from the device gives what looking it up
    among the named ones gives. *)
Theorem unnamed_objects_never_found (ic : Dict.t (list string))
    (n : string) :
  InterfaceRead.search_obj_in_list n (map_config_to_obj ic) ≫= observed
  = Interface.search_obj_in_list n (omap observed (map_config_to_obj ic)).
Proof.
  unfold map_config_to_obj, InterfaceRead.search_obj_in_list,
    Interface.search_obj_in_list.
  induction ic as [|[key value] ic IH]; [done|].
  rewrite fmap_cons. cbn [List.find omap list_omap snd].
  destruct (read_speed value) as [s Hs].
  destruct (o_name (read value)) as [n'|] eqn:En.
  - assert (observed (read value)
            = Some {| Interface.h_name := n';
                      Interface.h_description := o_description (read value);
                      Interface.h_speed := s;
                      Interface.h_mtu := o_mtu (read value);
                      Interface.h_disable := o_disable (read value) |})
      as Ho by (unfold observed; by rewrite En, Hs).
    rewrite Ho. cbn [List.find Interface.h_name].
    destruct (decide (n' = n)) as [->|Hne].
    + rewrite !bool_decide_eq_true_2 by done. exact Ho.
    + rewrite !bool_decide_eq_false_2 by congruence. apply IH.
  - assert (observed (read value) = None) as Ho
      by (unfold observed; by rewrite En).
    rewrite Ho. rewrite bool_decide_eq_false_2 by done. apply IH.
Qed.

End unnamed.
